(** * Herbal product API: a shallow embedding of the request handlers

    The development follows the layering of the repository:
    query builders ([model/*.model.js]), services ([services/*.service.js]),
    controllers ([controllers/*.controller.js]), the authentication
    middleware and the response helpers.  Handlers are functions in a
    small state-and-exception monad over a [World] that holds the tables
    of the hosted store, the outcome of the coming store calls, the
    statements issued so far and the lines written with [console.error].

    Numbers are the doubles of JavaScript ([float], IEEE 754 binary64);
    integers that the code only compares or counts are [Z]. *)

From Stdlib Require Import ZArith List String Ascii Bool Lia.
From Stdlib Require Import Floats DecimalString.
Import ListNotations.

Local Open Scope string_scope.
Local Open Scope Z_scope.
Local Open Scope list_scope.

Set Implicit Arguments.

(* ===================================================================== *)
(** ** JavaScript values and coercions used by the handlers *)
(* ===================================================================== *)

Module Js.

(** An integer JSON literal read as a Number: the nearest double. *)
Definition of_int (z : Z) : float :=
  SF2Prim (binary_normalize prec emax z 0 false).

(** The decimal JSON literal [m * 10^-k] read as a Number.  For
    [|m| < 2^53] and [0 <= k <= 22] both operands are exact, so the
    correctly rounded quotient is the double nearest to the literal. *)
Definition decimal (m k : Z) : float :=
  PrimFloat.div (of_int m) (of_int (10 ^ k)).

(** ToBoolean on a Number, on an integer Number and on a string. *)
Definition truthy_num (x : float) : bool :=
  negb (PrimFloat.is_zero x || PrimFloat.is_nan x).

Definition truthy_int (n : Z) : bool := negb (n =? 0)%Z.

Definition truthy_str (s : string) : bool :=
  match s with EmptyString => false | _ => true end.

(** [undefined] is [None]; a present field is judged by [t]. *)
Definition truthy {A : Type} (t : A -> bool) (v : option A) : bool :=
  match v with Some a => t a | None => false end.

(** [s.includes(sub)] *)
Definition includes (s sub : string) : bool :=
  match index 0 sub s with Some _ => true | None => false end.

(** [parseInt] on a query-string value: leading white space, an
    optional sign, an optional [0x] prefix, then the longest run of
    digits; [None] is NaN.  ([undefined] prints as a word without
    digits, hence NaN.)  The result is the integer the digits denote;
    the Number the code holds is the double nearest to it, which is
    that integer up to [2^53] and compares with 1 and 100 as the
    integer does throughout. *)
Definition is_space (c : ascii) : bool :=
  let n := N_of_ascii c in
  ((9 <=? n) && (n <=? 13))%N || (n =? 32)%N.

Fixpoint skip_space (s : string) : string :=
  match s with
  | String c r => if is_space c then skip_space r else s
  | EmptyString => s
  end.

Definition digit_of (radix : Z) (c : ascii) : option Z :=
  let n := Z.of_N (N_of_ascii c) in
  let d := if ((48 <=? n) && (n <=? 57))%Z then n - 48
           else if ((97 <=? n) && (n <=? 122))%Z then n - 87
           else if ((65 <=? n) && (n <=? 90))%Z then n - 55
           else radix in
  if (d <? radix)%Z then Some d else None.

Fixpoint digits (radix : Z) (acc : option Z) (s : string) : option Z :=
  match s with
  | String c r =>
      match digit_of radix c with
      | Some d =>
          digits radix
            (Some (radix * match acc with Some a => a | None => 0 end + d)) r
      | None => acc
      end
  | EmptyString => acc
  end.

Definition unsigned (s : string) : option Z :=
  match s with
  | String "0" (String "x" r) | String "0" (String "X" r) => digits 16 None r
  | _ => digits 10 None s
  end.

Definition parseInt (v : option string) : option Z :=
  match v with
  | None => None
  | Some s =>
      match skip_space s with
      | String "-" r => option_map Z.opp (unsigned r)
      | String "+" r => unsigned r
      | t => unsigned t
      end
  end.

(** [parseInt(v) || dflt]: NaN and 0 are falsy. *)
Definition int_or (v : option Z) (dflt : Z) : Z :=
  match v with
  | Some n => if truthy_int n then n else dflt
  | None => dflt
  end.

(** [a || dflt] on an optional string: undefined and "" are falsy. *)
Definition str_or (v : option string) (dflt : string) : string :=
  match v with
  | Some s => if truthy_str s then s else dflt
  | None => dflt
  end.

(** The value of a finite Number other than 0 is [m * 2^e] for its
    significand [m] (of 53 bits, or fewer for a subnormal) and its
    exponent [e]. *)
Definition binary (x : float) : option (Z * Z) :=
  match Prim2SF x with
  | S754_finite _ m e => Some (Zpos m, e)
  | _ => None
  end.

(** [a * 10^j] against [b * 2^e], both positive, without fractions. *)
Definition compare_scaled (a j b e : Z) : comparison :=
  (a * 10 ^ Z.max j 0 * 2 ^ Z.max (- e) 0)
  ?= (b * 2 ^ Z.max e 0 * 10 ^ Z.max (- j) 0).

(** The decimal [s * 10^j] denotes the Number [m * 2^e] when it lies
    between the midpoints to the neighbouring Numbers; a midpoint goes
    to the Number with the even significand.  In units of [2^(e-2)] the
    Number is [4m], the upper midpoint [4m + 2] and the lower one
    [4m - 2], or [4m - 1] at a power of two, below which the Numbers
    lie twice as dense. *)
Definition denotes (s j m e : Z) : bool :=
  let low := if (m =? 2 ^ 52) && (-1074 <? e) then 4 * m - 1 else 4 * m - 2 in
  let high := 4 * m + 2 in
  match compare_scaled s j low (e - 2), compare_scaled s j high (e - 2) with
  | Gt, Lt => true
  | Eq, _ | _, Eq => Z.even m
  | _, _ => false
  end.

(** The exponent of the leading decimal digit:
    [10^t <= m * 2^e < 10^(t+1)]. *)
Definition magnitude (m e : Z) : Z :=
  let guess := (Z.log2 m + e) * 30103 / 100000 in
  match compare_scaled 1 (guess + 1) m e with
  | Gt => match compare_scaled 1 guess m e with
          | Gt => guess - 1
          | _ => guess
          end
  | _ => guess + 1
  end.

(** The candidates with [n] digits: the integers [s] and [s + 1] around
    [m * 2^e / 10^j], where [j] leaves [n] digits before the point.  The
    one that denotes the Number is taken; if both do, the nearer one,
    and the even one when they are equally near. *)
Definition with_digits (n m e : Z) : option (Z * Z) :=
  let j := magnitude m e - n + 1 in
  let s := (m * 2 ^ Z.max e 0 * 10 ^ Z.max (- j) 0)
           / (2 ^ Z.max (- e) 0 * 10 ^ Z.max j 0) in
  match denotes s j m e, denotes (s + 1) j m e with
  | true, false => Some (s, j)
  | false, true => Some (s + 1, j)
  | true, true =>
      match compare_scaled (2 * s + 1) j (2 * m) e with
      | Lt => Some (s + 1, j)
      | Gt => Some (s, j)
      | Eq => Some (if Z.even s then s else s + 1, j)
      end
  | false, false => None
  end.

Fixpoint fewest (fuel : nat) (n m e : Z) : option (Z * Z) :=
  match fuel with
  | O => None
  | S fuel' =>
      match with_digits n m e with
      | Some r => Some r
      | None => fewest fuel' (n + 1) m e
      end
  end.

(** Number::toString, as far as the digits go: the decimal [s * 10^j]
    with the fewest digits that denotes the magnitude of the finite
    Number [x]; 17 digits always suffice.  [None] for 0, NaN and the
    infinities. *)
Definition shortest (x : float) : option (Z * Z) :=
  match binary x with
  | Some (m, e) => fewest 17 1 m e
  | None => None
  end.

(** The first digit of a decimal numeral of at most 18 digits. *)
Fixpoint leading (fuel : nat) (s : Z) : Z :=
  match fuel with
  | O => s
  | S fuel' => if s <? 10 then s else leading fuel' (s / 10)
  end.

(** [parseFloat] and [isNaN] on a Number: the Number is printed and
    read back. *)
Definition parseFloat (x : float) : float := x.
Definition isNaN (x : float) : bool := PrimFloat.is_nan x.

(** [parseInt] on the Number of an integer literal [n]: the Number is
    printed and the digits up to the first character that is none are
    read; [None] is NaN.  An integer up to 2^53 is a Number and prints as
    its digits.  Beyond, the Number is the double nearest to [n], of
    value [m * 2^e]: below 1e21 it prints as that integer; from 1e21 on
    in exponent form, d.ddde+21, of which only the first digit is read;
    an infinity prints as a word. *)
Definition parseInt_num (n : Z) : option Z :=
  if Z.abs n <=? 2 ^ 53 then Some n
  else
    let x := PrimFloat.abs (of_int n) in
    if PrimFloat.is_infinity x then None
    else if PrimFloat.ltb x (of_int (10 ^ 21))
    then match binary x with
         | Some (m, e) => Some (Z.sgn n * (m * 2 ^ e))
         | None => None
         end
    else match shortest x with
         | Some (s, _) => Some (Z.sgn n * leading 17 s)
         | None => None
         end.

(** An integer Number or NaN in arithmetic, under [isNaN] and in a
    comparison [v < k] (false on NaN). *)
Definition number (v : option Z) : float :=
  match v with Some k => of_int k | None => PrimFloat.nan end.

Definition isNaN_int (v : option Z) : bool :=
  match v with Some _ => false | None => true end.

Definition less_int (v : option Z) (k : Z) : bool :=
  match v with Some n => n <? k | None => false end.

(** [Math.ceil(total / limit)] for a row count and a page size: the
    quotient of two small integers is exact enough for the ceiling to
    be the integer ceiling. *)
Definition ceil_div (total limit : Z) : Z := - ((- total) / limit).

End Js.

(* ===================================================================== *)
(** ** Rows of the five tables *)
(* ===================================================================== *)

(** Identifiers reach the handlers as text (route parameters, UUIDs of
    users) and the rows carry them as the store prints them.  Columns
    that none of the embedded handlers reads are left out of the rows. *)
Definition Id := string.

Record User := {
  u_id : Id;
  u_email : string;
  u_name : string;
  u_role : string;
  is_active : bool
}.

Record Category := { c_id : Id; c_name : string }.

Record Product := { p_id : Id; p_name : string; category_id : option Id }.

Record Order := {
  o_id : Id;
  user_id : Id;
  o_status : string;
  total_amount : float
}.

Record OrderItem := {
  order_id : Id;
  oi_product_id : Z;
  oi_quantity : Z;
  oi_price : float
}.

Record Db := {
  users : list User;
  categories : list Category;
  products : list Product;
  orders : list Order;          (* newest first *)
  order_items : list OrderItem;
  orders_seq : Z                (* BIGSERIAL of orders.id *)
}.

(* ===================================================================== *)
(** ** The store client and the monad of the handlers *)
(* ===================================================================== *)

Inductive Verb := Select | Insert | Update | Delete.

(** One statement sent to the store: verb, table, equality filter. *)
Record Stmt := {
  verb : Verb;
  table : string;
  filter : option (string * string)
}.

Definition is_write (s : Stmt) : bool :=
  match verb s with Select => false | _ => true end.

(** The [error] member of a store reply. *)
Record StoreError := { se_message : string; se_code : string }.

(** [{ data, error, count }] *)
Record Reply (A : Type) := {
  data : option A;
  error : option StoreError;
  count : option Z
}.

Record World := {
  db : Db;
  faults : list (option StoreError);
       (* outcome of the coming store calls, in order: [Some e] makes the
          call fail with [e] and leave the tables alone *)
  trace : list Stmt;        (* statements issued, oldest first *)
  console : list string     (* console.error, oldest first *)
}.

(** A thrown JavaScript error: [name] and [message]. *)
Record Err := { err_name : string; err_message : string }.

Definition Error (msg : string) : Err :=
  {| err_name := "Error"; err_message := msg |}.

Inductive Res (A : Type) : Type :=
| Ok (a : A)
| Throw (e : Err).
Arguments Throw {A} e.

Definition M (A : Type) : Type := World -> Res A * World.

Definition ret {A : Type} (a : A) : M A := fun w => (Ok a, w).

Definition bind {A B : Type} (m : M A) (k : A -> M B) : M B :=
  fun w =>
    match m w with
    | (Ok a, w') => k a w'
    | (Throw e, w') => (Throw e, w')
    end.

Definition throw {A : Type} (e : Err) : M A := fun w => (Throw e, w).

(** [try { m } catch (err) { h err }]: what [m] did to the world stays. *)
Definition try_catch {A : Type} (m : M A) (h : Err -> M A) : M A :=
  fun w =>
    match m w with
    | (Ok a, w') => (Ok a, w')
    | (Throw e, w') => h e w'
    end.

Definition console_error (line : string) : M unit :=
  fun w =>
    (Ok tt, {| db := db w; faults := faults w; trace := trace w;
               console := console w ++ [line] |}).

Declare Scope js_scope.
Delimit Scope js_scope with js.
Notation "x <- m ;; k" := (bind m (fun x => k))
  (at level 61, m at next level, right associativity) : js_scope.
Notation "m ;;; k" := (bind m (fun _ => k))
  (at level 61, right associativity) : js_scope.
Local Open Scope js_scope.

(** The catch blocks of the services all read
    [console.error(line, err); throw err]. *)
Definition rethrow_logged {A : Type} (line : string) (m : M A) : M A :=
  try_catch m (fun e => console_error line ;;; throw e).

(** A call of the store client.  It never throws: a failure comes back
    in [error].  The statement is recorded; the next entry of [faults]
    decides whether the call fails; otherwise [run] is the effect of the
    statement on the tables. *)
Definition store {A : Type} (s : Stmt) (run : Db -> Reply A * Db)
  : M (Reply A) :=
  fun w =>
    let issued := trace w ++ [s] in
    match faults w with
    | Some e :: rest =>
        (Ok {| data := None; error := Some e; count := None |},
         {| db := db w; faults := rest; trace := issued;
            console := console w |})
    | _ =>
        let (r, d) := run (db w) in
        (Ok r, {| db := d; faults := tl (faults w); trace := issued;
                  console := console w |})
    end.

Definition eq_filter (col val : string) : option (string * string) :=
  Some (col, val).

(** [.single()] on no row: [data] is null and the error code is PGRST116. *)
Definition single {A : Type} (row : option A) : Reply A :=
  match row with
  | Some r => {| data := Some r; error := None; count := None |}
  | None =>
      {| data := None;
         error := Some {| se_message := "JSON object requested, multiple (or no) rows returned";
                          se_code := "PGRST116" |};
         count := None |}
  end.

Definition rows {A : Type} (l : list A) : Reply (list A) :=
  {| data := Some l; error := None; count := None |}.

(** A reply that carries an error and nothing else. *)
Definition refused {A : Type} (e : StoreError) : Reply A :=
  {| data := None; error := Some e; count := None |}.

Definition range_not_satisfiable : StoreError :=
  {| se_message := "Requested range not satisfiable"; se_code := "PGRST103" |}.

(** [.select('*', { count: 'exact' }).range(from, to)]: the rows at
    positions [from..to] of the (filtered, newest first) table, and the
    number of rows the filter keeps.  With the exact count asked for,
    the store refuses an offset beyond that number (HTTP 416); an
    offset equal to it is answered with no rows. *)
Definition slice {A : Type} (l : list A) (from to : Z) : list A :=
  firstn (Z.to_nat (to - from + 1)) (skipn (Z.to_nat from) l).

Definition range {A : Type} (l : list A) (from to : Z) : Reply (list A) :=
  if Z.of_nat (List.length l) <? from then refused range_not_satisfiable
  else
    {| data := Some (slice l from to);
       error := None;
       count := Some (Z.of_nat (List.length l)) |}.

(* ===================================================================== *)
(** ** Column types of the schema *)
(* ===================================================================== *)

(** [users.id] is of type uuid: a text compared with the column is read
    as a uuid first.  The input function takes 32 hexadecimal digits in
    either case, with an optional hyphen after any group of four and
    optional braces around the whole, and the store prints a value in
    lower case with hyphens after 8, 12, 16 and 20 digits. *)
Module Uuid.

(** A hexadecimal digit, in lower case. *)
Definition hex (c : ascii) : option ascii :=
  let n := N_of_ascii c in
  if ((48 <=? n) && (n <=? 57))%N || ((97 <=? n) && (n <=? 102))%N then Some c
  else if ((65 <=? n) && (n <=? 70))%N then Some (ascii_of_N (n + 32))
  else None.

(** [n] bytes of two digits each are still to be read; a hyphen may
    follow every second byte but the last. *)
Fixpoint bytes (n : nat) (s : string) : option (list ascii * string) :=
  match n with
  | O => Some ([], s)
  | S n' =>
      match s with
      | String a (String b r) =>
          match hex a, hex b with
          | Some x, Some y =>
              let r' := match r with
                        | String "-" r'' =>
                            if Nat.even n' && negb (Nat.eqb n' 0) then r'' else r
                        | _ => r
                        end in
              match bytes n' r' with
              | Some (ds, rest) => Some (x :: y :: ds, rest)
              | None => None
              end
          | _, _ => None
          end
      | _ => None
      end
  end.

Fixpoint print (groups : list nat) (ds : list ascii) : string :=
  match groups with
  | [] => string_of_list_ascii ds
  | g :: more =>
      (string_of_list_ascii (firstn g ds) ++ "-" ++ print more (skipn g ds))%string
  end.

(** The value a text denotes, as the store prints it; [None] where the
    text is refused. *)
Definition parse (s : string) : option string :=
  let '(body, closing) := match s with
                          | String "{" r => (r, "}")
                          | _ => (s, "")
                          end in
  match bytes 16 body with
  | Some (ds, rest) =>
      if String.eqb rest closing then Some (print [8; 4; 4; 4]%nat ds) else None
  | None => None
  end.

(** Two texts that denote the same uuid. *)
Definition eqb (a b : string) : bool :=
  match parse a, parse b with
  | Some x, Some y => String.eqb x y
  | _, _ => false
  end.

End Uuid.

Definition invalid_uuid : StoreError :=
  {| se_message := "invalid input syntax for type uuid"; se_code := "22P02" |}.

Definition numeric_overflow : StoreError :=
  {| se_message := "numeric field overflow"; se_code := "22003" |}.

Definition integer_out_of_range : StoreError :=
  {| se_message := "value out of range for type integer"; se_code := "22003" |}.

Definition not_null_violation : StoreError :=
  {| se_message := "null value in column violates not-null constraint";
     se_code := "23502" |}.

Definition check_violation : StoreError :=
  {| se_message := "new row for relation violates check constraint";
     se_code := "23514" |}.

Definition fk_violation : StoreError :=
  {| se_message := "insert or update on table order_items violates foreign key constraint";
     se_code := "23503" |}.

(** The statuses the [orders.status] column admits (its CHECK), which
    are also the [validStatuses] of [updateOrder]. *)
Definition validStatuses : list string :=
  ["pending"; "processing"; "shipped"; "delivered"; "cancelled"].

Module Column.

(** A column of type DECIMAL(10,2) given a Number.  The client sends
    the Number as JSON: NaN and the infinities go as null, any other
    Number as its shortest decimal text.  The store reads the text
    exactly, rounds it to two decimals, ties away from zero, and
    refuses a result of more than ten digits.  The value is given in
    hundredths. *)
Definition decimal_10_2 (x : float) : StoreError + Z :=
  if PrimFloat.is_nan x || PrimFloat.is_infinity x then inl not_null_violation
  else
    let hundredths :=
      match Js.shortest x with
      | Some (s, j) =>
          if 0 <=? j + 2 then s * 10 ^ (j + 2)
          else (2 * s + 10 ^ (- j - 2)) / (2 * 10 ^ (- j - 2))
      | None => 0
      end in
    if 10 ^ 10 <=? Z.abs hundredths then inl numeric_overflow
    else inr (if PrimFloat.ltb x PrimFloat.zero then - hundredths else hundredths).

(** The store prints such a value with its two decimals and the client
    reads the Number nearest to it. *)
Definition read_decimal (hundredths : Z) : float := Js.decimal hundredths 2.

End Column.

Arguments Js.parseInt_num : simpl never.
Arguments Column.decimal_10_2 : simpl never.

(* ===================================================================== *)
(** ** Tokens, principals, requests and responses *)
(* ===================================================================== *)

(** The payload signed into a token by [login] and [refreshToken]. *)
Record Claims := { userId : Id; claim_email : string; claim_role : string }.

(** A signed token as [jsonwebtoken] sees it: the payload, the issue and
    expiry instants (seconds), issuer, audience, and the secret whose
    signature it carries.  The compact serialization is not modelled. *)
Record Token := {
  claims : Claims;
  iat : Z;
  exp : Z;
  iss : string;
  aud : string;
  signed_with : string
}.

Record TokenPair := { accessToken : Token; refreshToken : Token; expiresIn : Z }.

(** What may follow [Bearer ] in the header, or sit in [body.refreshToken]. *)
Inductive Credential :=
| Malformed (text : string)
| Jwt (t : Token).

(** The [Authorization] header: absent, not starting with [Bearer ], or
    [Bearer ] followed by a credential ([None] when nothing follows). *)
Inductive AuthHeader :=
| NoHeader
| OtherScheme (text : string)
| Bearer (c : option Credential).

(** [req.user] as set by [authenticateToken]; the department and
    position it also copies are read by none of the handlers below. *)
Record Principal := { id : Id; email : string; name : string; role : string }.

(** One element of [body.items]; a missing member is [None].  The
    members are JSON numbers: [product_id] and [quantity] integers,
    [price] a double. *)
Record Item := {
  product_id : option Z;
  quantity : option Z;
  price : option float
}.

Record Request := {
  authorization : AuthHeader;
  param_id : Id;                        (* req.params.id *)
  query_page : option string;           (* req.query.page *)
  query_limit : option string;          (* req.query.limit *)
  body_items : option (list Item);      (* [None]: missing or not an array *)
  body_status : option string;
  body_refreshToken : option Credential;
  user : option Principal
}.

Record Pagination := {
  currentPage : Z;
  totalPages : Z;
  totalItems : Z;
  itemsPerPage : Z;
  hasNextPage : bool;
  hasPrevPage : bool
}.

Record OrderWithItems := { order : Order; items : list OrderItem }.

Inductive Rows :=
| OrderRows (l : list Order)
| ProductRows (l : list Product).

Definition rows_empty (r : Rows) : bool :=
  match r with
  | OrderRows [] | ProductRows [] => true
  | _ => false
  end.

(** The [data] member of the envelope. *)
Inductive Payload :=
| NoData
| OrderPayload (o : OrderWithItems)
| Page (rows : Rows) (p : Pagination)
| TokensData (t : TokenPair).

(** The envelope written by the response helpers, without its timestamp.
    [errors] is the [{ error: err.message }] detail when present. *)
Record Response := {
  success : bool;
  status : Z;
  message : string;
  payload : Payload;
  errors : option string
}.

(** A handler reads [req.user.id] inside its [try]; without [req.user]
    that is a TypeError, which the handler's own [catch] receives. *)
Definition req_user (req : Request) : M Principal :=
  match user req with
  | Some p => ret p
  | None =>
      throw {| err_name := "TypeError";
               err_message := "Cannot read properties of undefined" |}
  end.

Module ResponseUtils.

Definition sendSuccessResponse (statusCode : Z) (msg : string)
    (d : Payload) : Response :=
  {| success := true; status := statusCode; message := msg;
     payload := d; errors := None |}.

Definition sendErrorResponse (statusCode : Z) (msg : string)
    (errs : option string) : Response :=
  {| success := false; status := statusCode; message := msg;
     payload := NoData; errors := errs |}.

Definition sendUnauthorizedResponse (msg : string) : Response :=
  sendErrorResponse 401 msg None.

Definition sendForbiddenResponse (msg : string) : Response :=
  sendErrorResponse 403 msg None.

Definition sendNotFoundResponse (msg : string) : Response :=
  sendErrorResponse 404 msg None.

Definition sendPaginatedResponse (d : Rows) (page limit total : Z)
    (msg : string) : Response :=
  let totalPages := Js.ceil_div total limit in
  sendSuccessResponse 200 msg
    (Page d
       {| currentPage := page;
          totalPages := totalPages;
          totalItems := total;
          itemsPerPage := limit;
          hasNextPage := page <? totalPages;
          hasPrevPage := 1 <? page |}).

End ResponseUtils.
Import ResponseUtils.

(* ===================================================================== *)
(** ** Paginated listings: query builders, services, controllers *)
(* ===================================================================== *)

Record RangeQuery := {
  q_table : string;
  q_filter : option (string * string);
  q_from : Z;
  q_to : Z
}.

(** What [findAll] and [findByUser] return. *)
Record Listing (A : Type) := {
  l_rows : list A;
  l_total : Z;
  l_page : Z;
  l_limit : Z
}.

Definition data_or_empty {A : Type} (r : Reply (list A)) : list A :=
  match data r with Some l => l | None => [] end.

Module OrderModel.

Definition getAllOrdersQuery (page limit : Z) : RangeQuery :=
  let from := (page - 1) * limit in
  let to := from + limit - 1 in
  {| q_table := "orders"; q_filter := None; q_from := from; q_to := to |}.

Definition getOrdersByUserQuery (userId : Id) (page limit : Z) : RangeQuery :=
  let from := (page - 1) * limit in
  let to := from + limit - 1 in
  {| q_table := "orders"; q_filter := eq_filter "user_id" userId;
     q_from := from; q_to := to |}.

End OrderModel.

Module ProductModel.

Definition getAllProductsQuery (page limit : Z) : RangeQuery :=
  let from := (page - 1) * limit in
  let to := from + limit - 1 in
  {| q_table := "products"; q_filter := None; q_from := from; q_to := to |}.

End ProductModel.

Definition select_range (q : RangeQuery) : Stmt :=
  {| verb := Select; table := q_table q; filter := q_filter q |}.

Module OrderService.
Import OrderModel.

Definition findAll (page limit : Z) : M (Listing Order) :=
  rethrow_logged "Error in findAll service:" (
    let query := getAllOrdersQuery page limit in
    r <- store (select_range query)
           (fun d => (range (orders d) (q_from query) (q_to query), d)) ;;
    match error r with
    | Some e =>
        console_error "Supabase error fetching orders:" ;;;
        throw (Error (se_message e))
    | None =>
        ret {| l_rows := data_or_empty r;
               l_total := Js.int_or (count r) 0;
               l_page := page; l_limit := limit |}
    end).

Definition findByUser (userId : Id) (page limit : Z) : M (Listing Order) :=
  rethrow_logged "Error in findByUser service:" (
    let query := getOrdersByUserQuery userId page limit in
    r <- store (select_range query)
           (fun d =>
              (range (List.filter (fun o => String.eqb (user_id o) userId) (orders d))
                 (q_from query) (q_to query), d)) ;;
    match error r with
    | Some e =>
        console_error "Supabase error fetching user orders:" ;;;
        throw (Error (se_message e))
    | None =>
        ret {| l_rows := data_or_empty r;
               l_total := Js.int_or (count r) 0;
               l_page := page; l_limit := limit |}
    end).

(** [getOrderItems(orderId)] *)
Definition getOrderItems (orderId : Id) : M (list OrderItem) :=
  rethrow_logged "Error in getOrderItems service:" (
    r <- store {| verb := Select; table := "order_items";
                  filter := eq_filter "order_id" orderId |}
           (fun d =>
              (rows (List.filter (fun i => String.eqb (order_id i) orderId)
                       (order_items d)), d)) ;;
    match error r with
    | Some e =>
        console_error "Supabase error fetching order items:" ;;;
        throw (Error (se_message e))
    | None => ret (data_or_empty r)
    end).

(** [findById(id)]: the order with its items, or null. *)
Definition findById (oid : Id) : M (option OrderWithItems) :=
  rethrow_logged "Error in findById service:" (
    r <- store {| verb := Select; table := "orders";
                  filter := eq_filter "id" oid |}
           (fun d =>
              (single (List.find (fun o => String.eqb (o_id o) oid) (orders d)), d)) ;;
    match error r with
    | Some e =>
        if negb (String.eqb (se_code e) "PGRST116") then
          console_error "Supabase error finding order:" ;;;
          throw (Error (se_message e))
        else ret tt
    | None => ret tt
    end ;;;
    match data r with
    | None => ret None
    | Some o =>
        its <- getOrderItems oid ;;
        ret (Some {| order := o; items := its |})
    end).

(** The argument of [create]. *)
Record OrderData := {
  od_user_id : Id;
  od_items : option (list Item);
  od_status : option string
}.

(** The loop of [create] over [orderData.items], started with
    [totalAmount = 0]: a falsy member throws, otherwise
    [totalAmount += parseFloat(item.price) * parseInt(item.quantity)]. *)
Fixpoint accumulate (its : list Item) (totalAmount : float) : M float :=
  match its with
  | [] => ret totalAmount
  | item :: rest =>
      match product_id item, quantity item, price item with
      | Some pid, Some q, Some p =>
          if negb (Js.truthy_int pid) || negb (Js.truthy_int q)
             || negb (Js.truthy_num p)
          then throw (Error "Each item must have product_id, quantity, and price")
          else accumulate rest
                 (PrimFloat.add totalAmount
                    (PrimFloat.mul (Js.parseFloat p) (Js.number (Js.parseInt_num q))))
      | _, _, _ =>
          throw (Error "Each item must have product_id, quantity, and price")
      end
  end.

(** The rows built by [orderData.items.map(...)]; every member is
    present once [accumulate] has passed.  A quantity that is NaN goes
    to the store as null; it makes the total NaN, with which the order
    insert before this one is refused. *)
Definition item_row (oid : Id) (item : Item) : OrderItem :=
  {| order_id := oid;
     oi_product_id := match product_id item with Some n => n | None => 0 end;
     oi_quantity := match quantity item with
                    | Some q => match Js.parseInt_num q with Some k => k | None => 0 end
                    | None => 0
                    end;
     oi_price := match price item with
                 | Some p => Js.parseFloat p
                 | None => PrimFloat.nan
                 end |}.

(** The row the store makes of an inserted order: the next serial id
    and the three columns the query supplies. *)
Definition new_order (uid : Id) (st : string) (total : float) (d : Db) : Order :=
  {| o_id := NilZero.string_of_int (Z.to_int (orders_seq d));
     user_id := uid; o_status := st; total_amount := total |}.

(** What the columns of an order row make of the supplied values:
    [user_id] is UUID and kept as the store prints it, [status] is
    CHECKed against the five statuses, [total_amount] is DECIMAL(10,2)
    NOT NULL CHECK (total_amount >= 0) and given as it is read back.
    ([user_id] refers to a table outside this model: a reference that
    does not hold there is one of the failures that [faults] decides.) *)
Definition order_columns (uid : Id) (st : string) (total : float)
  : StoreError + (Id * float) :=
  match Uuid.parse uid with
  | None => inl invalid_uuid
  | Some owner =>
      match Column.decimal_10_2 total with
      | inl e => inl e
      | inr hundredths =>
          if negb (existsb (String.eqb st) validStatuses) || (hundredths <? 0)
          then inl check_violation
          else inr (owner, Column.read_decimal hundredths)
      end
  end.

(** [insert(...).select().single()] on orders: a refused row leaves the
    tables as they are. *)
Definition insert_order (uid : Id) (st : string) (total : float) (d : Db)
  : Reply Order * Db :=
  match order_columns uid st total with
  | inl e => (refused e, d)
  | inr (owner, kept) =>
      let row := new_order owner st kept d in
      (single (Some row),
       {| users := users d; categories := categories d; products := products d;
          orders := row :: orders d; order_items := order_items d;
          orders_seq := orders_seq d + 1 |})
  end.

(** What the columns of an order item make of a supplied row:
    [quantity] is INTEGER CHECK (quantity > 0), [price] is DECIMAL(10,2)
    NOT NULL CHECK (price >= 0). *)
Definition item_columns (r : OrderItem) : StoreError + OrderItem :=
  if negb ((- 2 ^ 31 <=? oi_quantity r) && (oi_quantity r <? 2 ^ 31))
  then inl integer_out_of_range
  else
    match Column.decimal_10_2 (oi_price r) with
    | inl e => inl e
    | inr hundredths =>
        if (oi_quantity r <=? 0) || (hundredths <? 0) then inl check_violation
        else inr {| order_id := order_id r; oi_product_id := oi_product_id r;
                    oi_quantity := oi_quantity r;
                    oi_price := Column.read_decimal hundredths |}
    end.

Fixpoint all_columns (l : list OrderItem) : StoreError + list OrderItem :=
  match l with
  | [] => inr []
  | r :: more =>
      match item_columns r with
      | inl e => inl e
      | inr k =>
          match all_columns more with
          | inl e => inl e
          | inr ks => inr (k :: ks)
          end
      end
  end.

(** [order_id] REFERENCES orders(id) and [product_id] REFERENCES
    products(id). *)
Definition references_hold (d : Db) (r : OrderItem) : bool :=
  existsb (fun o => String.eqb (o_id o) (order_id r)) (orders d)
  && existsb (fun p => String.eqb (p_id p)
                         (NilZero.string_of_int (Z.to_int (oi_product_id r))))
       (products d).

(** [insert(rows).select()] on order_items: all rows or none. *)
Definition insert_items (its : list OrderItem) (d : Db)
  : Reply (list OrderItem) * Db :=
  match all_columns its with
  | inl e => (refused e, d)
  | inr kept =>
      if forallb (references_hold d) kept then
        (rows kept,
         {| users := users d; categories := categories d; products := products d;
            orders := orders d; order_items := order_items d ++ kept;
            orders_seq := orders_seq d |})
      else (refused fk_violation, d)
  end.

(** [delete().eq('id', oid)] on orders; [order_items.order_id] is
    declared ON DELETE CASCADE. *)
Definition delete_order (oid : Id) (d : Db) : Reply unit * Db :=
  ({| data := None; error := None; count := None |},
   {| users := users d; categories := categories d; products := products d;
      orders := List.filter (fun o => negb (String.eqb (o_id o) oid)) (orders d);
      order_items :=
        List.filter (fun i => negb (String.eqb (order_id i) oid)) (order_items d);
      orders_seq := orders_seq d |}).

Definition create (orderData : OrderData) : M OrderWithItems :=
  rethrow_logged "Error in create service:" (
    (if negb (Js.truthy_str (od_user_id orderData))
     then throw (Error "User ID is required") else ret tt) ;;;
    match od_items orderData with
    | None | Some [] => throw (Error "Order must have at least one item")
    | Some its =>
        totalAmount <- accumulate its PrimFloat.zero ;;
        (* createOrderQuery *)
        let st := Js.str_or (Some (Js.str_or (od_status orderData) "pending")) "pending" in
        let total := Js.parseFloat totalAmount in
        r <- store {| verb := Insert; table := "orders"; filter := None |}
               (insert_order (od_user_id orderData) st total) ;;
        match error r with
        | Some e =>
            console_error "Supabase error creating order:" ;;;
            throw (Error (se_message e))
        | None =>
            match data r with
            | None =>
                throw {| err_name := "TypeError";
                         err_message := "Cannot read properties of null" |}
            | Some createdOrder =>
                let itemsToInsert := List.map (item_row (o_id createdOrder)) its in
                r2 <- store {| verb := Insert; table := "order_items";
                               filter := None |}
                        (insert_items itemsToInsert) ;;
                match error r2 with
                | Some e =>
                    console_error "Supabase error creating order items:" ;;;
                    (* Rollback: delete the order *)
                    _ <- store {| verb := Delete; table := "orders";
                                  filter := eq_filter "id" (o_id createdOrder) |}
                           (delete_order (o_id createdOrder)) ;;
                    throw (Error (se_message e))
                | None =>
                    ret {| order := createdOrder; items := data_or_empty r2 |}
                end
            end
        end
    end).

End OrderService.

Module ProductService.
Import ProductModel.

Definition findAll (page limit : Z) : M (Listing Product) :=
  rethrow_logged "Error in findAll service:" (
    let query := getAllProductsQuery page limit in
    r <- store (select_range query)
           (fun d => (range (products d) (q_from query) (q_to query), d)) ;;
    match error r with
    | Some e =>
        console_error "Supabase error fetching products:" ;;;
        throw (Error (se_message e))
    | None =>
        ret {| l_rows := data_or_empty r;
               l_total := Js.int_or (count r) 0;
               l_page := page; l_limit := limit |}
    end).

End ProductService.

(** [parseInt(req.query.page) || 1] and [parseInt(req.query.limit) || 10] *)
Definition page_of (req : Request) : Z := Js.int_or (Js.parseInt (query_page req)) 1.
Definition limit_of (req : Request) : Z := Js.int_or (Js.parseInt (query_limit req)) 10.

Definition invalid_pagination (page limit : Z) : bool :=
  (page <? 1) || (limit <? 1) || (100 <? limit).

Module ProductController.

Definition getAllProducts (req : Request) : M Response :=
  try_catch (
    let page := page_of req in
    let limit := limit_of req in
    if invalid_pagination page limit then
      ret (sendErrorResponse 400 "Invalid pagination parameters" None)
    else
      result <- ProductService.findAll page limit ;;
      ret (sendPaginatedResponse (ProductRows (l_rows result)) page limit
             (l_total result) "Products retrieved successfully"))
    (fun err =>
       console_error "Error in getAllProducts controller:" ;;;
       ret (sendErrorResponse 500 "Failed to fetch products"
              (Some (err_message err)))).

End ProductController.

Module OrderController.
Import OrderService.

Definition getAllOrders (req : Request) : M Response :=
  try_catch (
    let page := page_of req in
    let limit := limit_of req in
    if invalid_pagination page limit then
      ret (sendErrorResponse 400 "Invalid pagination parameters" None)
    else
      result <- findAll page limit ;;
      ret (sendPaginatedResponse (OrderRows (l_rows result)) page limit
             (l_total result) "Orders retrieved successfully"))
    (fun err =>
       console_error "Error in getAllOrders controller:" ;;;
       ret (sendErrorResponse 500 "Failed to fetch orders"
              (Some (err_message err)))).

Definition getUserOrders (req : Request) : M Response :=
  try_catch (
    p <- req_user req ;;
    let userId := id p in
    let page := page_of req in
    let limit := limit_of req in
    if invalid_pagination page limit then
      ret (sendErrorResponse 400 "Invalid pagination parameters" None)
    else
      result <- findByUser userId page limit ;;
      ret (sendPaginatedResponse (OrderRows (l_rows result)) page limit
             (l_total result) "Orders retrieved successfully"))
    (fun err =>
       console_error "Error in getUserOrders controller:" ;;;
       ret (sendErrorResponse 500 "Failed to fetch orders"
              (Some (err_message err)))).

Definition getOrderById (req : Request) : M Response :=
  try_catch (
    let oid := param_id req in
    p <- req_user req ;;
    let userId := id p in
    let userRole := role p in
    if negb (Js.truthy_str oid) then
      ret (sendErrorResponse 400 "Order ID is required" None)
    else
      found <- findById oid ;;
      match found with
      | None => ret (sendNotFoundResponse "Order not found")
      | Some o =>
          (* Check if user owns the order or is admin *)
          if negb (String.eqb userRole "admin")
             && negb (String.eqb (user_id (order o)) userId)
          then ret (sendErrorResponse 403 "Access denied" None)
          else ret (sendSuccessResponse 200 "Order retrieved successfully"
                      (OrderPayload o))
      end)
    (fun err =>
       console_error "Error in getOrderById controller:" ;;;
       ret (sendErrorResponse 500 "Failed to fetch order"
              (Some (err_message err)))).

(** The loop of [createOrder] over [items]: the first item that fails
    a test ends the request with its 400 response. *)
Fixpoint validate_items (its : list Item) : option Response :=
  match its with
  | [] => None
  | item :: rest =>
      match product_id item, quantity item, price item with
      | Some pid, Some q, Some p =>
          if negb (Js.truthy_int pid) || negb (Js.truthy_int q)
             || negb (Js.truthy_num p)
          then Some (sendErrorResponse 400
                       "Each item must have product_id, quantity, and price" None)
          else if Js.isNaN_int (Js.parseInt_num q) || Js.less_int (Js.parseInt_num q) 1
          then Some (sendErrorResponse 400 "Invalid quantity value" None)
          else if Js.isNaN p || PrimFloat.ltb (Js.parseFloat p) PrimFloat.zero
          then Some (sendErrorResponse 400 "Invalid price value" None)
          else validate_items rest
      | _, _, _ =>
          Some (sendErrorResponse 400
                  "Each item must have product_id, quantity, and price" None)
      end
  end.

Definition createOrder (req : Request) : M Response :=
  try_catch (
    p <- req_user req ;;
    let userId := id p in
    match body_items req with
    | None | Some [] =>
        ret (sendErrorResponse 400 "Order must have at least one item" None)
    | Some its =>
        match validate_items its with
        | Some rejected => ret rejected
        | None =>
            let orderData :=
              {| od_user_id := userId;
                 od_items := Some its;
                 od_status := Some (Js.str_or (body_status req) "pending") |} in
            created <- create orderData ;;
            ret (sendSuccessResponse 201 "Order created successfully"
                   (OrderPayload created))
        end
    end)
    (fun err =>
       console_error "Error in createOrder controller:" ;;;
       if Js.includes (err_message err) "required"
          || Js.includes (err_message err) "must have"
       then ret (sendErrorResponse 400 (err_message err) None)
       else ret (sendErrorResponse 500 "Failed to create order"
                   (Some (err_message err)))).

End OrderController.

(* ===================================================================== *)
(** ** Categories *)
(* ===================================================================== *)

Module CategoryService.

Definition findById (cid : Id) : M (option Category) :=
  rethrow_logged "Error in findById service:" (
    r <- store {| verb := Select; table := "categories";
                  filter := eq_filter "id" cid |}
           (fun d =>
              (single (List.find (fun c => String.eqb (c_id c) cid) (categories d)), d)) ;;
    match error r with
    | Some e =>
        if negb (String.eqb (se_code e) "PGRST116") then
          console_error "Supabase error finding category:" ;;;
          throw (Error (se_message e))
        else ret tt
    | None => ret tt
    end ;;;
    ret (data r)).

Definition references (cid : Id) (p : Product) : bool :=
  match category_id p with
  | Some c => String.eqb c cid
  | None => false
  end.

(** [delete().eq('id', cid)] on categories; [products.category_id] is
    declared ON DELETE SET NULL. *)
Definition delete_category (cid : Id) (d : Db) : Reply unit * Db :=
  ({| data := None; error := None; count := None |},
   {| users := users d;
      categories :=
        List.filter (fun c => negb (String.eqb (c_id c) cid)) (categories d);
      products :=
        List.map (fun p =>
                    if references cid p
                    then {| p_id := p_id p; p_name := p_name p;
                            category_id := None |}
                    else p) (products d);
      orders := orders d; order_items := order_items d;
      orders_seq := orders_seq d |}).

Definition delete (cid : Id) : M bool :=
  rethrow_logged "Error in delete service:" (
    existing <- findById cid ;;
    match existing with
    | None => throw (Error "Category not found")
    | Some _ =>
        (* Check if category has products *)
        r <- store {| verb := Select; table := "products";
                      filter := eq_filter "category_id" cid |}
               (fun d =>
                  (rows (firstn 1 (List.filter (references cid) (products d))), d)) ;;
        match error r with
        | Some _ => console_error "Error checking category products:"
        | None => ret tt
        end ;;;
        match data r with
        | Some (_ :: _) =>
            throw (Error "Cannot delete category with existing products")
        | _ =>
            r2 <- store {| verb := Delete; table := "categories";
                           filter := eq_filter "id" cid |}
                    (delete_category cid) ;;
            match error r2 with
            | Some e =>
                console_error "Supabase error deleting category:" ;;;
                throw (Error (se_message e))
            | None => ret true
            end
        end
    end).

End CategoryService.

Module CategoryController.

Definition deleteCategory (req : Request) : M Response :=
  try_catch (
    let cid := param_id req in
    if negb (Js.truthy_str cid) then
      ret (sendErrorResponse 400 "Category ID is required" None)
    else
      _ <- CategoryService.delete cid ;;
      ret (sendSuccessResponse 200 "Category deleted successfully" NoData))
    (fun err =>
       console_error "Error in deleteCategory controller:" ;;;
       if Js.includes (err_message err) "not found" then
         ret (sendNotFoundResponse "Category not found")
       else if Js.includes (err_message err) "existing products" then
         ret (sendErrorResponse 400 (err_message err) None)
       else
         ret (sendErrorResponse 500 "Failed to delete category"
                (Some (err_message err)))).

End CategoryController.

(* ===================================================================== *)
(** ** Users *)
(* ===================================================================== *)

Module UserService.

(** The rows that [.eq('id', uid)] selects: the column is of type uuid. *)
Definition has_id (uid : Id) (u : User) : bool := Uuid.eqb (u_id u) uid.

(** [select('*').eq('id', uid).single()] on users; a text that is no
    uuid is refused. *)
Definition select_user (uid : Id) (d : Db) : Reply User * Db :=
  match Uuid.parse uid with
  | Some _ => (single (List.find (has_id uid) (users d)), d)
  | None => (refused invalid_uuid, d)
  end.

Definition findById (uid : Id) : M (option User) :=
  rethrow_logged "Error finding user by ID:" (
    r <- store {| verb := Select; table := "users";
                  filter := eq_filter "id" uid |}
           (select_user uid) ;;
    match error r with
    | Some e =>
        if negb (String.eqb (se_code e) "PGRST116") then
          throw (Error ("Database error: " ++ se_message e)%string)
        else ret tt
    | None => ret tt
    end ;;;
    ret (data r)).

(** [update({ is_active: false }).eq('id', uid)] *)
Definition set_inactive (uid : Id) (d : Db) : Reply unit * Db :=
  match Uuid.parse uid with
  | Some _ =>
      ({| data := None; error := None; count := None |},
       {| users :=
            List.map (fun u =>
                        if has_id uid u
                        then {| u_id := u_id u; u_email := u_email u;
                                u_name := u_name u; u_role := u_role u;
                                is_active := false |}
                        else u) (users d);
          categories := categories d; products := products d;
          orders := orders d; order_items := order_items d;
          orders_seq := orders_seq d |})
  | None => (refused invalid_uuid, d)
  end.

Definition deactivate (uid : Id) : M bool :=
  rethrow_logged "Error deactivating user:" (
    r <- store {| verb := Update; table := "users";
                  filter := eq_filter "id" uid |}
           (set_inactive uid) ;;
    match error r with
    | Some e => throw (Error ("Database error: " ++ se_message e)%string)
    | None => ret true
    end).

End UserService.

Module UserController.

Definition deactivateUser (req : Request) : M Response :=
  try_catch (
    let uid := param_id req in
    (* Check if user exists *)
    existingUser <- UserService.findById uid ;;
    match existingUser with
    | None => ret (sendNotFoundResponse "User not found")
    | Some _ =>
        (* Prevent self-deactivation *)
        p <- req_user req ;;
        if String.eqb uid (id p) then
          ret (sendErrorResponse 400 "You cannot deactivate your own account" None)
        else
          _ <- UserService.deactivate uid ;;
          ret (sendSuccessResponse 200 "User deactivated successfully" NoData)
    end)
    (fun err =>
       console_error "Deactivate user error:" ;;;
       ret (sendErrorResponse 500 "Failed to deactivate user" None)).

End UserController.

(* ===================================================================== *)
(** ** Tokens and authentication *)
(* ===================================================================== *)

(** [config/env.config.js]: the secret and the two validity windows,
    in seconds ('15m' and '7d' unless the environment says otherwise). *)
Record Env := {
  JWT_SECRET : string;
  JWT_ACCESS_EXPIRES_IN : Z;
  JWT_REFRESH_EXPIRES_IN : Z
}.

Definition default_env : Env :=
  {| JWT_SECRET := "your-secret-key";
     JWT_ACCESS_EXPIRES_IN := 15 * 60;
     JWT_REFRESH_EXPIRES_IN := 7 * 24 * 60 * 60 |}.

Record SignOptions := { so_expiresIn : Z; so_issuer : string; so_audience : string }.
Record VerifyOptions := { vo_issuer : string; vo_audience : string }.

(** The two calls of the [jsonwebtoken] library the code relies on, at
    the clock reading [now].  [sign] stamps the payload; [verify] checks
    the signature, then the expiry, then audience and issuer, and throws
    [JsonWebTokenError] or [TokenExpiredError]. *)
Module jwt.

Definition sign (now : Z) (payload : Claims) (secret : string)
    (o : SignOptions) : Token :=
  {| claims := payload; iat := now; exp := now + so_expiresIn o;
     iss := so_issuer o; aud := so_audience o; signed_with := secret |}.

Definition verify (now : Z) (c : Credential) (secret : string)
    (o : VerifyOptions) : M Claims :=
  match c with
  | Malformed _ =>
      throw {| err_name := "JsonWebTokenError"; err_message := "jwt malformed" |}
  | Jwt t =>
      if negb (String.eqb (signed_with t) secret) then
        throw {| err_name := "JsonWebTokenError";
                 err_message := "invalid signature" |}
      else if exp t <=? now then
        throw {| err_name := "TokenExpiredError"; err_message := "jwt expired" |}
      else if negb (String.eqb (aud t) (vo_audience o)) then
        throw {| err_name := "JsonWebTokenError";
                 err_message := "jwt audience invalid" |}
      else if negb (String.eqb (iss t) (vo_issuer o)) then
        throw {| err_name := "JsonWebTokenError";
                 err_message := "jwt issuer invalid" |}
      else ret (claims t)
  end.

End jwt.

Module JwtUtils.

Definition generateAccessToken (env : Env) (now : Z) (payload : Claims) : Token :=
  jwt.sign now payload (JWT_SECRET env)
    {| so_expiresIn := JWT_ACCESS_EXPIRES_IN env;
       so_issuer := "hr-backend"; so_audience := "hr-frontend" |}.

Definition generateRefreshToken (env : Env) (now : Z) (payload : Claims) : Token :=
  jwt.sign now payload (JWT_SECRET env)
    {| so_expiresIn := JWT_REFRESH_EXPIRES_IN env;
       so_issuer := "hr-backend"; so_audience := "hr-frontend" |}.

Definition verifyAccessToken (env : Env) (now : Z) (token : Credential) : M Claims :=
  jwt.verify now token (JWT_SECRET env)
    {| vo_issuer := "hr-backend"; vo_audience := "hr-frontend" |}.

Definition verifyRefreshToken (env : Env) (now : Z) (token : Credential) : M Claims :=
  jwt.verify now token (JWT_SECRET env)
    {| vo_issuer := "hr-backend"; vo_audience := "hr-frontend" |}.

Definition generateTokenPair (env : Env) (now : Z) (payload : Claims) : TokenPair :=
  let access := generateAccessToken env now payload in
  let refresh := generateRefreshToken env now payload in
  {| accessToken := access; refreshToken := refresh;
     expiresIn := JWT_ACCESS_EXPIRES_IN env |}.

Definition extractTokenFromHeader (authHeader : AuthHeader) : option Credential :=
  match authHeader with
  | NoHeader | OtherScheme _ => None
  | Bearer c => c
  end.

End JwtUtils.

(** A middleware either answers the request or hands it on. *)
Inductive Outcome :=
| Respond (r : Response)
| Next (req : Request).

Definition with_user (req : Request) (p : Principal) : Request :=
  {| authorization := authorization req; param_id := param_id req;
     query_page := query_page req; query_limit := query_limit req;
     body_items := body_items req; body_status := body_status req;
     body_refreshToken := body_refreshToken req; user := Some p |}.

Module AuthMiddleware.
Import JwtUtils.

Definition authenticateToken (env : Env) (now : Z) (req : Request) : M Outcome :=
  try_catch (
    let authHeader := authorization req in
    match extractTokenFromHeader authHeader with
    | None => ret (Respond (sendUnauthorizedResponse "Access token is required"))
    | Some token =>
        (* Verify token *)
        decoded <- verifyAccessToken env now token ;;
        (* Get user from database *)
        found <- UserService.findById (userId decoded) ;;
        match found with
        | None => ret (Respond (sendUnauthorizedResponse "User not found"))
        | Some u =>
            if negb (is_active u) then
              ret (Respond (sendUnauthorizedResponse "Account is deactivated"))
            else
              ret (Next (with_user req
                           {| id := u_id u; email := u_email u;
                              name := u_name u; role := u_role u |}))
        end
    end)
    (fun error =>
       if String.eqb (err_name error) "JsonWebTokenError" then
         ret (Respond (sendUnauthorizedResponse "Invalid token"))
       else if String.eqb (err_name error) "TokenExpiredError" then
         ret (Respond (sendUnauthorizedResponse "Token has expired"))
       else
         console_error "Authentication error:" ;;;
         ret (Respond (sendUnauthorizedResponse "Authentication failed"))).

Definition authorizeRoles (allowedRoles : list string) (req : Request) : Outcome :=
  match user req with
  | None => Respond (sendUnauthorizedResponse "Authentication required")
  | Some p =>
      if negb (existsb (String.eqb (role p)) allowedRoles) then
        Respond (sendForbiddenResponse "Insufficient permissions")
      else Next req
  end.

Definition requireAdmin : Request -> Outcome := authorizeRoles ["admin"].

End AuthMiddleware.

Module AuthController.
Import JwtUtils.

Definition refreshToken (env : Env) (now : Z) (req : Request) : M Response :=
  try_catch (
    match body_refreshToken req with
    | None => ret (sendUnauthorizedResponse "Refresh token is required")
    | Some token =>
        (* Verify refresh token *)
        decoded <- verifyRefreshToken env now token ;;
        found <- UserService.findById (userId decoded) ;;
        match found with
        | None => ret (sendUnauthorizedResponse "User not found")
        | Some u =>
            if negb (is_active u) then
              ret (sendUnauthorizedResponse "Account is deactivated")
            else
              let tokens :=
                generateTokenPair env now
                  {| userId := u_id u; claim_email := u_email u;
                     claim_role := u_role u |} in
              ret (sendSuccessResponse 200 "Token refreshed successfully"
                     (TokensData tokens))
        end
    end)
    (fun error =>
       if String.eqb (err_name error) "JsonWebTokenError" then
         ret (sendUnauthorizedResponse "Invalid refresh token")
       else if String.eqb (err_name error) "TokenExpiredError" then
         ret (sendUnauthorizedResponse "Refresh token has expired")
       else
         console_error "Refresh token error:" ;;;
         ret (sendErrorResponse 500 "Failed to refresh token" None)).

End AuthController.

(* ===================================================================== *)
(** ** Vocabulary of the statements and sample data *)
(* ===================================================================== *)

(** The next store call succeeds. *)
Definition next_call_ok (w : World) : Prop :=
  match faults w with Some _ :: _ => False | _ => True end.

Definition world_of (d : Db) (f : list (option StoreError)) : World :=
  {| db := d; faults := f; trace := []; console := [] |}.

Definition page_request (page limit : string) : Request :=
  {| authorization := NoHeader; param_id := ""; query_page := Some page;
     query_limit := Some limit; body_items := None; body_status := None;
     body_refreshToken := None; user := None |}.

Definition tea (n : string) : Product :=
  {| p_id := n; p_name := "Chamomile Tea"; category_id := Some "1" |}.

Definition five_products : Db :=
  {| users := []; categories := [{| c_id := "1"; c_name := "Herbal Teas" |}];
     products := [tea "5"; tea "4"; tea "3"; tea "2"; tea "1"];
     orders := []; order_items := []; orders_seq := 1 |}.

(** The answer of a listing handler for [page], [limit] and a table of
    [N] rows of which the page does not start beyond the last, as far
    as the pagination contract goes: the items are empty exactly when
    the offset [(page - 1) * limit] is [N]. *)
Definition page_answer (resp : Response) (rs : Rows) (page limit N : Z) : Prop :=
  exists meta,
    status resp = 200 /\ payload resp = Page rs meta /\
    currentPage meta = page /\ itemsPerPage meta = limit /\
    totalItems meta = N /\
    (totalPages meta - 1) * limit < N <= totalPages meta * limit /\
    hasNextPage meta = (page <? totalPages meta) /\
    hasPrevPage meta = (1 <? page) /\
    (N <= page * limit -> hasNextPage meta = false) /\
    (rows_empty rs = true <-> N = (page - 1) * limit).

(** An item the two validation loops let through: the three members are
    present and truthy, [parseInt] of the quantity is a number that is
    at least 1 and the price is not negative.  A truthy price is neither
    0 nor NaN. *)
Definition accepted (it : Item) : bool :=
  match product_id it, quantity it, price it with
  | Some pid, Some q, Some p =>
      Js.truthy_int pid && Js.truthy_int q && Js.truthy_num p
      && negb (Js.isNaN_int (Js.parseInt_num q))
      && negb (Js.less_int (Js.parseInt_num q) 1)
      && negb (PrimFloat.ltb p PrimFloat.zero)
  | _, _, _ => false
  end.

(** [parseFloat(item.price) * parseInt(item.quantity)] *)
Definition line_amount (it : Item) : float :=
  match price it, quantity it with
  | Some p, Some q => PrimFloat.mul p (Js.number (Js.parseInt_num q))
  | _, _ => PrimFloat.nan
  end.

(** The binary64 accumulation, left to right from 0. *)
Definition float_total (its : list Item) : float :=
  fold_left (fun acc it => PrimFloat.add acc (line_amount it)) its PrimFloat.zero.

Definition insert_orders_stmt : Stmt :=
  {| verb := Insert; table := "orders"; filter := None |}.
Definition insert_items_stmt : Stmt :=
  {| verb := Insert; table := "order_items"; filter := None |}.
Definition delete_order_stmt (oid : Id) : Stmt :=
  {| verb := Delete; table := "orders"; filter := eq_filter "id" oid |}.

(** The status column written by [create]: [|| 'pending'] is applied by
    the service and again by [createOrderQuery]. *)
Definition status_written (st : option string) : string :=
  Js.str_or (Some (Js.str_or st "pending")) "pending".

(** The two inserts of [create]: the order row for owner [uid], status
    [st] and items [its], and the item rows for the order [oid]. *)
Definition order_insert (uid : Id) (st : option string) (its : list Item)
    (d : Db) : Reply Order * Db :=
  OrderService.insert_order uid (status_written st)
    (Js.parseFloat (float_total its)) d.

(** The text of a BIGINT as the store prints it, which is how the ids of
    orders, categories and products are spelled in the rows. *)
Definition bigint_text (s : string) : Prop :=
  exists n, - 2 ^ 63 <= n < 2 ^ 63 /\ s = NilZero.string_of_int (Z.to_int n).

(** The row that the store keeps of a request item of the order [oid]:
    the product id and the quantity as sent, the price in hundredths. *)
Definition kept_of (oid : Id) (it : Item) (k : OrderItem) : Prop :=
  exists pid q pr hundredths,
    product_id it = Some pid /\ quantity it = Some q /\ price it = Some pr /\
    0 < q < 2 ^ 31 /\
    Column.decimal_10_2 pr = inr hundredths /\ 0 <= hundredths < 10 ^ 10 /\
    k = {| order_id := oid; oi_product_id := pid; oi_quantity := q;
           oi_price := Js.decimal hundredths 2 |}.

Definition items_insert (oid : Id) (its : list Item) (d : Db)
    : Reply (list OrderItem) * Db :=
  OrderService.insert_items (List.map (OrderService.item_row oid) its) d.

(** What [createOrder] answers to a thrown error with message [msg]. *)
Definition create_failure (msg : string) : Response :=
  if Js.includes msg "required" || Js.includes msg "must have"
  then sendErrorResponse 400 msg None
  else sendErrorResponse 500 "Failed to create order" (Some msg).

(** Sample principals, tables and requests. *)
Definition alice : Principal :=
  {| id := "0b0e7a52-6c1d-4c0e-9a43-2f1f4f3c1a10"; email := "alice@example.com";
     name := "Alice"; role := "user" |}.

Definition bob : Principal :=
  {| id := "7d9c1e84-33aa-4b7b-8a55-90c2d6e0b2f1"; email := "bob@example.com";
     name := "Bob"; role := "user" |}.

Definition root : Principal :=
  {| id := "c56a4180-65aa-42ec-a945-5fd21dec0538"; email := "root@example.com";
     name := "Root"; role := "admin" |}.

Definition user_row (p : Principal) (active : bool) : User :=
  {| u_id := id p; u_email := email p; u_name := name p; u_role := role p;
     is_active := active |}.

Definition shop : Db :=
  {| users := [user_row alice true; user_row bob true; user_row root true];
     categories := [{| c_id := "1"; c_name := "Herbal Teas" |};
                    {| c_id := "2"; c_name := "Supplements" |}];
     products := [tea "2"; tea "1"];
     orders := []; order_items := []; orders_seq := 1 |}.

Definition order_request (p : Principal) (its : list Item) : Request :=
  {| authorization := NoHeader; param_id := ""; query_page := None;
     query_limit := None; body_items := Some its; body_status := None;
     body_refreshToken := None; user := Some p |}.

(** The item [{ product_id: pid, quantity: q, price: m * 10^-k }]. *)
Definition decimal_item (k : Z) (line : Z * Z * Z) : Item :=
  let '(pid, m, q) := line in
  {| product_id := Some pid; quantity := Some q; price := Some (Js.decimal m k) |}.

(** Following the words of the specification: the sum of price times
    quantity in exact decimal arithmetic, for prices [m * 10^-k], in
    units of [10^-k]; that decimal as a Number; and that decimal in the
    precision of the store's decimal type, that is in hundredths, a
    half going away from zero. *)
Definition exact_decimal_units (lines : list (Z * Z * Z)) : Z :=
  fold_right (fun line s => let '(_, m, q) := line in m * q + s) 0 lines.

Definition exact_decimal_total (k : Z) (lines : list (Z * Z * Z)) : float :=
  Js.decimal (exact_decimal_units lines) k.

Definition exact_decimal_hundredths (k : Z) (lines : list (Z * Z * Z)) : Z :=
  if k <=? 2 then exact_decimal_units lines * 10 ^ (2 - k)
  else (2 * exact_decimal_units lines + 10 ^ (k - 2)) / (2 * 10 ^ (k - 2)).

(** Quantities and product ids are integers a double holds exactly. *)
Definition safe_integers (it : Item) : bool :=
  match product_id it, quantity it with
  | Some pid, Some q => (Z.abs pid <=? 2 ^ 53) && (Z.abs q <=? 2 ^ 53)
  | _, _ => true
  end.

Definition connection_lost : StoreError :=
  {| se_message := "connection terminated unexpectedly"; se_code := "08006" |}.

Definition one_tea : list Item :=
  [{| product_id := Some 1; quantity := Some 2; price := Some (Js.decimal 1599 2) |}].

Definition select_by_id (tbl : string) (i : Id) : Stmt :=
  {| verb := Select; table := tbl; filter := eq_filter "id" i |}.

Definition items_of (oid : Id) (d : Db) : list OrderItem :=
  List.filter (fun i => String.eqb (order_id i) oid) (order_items d).

Definition alices_order : Order :=
  {| o_id := "7"; user_id := id alice; o_status := "pending";
     total_amount := Js.decimal 4797 2 |}.

Definition shop_with_order : Db :=
  {| users := users shop; categories := categories shop; products := products shop;
     orders := [alices_order];
     order_items := [{| order_id := "7"; oi_product_id := 1; oi_quantity := 3;
                        oi_price := Js.decimal 1599 2 |}];
     orders_seq := 8 |}.

Definition order_lookup (p : Principal) (oid : Id) : Request :=
  {| authorization := NoHeader; param_id := oid; query_page := None;
     query_limit := None; body_items := None; body_status := None;
     body_refreshToken := None; user := Some p |}.

Definition category_request (cid : Id) : Request :=
  {| authorization := NoHeader; param_id := cid; query_page := None;
     query_limit := None; body_items := None; body_status := None;
     body_refreshToken := None; user := Some root |}.

Definition products_check_stmt (cid : Id) : Stmt :=
  {| verb := Select; table := "products"; filter := eq_filter "category_id" cid |}.

Definition delete_category_stmt (cid : Id) : Stmt :=
  {| verb := Delete; table := "categories"; filter := eq_filter "id" cid |}.

Definition referencing (cid : Id) (d : Db) : list Product :=
  List.filter (CategoryService.references cid) (products d).

Definition deactivate_stmt (uid : Id) : Stmt :=
  {| verb := Update; table := "users"; filter := eq_filter "id" uid |}.

Definition deactivation_request (actor : Principal) (target : Id) : Request :=
  {| authorization := NoHeader; param_id := target; query_page := None;
     query_limit := None; body_items := None; body_status := None;
     body_refreshToken := None; user := Some actor |}.

Definition principal_of (u : User) : Principal :=
  {| id := u_id u; email := u_email u; name := u_name u; role := u_role u |}.

Definition claims_of (u : User) : Claims :=
  {| userId := u_id u; claim_email := u_email u; claim_role := u_role u |}.

Definition bearer_request (t : Token) : Request :=
  {| authorization := Bearer (Some (Jwt t)); param_id := ""; query_page := None;
     query_limit := None; body_items := None; body_status := None;
     body_refreshToken := None; user := None |}.

Definition alice_claims : Claims :=
  {| userId := id alice; claim_email := email alice; claim_role := role alice |}.

(* ===================================================================== *)
(** ** Orders: update and delete *)
(* ===================================================================== *)

(** The second argument of [update]: a member that is undefined is [None]. *)
Record UpdateData := {
  ud_status : option string;
  ud_total_amount : option float
}.

Record UpdateQuery := {
  uq_table : string;
  uq_filter : Id;
  uq_data : UpdateData
}.

Module OrderModelWrites.

(** Only the members supplied are written. *)
Definition updateOrderQuery (oid : Id) (data : UpdateData) : UpdateQuery :=
  {| uq_table := "orders"; uq_filter := oid;
     uq_data := {| ud_status := ud_status data;
                   ud_total_amount := option_map Js.parseFloat (ud_total_amount data) |} |}.

End OrderModelWrites.

Module OrderServiceWrites.
Import OrderModelWrites.

Definition patch_order (data : UpdateData) (o : Order) : Order :=
  {| o_id := o_id o; user_id := user_id o;
     o_status := match ud_status data with Some s => s | None => o_status o end;
     total_amount := match ud_total_amount data with
                     | Some t => t
                     | None => total_amount o
                     end |}.

Definition patch_orders (oid : Id) (data : UpdateData) (l : list Order) : list Order :=
  List.map (fun o => if String.eqb (o_id o) oid then patch_order data o else o) l.

(** The two CHECK constraints of the orders table on the written values. *)
Definition checks_pass (data : UpdateData) : bool :=
  match ud_status data with
  | Some s => existsb (String.eqb s) validStatuses
  | None => true
  end
  && match ud_total_amount data with
     | Some t => PrimFloat.leb PrimFloat.zero t
     | None => true
     end.

(** [update(data).eq('id', oid).select('*').single()] on orders. *)
Definition update_order (oid : Id) (data : UpdateData) (d : Db) : Reply Order * Db :=
  if checks_pass data then
    let os := patch_orders oid data (orders d) in
    (single (List.find (fun o => String.eqb (o_id o) oid) os),
     {| users := users d; categories := categories d; products := products d;
        orders := os; order_items := order_items d; orders_seq := orders_seq d |})
  else
    ({| data := None;
        error := Some {| se_message := "new row for relation orders violates check constraint";
                         se_code := "23514" |};
        count := None |}, d).

(** [delete().eq('order_id', oid)] on order_items. *)
Definition delete_items (oid : Id) (d : Db) : Reply unit * Db :=
  ({| data := None; error := None; count := None |},
   {| users := users d; categories := categories d; products := products d;
      orders := orders d;
      order_items :=
        List.filter (fun i => negb (String.eqb (order_id i) oid)) (order_items d);
      orders_seq := orders_seq d |}).

Definition update (oid : Id) (updateData : UpdateData) : M OrderWithItems :=
  rethrow_logged "Error in update service:" (
    existing <- OrderService.findById oid ;;
    match existing with
    | None => throw (Error "Order not found")
    | Some _ =>
        let query := updateOrderQuery oid updateData in
        r <- store {| verb := Update; table := uq_table query;
                      filter := eq_filter "id" (uq_filter query) |}
               (update_order (uq_filter query) (uq_data query)) ;;
        match error r with
        | Some e =>
            console_error "Supabase error updating order:" ;;;
            throw (Error (se_message e))
        | None =>
            (* Fetch updated order with items *)
            its <- OrderService.getOrderItems oid ;;
            match data r with
            | Some updated => ret {| order := updated; items := its |}
            | None =>
                (* [.single()] answers with the row or with an error:
                   a reply without error has the row *)
                throw {| err_name := "TypeError";
                         err_message := "Cannot read properties of null" |}
            end
        end
    end).

Definition delete (oid : Id) : M bool :=
  rethrow_logged "Error in delete service:" (
    existing <- OrderService.findById oid ;;
    match existing with
    | None => throw (Error "Order not found")
    | Some _ =>
        (* Delete order items first *)
        r <- store {| verb := Delete; table := "order_items";
                      filter := eq_filter "order_id" oid |}
               (delete_items oid) ;;
        match error r with
        | Some e =>
            console_error "Supabase error deleting order items:" ;;;
            throw (Error (se_message e))
        | None =>
            (* Delete order *)
            r2 <- store {| verb := Delete; table := "orders";
                           filter := eq_filter "id" oid |}
                    (OrderService.delete_order oid) ;;
            match error r2 with
            | Some e =>
                console_error "Supabase error deleting order:" ;;;
                throw (Error (se_message e))
            | None => ret true
            end
        end
    end).

End OrderServiceWrites.

Module OrderControllerWrites.

Definition updateOrder (req : Request) : M Response :=
  try_catch (
    let oid := param_id req in
    let status := body_status req in
    if negb (Js.truthy_str oid) then
      ret (sendErrorResponse 400 "Order ID is required" None)
    else if negb (Js.truthy Js.truthy_str status) then
      ret (sendErrorResponse 400 "Status is required" None)
    else
      (* Validate status *)
      let st := Js.str_or status "" in
      if negb (existsb (String.eqb st) validStatuses) then
        ret (sendErrorResponse 400
               ("Invalid status. Must be one of: "
                ++ String.concat ", " validStatuses)%string None)
      else
        let updateData := {| ud_status := Some st; ud_total_amount := None |} in
        updated <- OrderServiceWrites.update oid updateData ;;
        ret (sendSuccessResponse 200 "Order updated successfully"
               (OrderPayload updated)))
    (fun err =>
       console_error "Error in updateOrder controller:" ;;;
       if Js.includes (err_message err) "not found" then
         ret (sendNotFoundResponse "Order not found")
       else
         ret (sendErrorResponse 500 "Failed to update order"
                (Some (err_message err)))).

Definition deleteOrder (req : Request) : M Response :=
  try_catch (
    let oid := param_id req in
    if negb (Js.truthy_str oid) then
      ret (sendErrorResponse 400 "Order ID is required" None)
    else
      _ <- OrderServiceWrites.delete oid ;;
      ret (sendSuccessResponse 200 "Order deleted successfully" NoData))
    (fun err =>
       console_error "Error in deleteOrder controller:" ;;;
       if Js.includes (err_message err) "not found" then
         ret (sendNotFoundResponse "Order not found")
       else
         ret (sendErrorResponse 500 "Failed to delete order"
                (Some (err_message err)))).

End OrderControllerWrites.

(* ===================================================================== *)
(** ** Products: lookup and delete *)
(* ===================================================================== *)

Module ProductServiceWrites.

Definition findById (pid : Id) : M (option Product) :=
  rethrow_logged "Error in findById service:" (
    r <- store {| verb := Select; table := "products";
                  filter := eq_filter "id" pid |}
           (fun d =>
              (single (List.find (fun p => String.eqb (p_id p) pid) (products d)), d)) ;;
    match error r with
    | Some e =>
        if negb (String.eqb (se_code e) "PGRST116") then
          console_error "Supabase error finding product:" ;;;
          throw (Error (se_message e))
        else ret tt
    | None => ret tt
    end ;;;
    ret (data r)).

(** An order item whose [product_id] column holds the product's id. *)
Definition sold_as (pid : Id) (i : OrderItem) : bool :=
  String.eqb (NilZero.string_of_int (Z.to_int (oi_product_id i))) pid.

(** [delete().eq('id', pid)] on products; [order_items.product_id] is
    declared ON DELETE RESTRICT, so the statement fails while an order
    item refers to the product. *)
Definition delete_product (pid : Id) (d : Db) : Reply unit * Db :=
  if existsb (sold_as pid) (order_items d)
     && existsb (fun p => String.eqb (p_id p) pid) (products d)
  then
    ({| data := None;
        error := Some {| se_message := "update or delete on table products violates foreign key constraint on table order_items";
                         se_code := "23503" |};
        count := None |}, d)
  else
    ({| data := None; error := None; count := None |},
     {| users := users d; categories := categories d;
        products := List.filter (fun p => negb (String.eqb (p_id p) pid)) (products d);
        orders := orders d; order_items := order_items d;
        orders_seq := orders_seq d |}).

Definition delete (pid : Id) : M bool :=
  rethrow_logged "Error in delete service:" (
    (* Check if product exists first *)
    existing <- findById pid ;;
    match existing with
    | None => throw (Error "Product not found")
    | Some _ =>
        r <- store {| verb := Delete; table := "products";
                      filter := eq_filter "id" pid |}
               (delete_product pid) ;;
        match error r with
        | Some e =>
            console_error "Supabase error deleting product:" ;;;
            throw (Error (se_message e))
        | None => ret true
        end
    end).

End ProductServiceWrites.

Module ProductControllerWrites.

Definition deleteProduct (req : Request) : M Response :=
  try_catch (
    let pid := param_id req in
    (* Validate ID parameter *)
    if negb (Js.truthy_str pid) then
      ret (sendErrorResponse 400 "Product ID is required" None)
    else
      _ <- ProductServiceWrites.delete pid ;;
      ret (sendSuccessResponse 200 "Product deleted successfully" NoData))
    (fun err =>
       console_error "Error in deleteProduct controller:" ;;;
       if Js.includes (err_message err) "not found" then
         ret (sendNotFoundResponse "Product not found")
       else
         ret (sendErrorResponse 500 "Failed to delete product"
                (Some (err_message err)))).

End ProductControllerWrites.

(* ===================================================================== *)
(** ** Authentication: the other middlewares, and the order routes *)
(* ===================================================================== *)

Module AuthMiddlewareRoles.
Import JwtUtils.

Definition requireManager : Request -> Outcome :=
  AuthMiddleware.authorizeRoles ["manager"; "admin"].

Definition requireUser : Request -> Outcome :=
  AuthMiddleware.authorizeRoles ["user"; "manager"; "admin"].

(** [optionalAuth]: every path ends in [next()]. *)
Definition optionalAuth (env : Env) (now : Z) (req : Request) : M Outcome :=
  try_catch (
    let authHeader := authorization req in
    match extractTokenFromHeader authHeader with
    | None => ret (Next req)
    | Some token =>
        decoded <- verifyAccessToken env now token ;;
        found <- UserService.findById (userId decoded) ;;
        match found with
        | Some u =>
            if is_active u then
              ret (Next (with_user req
                           {| id := u_id u; email := u_email u;
                              name := u_name u; role := u_role u |}))
            else ret (Next req)
        | None => ret (Next req)
        end
    end)
    (fun _ =>
       (* Ignore authentication errors for optional auth *)
       ret (Next req)).

End AuthMiddlewareRoles.

(** Express runs the middlewares of a route in order; the first that
    answers ends the request, otherwise the handler runs on the request
    as the middlewares left it. *)
Fixpoint route (ms : list (Request -> M Outcome)) (h : Request -> M Response)
    (req : Request) : M Response :=
  match ms with
  | [] => h req
  | m :: more =>
      o <- m req ;;
      match o with
      | Respond r => ret r
      | Next req' => route more h req'
      end
  end.

(** A middleware that does not wait on anything. *)
Definition sync (m : Request -> Outcome) (req : Request) : M Outcome := ret (m req).

Module OrderRouter.
Section Routes.

(** The rate limiter of the router, an [express-rate-limit] instance. *)
Variable orderLimiter : Request -> M Outcome.
Variable env : Env.
Variable now : Z.

Definition authenticated : list (Request -> M Outcome) :=
  [orderLimiter; AuthMiddleware.authenticateToken env now].

Definition get_all : Request -> M Response :=
  route (authenticated ++ [sync AuthMiddleware.requireAdmin])
    OrderController.getAllOrders.

Definition get_own : Request -> M Response :=
  route authenticated OrderController.getUserOrders.

Definition get_by_id : Request -> M Response :=
  route authenticated OrderController.getOrderById.

Definition post : Request -> M Response :=
  route authenticated OrderController.createOrder.

Definition put_by_id : Request -> M Response :=
  route (authenticated ++ [sync AuthMiddleware.requireAdmin])
    OrderControllerWrites.updateOrder.

Definition delete_by_id : Request -> M Response :=
  route (authenticated ++ [sync AuthMiddleware.requireAdmin])
    OrderControllerWrites.deleteOrder.

End Routes.
End OrderRouter.

(** The product router: the limiter is on every route, and the listing
    is public. *)
Module ProductRouter.
Section Routes.

Variable productLimiter : Request -> M Outcome.

Definition get_all : Request -> M Response :=
  route [productLimiter] ProductController.getAllProducts.

End Routes.
End ProductRouter.

(** ** Vocabulary of the further statements *)

Definition delete_items_stmt (oid : Id) : Stmt :=
  {| verb := Delete; table := "order_items"; filter := eq_filter "order_id" oid |}.

Definition select_items_stmt (oid : Id) : Stmt :=
  {| verb := Select; table := "order_items"; filter := eq_filter "order_id" oid |}.

Definition update_order_stmt (oid : Id) : Stmt :=
  {| verb := Update; table := "orders"; filter := eq_filter "id" oid |}.

Definition delete_product_stmt (pid : Id) : Stmt :=
  {| verb := Delete; table := "products"; filter := eq_filter "id" pid |}.

(** No statement of the list writes. *)
Definition reads_only (l : list Stmt) : Prop :=
  forallb (fun s => negb (is_write s)) l = true.

(** The coming store call does not fail, or fails with "no rows". *)
Definition next_call_answers (w : World) : Prop :=
  match faults w with
  | Some e :: _ => se_code e = "PGRST116"
  | _ => True
  end.

(** A rate limiter that lets the request through. *)
Definition admits (limiter : Request -> M Outcome) (req : Request) : Prop :=
  forall w, limiter req w = (Ok (Next req), w).

Definition no_limit (req : Request) : M Outcome := ret (Next req).

Definition status_request (p : Principal) (oid : Id) (st : option string) : Request :=
  {| authorization := NoHeader; param_id := oid; query_page := None;
     query_limit := None; body_items := None; body_status := st;
     body_refreshToken := None; user := Some p |}.

Definition refresh_request (t : Token) : Request :=
  {| authorization := NoHeader; param_id := ""; query_page := None;
     query_limit := None; body_items := None; body_status := None;
     body_refreshToken := Some (Jwt t); user := None |}.

(** A token that [jwt.verify] accepts at [now] with the secret and the
    options of [verifyAccessToken]. *)
Definition valid_at (env : Env) (now : Z) (t : Token) : Prop :=
  signed_with t = JWT_SECRET env /\ now < exp t /\
  aud t = "hr-frontend" /\ iss t = "hr-backend".

(** The world after the lookup of user [uid] has been answered. *)
Definition after_user_lookup (uid : Id) (w : World) : World :=
  {| db := db w; faults := tl (faults w);
     trace := trace w ++ [select_by_id "users" uid];
     console := console w |}.

Definition with_page (req : Request) (page : option string) : Request :=
  {| authorization := authorization req; param_id := param_id req;
     query_page := page; query_limit := query_limit req;
     body_items := body_items req; body_status := body_status req;
     body_refreshToken := body_refreshToken req; user := user req |}.

Definition with_authorization (req : Request) (h : AuthHeader) : Request :=
  {| authorization := h; param_id := param_id req;
     query_page := query_page req; query_limit := query_limit req;
     body_items := body_items req; body_status := body_status req;
     body_refreshToken := body_refreshToken req; user := user req |}.

Definition product_request (pid : Id) : Request :=
  {| authorization := NoHeader; param_id := pid; query_page := None;
     query_limit := None; body_items := None; body_status := None;
     body_refreshToken := None; user := Some root |}.

(** The shop after an order of three of product 1. *)
Definition shop_with_sale : Db :=
  {| users := users shop; categories := categories shop; products := products shop;
     orders := [alices_order];
     order_items := [{| order_id := "7"; oi_product_id := 1; oi_quantity := 3;
                        oi_price := Js.decimal 1599 2 |}];
     orders_seq := 8 |}.

(* ===================================================================== *)
(** * Properties *)
(* ===================================================================== *)


(** ** Arithmetic of the pagination metadata *)

Lemma ceil_div_bounds (total limit : Z) :
  0 < limit ->
  (Js.ceil_div total limit - 1) * limit < total <= Js.ceil_div total limit * limit.
Proof.
  intros Hl. unfold Js.ceil_div.
  pose proof (Z.div_mod (- total) limit ltac:(lia)) as E.
  pose proof (Z.mod_pos_bound (- total) limit Hl) as B.
  nia.
Qed.

Lemma no_next_page (total page limit : Z) :
  0 < limit -> total <= page * limit ->
  (page <? Js.ceil_div total limit) = false.
Proof.
  intros Hl Hle. apply Z.ltb_ge.
  pose proof (ceil_div_bounds total Hl) as B. nia.
Qed.

Lemma range_within {A : Type} (l : list A) (from to : Z) :
  from <= Z.of_nat (List.length l) ->
  range l from to =
    {| data := Some (slice l from to); error := None;
       count := Some (Z.of_nat (List.length l)) |}.
Proof.
  intros H. unfold range.
  destruct (Z.ltb_spec (Z.of_nat (List.length l)) from); [lia|reflexivity].
Qed.

Lemma range_beyond {A : Type} (l : list A) (from to : Z) :
  Z.of_nat (List.length l) < from ->
  range l from to = refused range_not_satisfiable.
Proof.
  intros H. unfold range.
  destruct (Z.ltb_spec (Z.of_nat (List.length l)) from); [reflexivity|lia].
Qed.

(** A range that starts within the rows or right after the last one is
    empty exactly in the second case. *)
Lemma slice_empty {A : Type} (l : list A) (from to : Z) :
  0 <= from <= Z.of_nat (List.length l) -> from <= to ->
  slice l from to = [] <-> Z.of_nat (List.length l) = from.
Proof.
  intros Hf Ht. unfold slice.
  rewrite <- length_zero_iff_nil, length_firstn, length_skipn. lia.
Qed.

Lemma invalid_pagination_false (page limit : Z) :
  1 <= page -> 1 <= limit <= 100 -> invalid_pagination page limit = false.
Proof.
  intros Hp [Hl Hu]. unfold invalid_pagination.
  rewrite !orb_false_iff, !Z.ltb_ge. lia.
Qed.


Lemma int_or_count (n : nat) : Js.int_or (Some (Z.of_nat n)) 0 = Z.of_nat n.
Proof.
  unfold Js.int_or, Js.truthy_int.
  destruct (Z.eqb_spec (Z.of_nat n) 0) as [E|E]; simpl; congruence.
Qed.

(** What a listing handler answers on a valid page that does not start
    beyond the last row, when the store call succeeds: the slice of the
    table and the metadata computed from the row count. *)
Lemma getAllProducts_ok (req : Request) (w : World) :
  invalid_pagination (page_of req) (limit_of req) = false ->
  next_call_ok w ->
  let q := ProductModel.getAllProductsQuery (page_of req) (limit_of req) in
  let all := products (db w) in
  q_from q <= Z.of_nat (List.length all) ->
  ProductController.getAllProducts req w =
    (Ok (sendPaginatedResponse
           (ProductRows (slice all (q_from q) (q_to q)))
           (page_of req) (limit_of req) (Z.of_nat (List.length all))
           "Products retrieved successfully"),
     {| db := db w; faults := tl (faults w);
        trace := trace w ++ [select_range q]; console := console w |}).
Proof.
  intros Hv Hok q all Hin. unfold next_call_ok in Hok.
  unfold ProductController.getAllProducts, ProductService.findAll,
    rethrow_logged, try_catch, bind, store, ret.
  rewrite Hv. fold q.
  destruct w as [d f t c]; simpl in *.
  destruct f as [|[e|] f']; simpl; try contradiction;
    rewrite (range_within _ _ Hin); cbn -[Js.int_or]; rewrite int_or_count; reflexivity.
Qed.

Lemma getAllOrders_ok (req : Request) (w : World) :
  invalid_pagination (page_of req) (limit_of req) = false ->
  next_call_ok w ->
  let q := OrderModel.getAllOrdersQuery (page_of req) (limit_of req) in
  let all := orders (db w) in
  q_from q <= Z.of_nat (List.length all) ->
  OrderController.getAllOrders req w =
    (Ok (sendPaginatedResponse
           (OrderRows (slice all (q_from q) (q_to q)))
           (page_of req) (limit_of req) (Z.of_nat (List.length all))
           "Orders retrieved successfully"),
     {| db := db w; faults := tl (faults w);
        trace := trace w ++ [select_range q]; console := console w |}).
Proof.
  intros Hv Hok q all Hin. unfold next_call_ok in Hok.
  unfold OrderController.getAllOrders, OrderService.findAll,
    rethrow_logged, try_catch, bind, store, ret.
  rewrite Hv. fold q.
  destruct w as [d f t c]; simpl in *.
  destruct f as [|[e|] f']; simpl; try contradiction;
    rewrite (range_within _ _ Hin); cbn -[Js.int_or]; rewrite int_or_count; reflexivity.
Qed.

Lemma getUserOrders_ok (req : Request) (w : World) (p : Principal) :
  user req = Some p ->
  invalid_pagination (page_of req) (limit_of req) = false ->
  next_call_ok w ->
  let q := OrderModel.getOrdersByUserQuery (id p) (page_of req) (limit_of req) in
  let own := List.filter (fun o => String.eqb (user_id o) (id p)) (orders (db w)) in
  q_from q <= Z.of_nat (List.length own) ->
  OrderController.getUserOrders req w =
    (Ok (sendPaginatedResponse
           (OrderRows (slice own (q_from q) (q_to q)))
           (page_of req) (limit_of req) (Z.of_nat (List.length own))
           "Orders retrieved successfully"),
     {| db := db w; faults := tl (faults w);
        trace := trace w ++ [select_range q]; console := console w |}).
Proof.
  intros Hu Hv Hok q own Hin. unfold next_call_ok in Hok.
  unfold OrderController.getUserOrders, OrderService.findByUser,
    rethrow_logged, try_catch, bind, store, req_user, ret.
  rewrite Hu. cbn iota beta. rewrite Hv. fold q.
  destruct w as [d f t c]; simpl in *.
  destruct f as [|[e|] f']; simpl; try contradiction;
    rewrite (range_within _ _ Hin); cbn -[Js.int_or]; rewrite int_or_count; reflexivity.
Qed.

(** The same handlers on a page that starts beyond the last row: the
    store refuses the range, the service throws and the handler
    answers 500. *)
Lemma getAllProducts_beyond (req : Request) (w : World) :
  invalid_pagination (page_of req) (limit_of req) = false ->
  next_call_ok w ->
  let q := ProductModel.getAllProductsQuery (page_of req) (limit_of req) in
  Z.of_nat (List.length (products (db w))) < q_from q ->
  ProductController.getAllProducts req w =
    (Ok (sendErrorResponse 500 "Failed to fetch products"
           (Some (se_message range_not_satisfiable))),
     {| db := db w; faults := tl (faults w);
        trace := trace w ++ [select_range q];
        console := console w ++ ["Supabase error fetching products:";
                                 "Error in findAll service:";
                                 "Error in getAllProducts controller:"] |}).
Proof.
  intros Hv Hok q Hout. unfold next_call_ok in Hok.
  unfold ProductController.getAllProducts, ProductService.findAll,
    rethrow_logged, try_catch, bind, store, ret, throw, console_error.
  rewrite Hv. fold q.
  destruct w as [d f t c]; simpl in *.
  destruct f as [|[e|] f']; simpl; try contradiction;
    rewrite (range_beyond _ _ Hout); simpl; rewrite <- !app_assoc; reflexivity.
Qed.

Lemma getAllOrders_beyond (req : Request) (w : World) :
  invalid_pagination (page_of req) (limit_of req) = false ->
  next_call_ok w ->
  let q := OrderModel.getAllOrdersQuery (page_of req) (limit_of req) in
  Z.of_nat (List.length (orders (db w))) < q_from q ->
  OrderController.getAllOrders req w =
    (Ok (sendErrorResponse 500 "Failed to fetch orders"
           (Some (se_message range_not_satisfiable))),
     {| db := db w; faults := tl (faults w);
        trace := trace w ++ [select_range q];
        console := console w ++ ["Supabase error fetching orders:";
                                 "Error in findAll service:";
                                 "Error in getAllOrders controller:"] |}).
Proof.
  intros Hv Hok q Hout. unfold next_call_ok in Hok.
  unfold OrderController.getAllOrders, OrderService.findAll,
    rethrow_logged, try_catch, bind, store, ret, throw, console_error.
  rewrite Hv. fold q.
  destruct w as [d f t c]; simpl in *.
  destruct f as [|[e|] f']; simpl; try contradiction;
    rewrite (range_beyond _ _ Hout); simpl; rewrite <- !app_assoc; reflexivity.
Qed.

Lemma getUserOrders_beyond (req : Request) (w : World) (p : Principal) :
  user req = Some p ->
  invalid_pagination (page_of req) (limit_of req) = false ->
  next_call_ok w ->
  let q := OrderModel.getOrdersByUserQuery (id p) (page_of req) (limit_of req) in
  let own := List.filter (fun o => String.eqb (user_id o) (id p)) (orders (db w)) in
  Z.of_nat (List.length own) < q_from q ->
  OrderController.getUserOrders req w =
    (Ok (sendErrorResponse 500 "Failed to fetch orders"
           (Some (se_message range_not_satisfiable))),
     {| db := db w; faults := tl (faults w);
        trace := trace w ++ [select_range q];
        console := console w ++ ["Supabase error fetching user orders:";
                                 "Error in findByUser service:";
                                 "Error in getUserOrders controller:"] |}).
Proof.
  intros Hu Hv Hok q own Hout. unfold next_call_ok in Hok.
  unfold OrderController.getUserOrders, OrderService.findByUser,
    rethrow_logged, try_catch, bind, store, req_user, ret, throw, console_error.
  rewrite Hu. cbn iota beta. rewrite Hv. fold q.
  destruct w as [d f t c]; simpl in *.
  destruct f as [|[e|] f']; simpl; try contradiction;
    rewrite (range_beyond _ _ Hout); simpl; rewrite <- !app_assoc; reflexivity.
Qed.

(** ** Pagination (C8, C10) *)

Lemma sendPaginatedResponse_answer (rs : Rows) (page limit N : Z) (msg : string) :
  1 <= limit ->
  (rows_empty rs = true <-> N = (page - 1) * limit) ->
  page_answer (sendPaginatedResponse rs page limit N msg) rs page limit N.
Proof.
  intros Hl Hrows. unfold page_answer, sendPaginatedResponse, sendSuccessResponse.
  eexists; simpl.
  split; [reflexivity|]. split; [reflexivity|]. split; [reflexivity|].
  split; [reflexivity|]. split; [reflexivity|].
  split; [apply ceil_div_bounds; lia|].
  split; [reflexivity|]. split; [reflexivity|].
  split; [intros H; apply no_next_page; lia|exact Hrows].
Qed.

Lemma product_rows_empty (l : list Product) :
  rows_empty (ProductRows l) = true <-> l = [].
Proof. destruct l; simpl; split; congruence. Qed.

Lemma order_rows_empty (l : list Order) :
  rows_empty (OrderRows l) = true <-> l = [].
Proof. destruct l; simpl; split; congruence. Qed.

(** C8, as the code has it: on a valid page that does not start beyond
    the last of the [N] rows, and with the store call succeeding, the
    product and order listings answer 200 with the metadata
    [hasNextPage = page < ceil(N / limit)] and [hasPrevPage = page > 1];
    [hasNextPage] is false as soon as [page * limit] reaches [N]; the
    items are empty exactly when the offset [(page - 1) * limit] is
    [N]; and the handlers answer without throwing whatever the store
    does.  The page is an integer a double holds exactly. *)
Theorem C8_listing_past_the_last_row (req : Request) (w : World) :
  1 <= page_of req -> 1 <= limit_of req <= 100 ->
  page_of req * limit_of req <= 2 ^ 53 ->
  next_call_ok w ->
  ((page_of req - 1) * limit_of req <= Z.of_nat (List.length (products (db w))) ->
   exists rs w',
      ProductController.getAllProducts req w =
        (Ok (sendPaginatedResponse (ProductRows rs) (page_of req) (limit_of req)
               (Z.of_nat (List.length (products (db w))))
               "Products retrieved successfully"), w') /\
      page_answer
        (sendPaginatedResponse (ProductRows rs) (page_of req) (limit_of req)
           (Z.of_nat (List.length (products (db w))))
           "Products retrieved successfully")
        (ProductRows rs) (page_of req) (limit_of req)
        (Z.of_nat (List.length (products (db w))))) /\
  ((page_of req - 1) * limit_of req <= Z.of_nat (List.length (orders (db w))) ->
   exists rs w',
      OrderController.getAllOrders req w =
        (Ok (sendPaginatedResponse (OrderRows rs) (page_of req) (limit_of req)
               (Z.of_nat (List.length (orders (db w))))
               "Orders retrieved successfully"), w') /\
      page_answer
        (sendPaginatedResponse (OrderRows rs) (page_of req) (limit_of req)
           (Z.of_nat (List.length (orders (db w))))
           "Orders retrieved successfully")
        (OrderRows rs) (page_of req) (limit_of req)
        (Z.of_nat (List.length (orders (db w))))) /\
  (forall w0, exists resp w',
      ProductController.getAllProducts req w0 = (Ok resp, w')) /\
  (forall w0, exists resp w',
      OrderController.getAllOrders req w0 = (Ok resp, w')).
Proof.
  intros Hp Hl _ Hok.
  pose proof (invalid_pagination_false Hp Hl) as Hv.
  split; [|split; [|split]].
  - intros Hin. eexists; eexists; split.
    + apply (getAllProducts_ok req w Hv Hok). exact Hin.
    + apply sendPaginatedResponse_answer; [lia|].
      rewrite product_rows_empty. unfold ProductModel.getAllProductsQuery; simpl.
      apply slice_empty; nia.
  - intros Hin. eexists; eexists; split.
    + apply (getAllOrders_ok req w Hv Hok). exact Hin.
    + apply sendPaginatedResponse_answer; [lia|].
      rewrite order_rows_empty. unfold OrderModel.getAllOrdersQuery; simpl.
      apply slice_empty; nia.
  - intros w0.
    unfold ProductController.getAllProducts, ProductService.findAll,
      rethrow_logged, try_catch, bind, store, ret, throw, console_error.
    rewrite Hv. destruct w0 as [d f t c]; simpl.
    destruct f as [|[e|] f']; simpl; eauto;
      destruct (range _ _ _) as [dt [er|] ct]; simpl; eauto.
  - intros w0.
    unfold OrderController.getAllOrders, OrderService.findAll,
      rethrow_logged, try_catch, bind, store, ret, throw, console_error.
    rewrite Hv. destruct w0 as [d f t c]; simpl.
    destruct f as [|[e|] f']; simpl; eauto;
      destruct (range _ _ _) as [dt [er|] ct]; simpl; eauto.
Qed.

(** The page right after the last row: five products, page 2 of 5. *)
Lemma C8_listing_past_the_last_row_witness :
  exists w',
    ProductController.getAllProducts (page_request "2" "5") (world_of five_products []) =
      (Ok (sendPaginatedResponse (ProductRows []) 2 5 5
             "Products retrieved successfully"), w') /\
    page_answer
      (sendPaginatedResponse (ProductRows []) 2 5 5 "Products retrieved successfully")
      (ProductRows []) 2 5 5.
Proof.
  destruct (@C8_listing_past_the_last_row (page_request "2" "5")
              (world_of five_products []))
    as [H _].
  - vm_compute; discriminate.
  - vm_compute; split; discriminate.
  - vm_compute; discriminate.
  - exact I.
  - destruct H as (rs & w' & E & A).
    + vm_compute; discriminate.
    + assert (Hrs : rs = []).
      { destruct A as (meta & _ & _ & _ & _ & _ & _ & _ & _ & _ & Hempty).
        apply product_rows_empty, Hempty. reflexivity. }
      rewrite Hrs in E, A. exists w'. split; [exact E|exact A].
Defined.

(** C8 as stated fails: with N = 5 rows, page 1 and limit 10 have
    [page * limit] beyond [N], and the items are the five rows. *)
Lemma C8_counterexample :
  let req := page_request "1" "10" in
  let w := world_of five_products [] in
  1 <= page_of req /\ 1 <= limit_of req /\
  Z.of_nat (List.length (products (db w))) < page_of req * limit_of req /\
  exists rs meta w',
    ProductController.getAllProducts req w =
      (Ok {| success := true; status := 200;
             message := "Products retrieved successfully";
             payload := Page rs meta; errors := None |}, w') /\
    rows_empty rs = false /\ hasNextPage meta = false.
Proof.
  simpl. repeat split; try (vm_compute; congruence).
  eexists; eexists; eexists. split; [vm_compute; reflexivity|].
  split; reflexivity.
Qed.


(** ** Order creation (C1, C2, C3) *)

Lemma truthy_num_not_nan (p : float) :
  Js.truthy_num p = true -> Js.isNaN p = false.
Proof.
  unfold Js.truthy_num, Js.isNaN. intros H.
  apply negb_true_iff, orb_false_iff in H. tauto.
Qed.

Lemma accepted_inv (it : Item) :
  accepted it = true ->
  exists pid q p k,
    product_id it = Some pid /\ quantity it = Some q /\ price it = Some p /\
    Js.truthy_int pid = true /\ Js.truthy_int q = true /\
    Js.truthy_num p = true /\ Js.parseInt_num q = Some k /\ (k <? 1) = false /\
    PrimFloat.ltb p PrimFloat.zero = false.
Proof.
  unfold accepted. intros H.
  destruct (product_id it) as [pid|]; [|discriminate].
  destruct (quantity it) as [q|]; [|discriminate].
  destruct (price it) as [p|]; [|discriminate].
  repeat (apply andb_true_iff in H; destruct H as [H ?]).
  destruct (Js.parseInt_num q) as [k|] eqn:Ek; [|discriminate].
  exists pid, q, p, k. simpl in *.
  repeat match goal with
         | h : negb _ = true |- _ => apply negb_true_iff in h
         end.
  repeat split; trivial.
Qed.

Lemma validate_items_accepted (its : list Item) :
  forallb accepted its = true -> OrderController.validate_items its = None.
Proof.
  induction its as [|it rest IH]; simpl; [reflexivity|].
  intros H. apply andb_true_iff in H. destruct H as [Hit Hrest].
  destruct (accepted_inv it Hit)
    as (pid & q & p & k & -> & -> & -> & Hpid & Hq & Hp & Hk & Hk1 & Hp0).
  rewrite Hpid, Hq, Hp, Hk; simpl.
  unfold Js.parseFloat. rewrite Hk1, Hp0.
  rewrite (truthy_num_not_nan p Hp); simpl. auto.
Qed.



Lemma accumulate_accepted (its : list Item) (acc : float) (w : World) :
  forallb accepted its = true ->
  OrderService.accumulate its acc w =
    (Ok (fold_left (fun a it => PrimFloat.add a (line_amount it)) its acc), w).
Proof.
  revert acc. induction its as [|it rest IH]; intros acc H; simpl; [reflexivity|].
  simpl in H. apply andb_true_iff in H. destruct H as [Hit Hrest].
  destruct (accepted_inv it Hit)
    as (pid & q & p & k & Epid & Eq & Ep & Hpid & Hq & Hp & _).
  unfold line_amount. rewrite Epid, Eq, Ep, Hpid, Hq, Hp; simpl.
  rewrite IH by assumption. reflexivity.
Qed.

(** What the store has made of an order row it accepted: the total is
    the DECIMAL(10,2) value of the accumulated double. *)
Lemma decimal_10_2_bounded (x : float) (h : Z) :
  Column.decimal_10_2 x = inr h -> Z.abs h < 10 ^ 10.
Proof.
  unfold Column.decimal_10_2.
  destruct (PrimFloat.is_nan x || PrimFloat.is_infinity x); [discriminate|].
  match goal with |- context [10 ^ 10 <=? Z.abs ?v] => set (hundredths := v) end.
  destruct (Z.leb_spec (10 ^ 10) (Z.abs hundredths)) as [|B]; [discriminate|].
  intros H. injection H as <-.
  destruct (PrimFloat.ltb x PrimFloat.zero); lia.
Qed.

Lemma order_insert_accepted (uid : Id) (st : option string) (its : list Item)
    (d : Db) (o : Order) (d1 : Db) :
  order_insert uid st its d = (single (Some o), d1) ->
  exists owner hundredths,
    Uuid.parse uid = Some owner /\
    Column.decimal_10_2 (float_total its) = inr hundredths /\
    0 <= hundredths < 10 ^ 10 /\
    o = OrderService.new_order owner (status_written st) (Js.decimal hundredths 2) d /\
    In (status_written st) validStatuses /\
    d1 = {| users := users d; categories := categories d; products := products d;
            orders := o :: orders d; order_items := order_items d;
            orders_seq := orders_seq d + 1 |}.
Proof.
  unfold order_insert, OrderService.insert_order, OrderService.order_columns,
    Js.parseFloat, Column.read_decimal.
  destruct (Uuid.parse uid) as [owner|]; [|discriminate].
  destruct (Column.decimal_10_2 (float_total its)) as [e|h] eqn:D; [discriminate|].
  destruct (negb (existsb (String.eqb (status_written st)) validStatuses)
            || (h <? 0)) eqn:C; [discriminate|].
  apply orb_false_iff in C. destruct C as [Cs Ch].
  apply negb_false_iff, existsb_exists in Cs. destruct Cs as (x & Hx & Ex).
  apply String.eqb_eq in Ex. subst x. apply Z.ltb_ge in Ch.
  pose proof (decimal_10_2_bounded _ D) as B.
  intros H. injection H as <- <-. exists owner, h. repeat split; trivial; lia.
Qed.

(** What the store has made of item rows it accepted. *)
Lemma item_columns_accepted (r k : OrderItem) :
  OrderService.item_columns r = inr k ->
  order_id k = order_id r /\ oi_product_id k = oi_product_id r /\
  oi_quantity k = oi_quantity r /\ 0 < oi_quantity r < 2 ^ 31 /\
  exists hundredths,
    Column.decimal_10_2 (oi_price r) = inr hundredths /\
    0 <= hundredths < 10 ^ 10 /\ oi_price k = Js.decimal hundredths 2.
Proof.
  unfold OrderService.item_columns, Column.read_decimal.
  destruct (negb ((- 2 ^ 31 <=? oi_quantity r) && (oi_quantity r <? 2 ^ 31))) eqn:R;
    [discriminate|].
  apply negb_false_iff, andb_true_iff in R. destruct R as [_ R].
  apply Z.ltb_lt in R.
  destruct (Column.decimal_10_2 (oi_price r)) as [e|h] eqn:D; [discriminate|].
  destruct ((oi_quantity r <=? 0) || (h <? 0)) eqn:C; [discriminate|].
  apply orb_false_iff in C. destruct C as [Cq Ch].
  apply Z.leb_gt in Cq. apply Z.ltb_ge in Ch.
  pose proof (decimal_10_2_bounded _ D) as B.
  intros H. injection H as <-. simpl.
  repeat split; trivial. exists h. repeat split; trivial; lia.
Qed.

Lemma all_columns_accepted (l kept : list OrderItem) :
  OrderService.all_columns l = inr kept ->
  Forall2 (fun r k => OrderService.item_columns r = inr k) l kept.
Proof.
  revert kept. induction l as [|r l IH]; intros kept; simpl.
  - intros H. injection H as <-. constructor.
  - destruct (OrderService.item_columns r) as [e|k] eqn:E; [discriminate|].
    destruct (OrderService.all_columns l) as [e|ks]; [discriminate|].
    intros H. injection H as <-. constructor; [exact E|now apply IH].
Qed.

Lemma items_insert_accepted (oid : Id) (its : list Item) (d : Db)
    (kept : list OrderItem) (d2 : Db) :
  items_insert oid its d = (rows kept, d2) ->
  Forall2 (fun it k => OrderService.item_columns (OrderService.item_row oid it) = inr k)
    its kept /\
  forallb (OrderService.references_hold d) kept = true /\
  d2 = {| users := users d; categories := categories d; products := products d;
          orders := orders d; order_items := order_items d ++ kept;
          orders_seq := orders_seq d |}.
Proof.
  unfold items_insert, OrderService.insert_items.
  destruct (OrderService.all_columns _) as [e|ks] eqn:A; [discriminate|].
  destruct (forallb (OrderService.references_hold d) ks) eqn:F; [|discriminate].
  intros H. injection H as <- <-.
  apply all_columns_accepted in A.
  split; [|split; [exact F|reflexivity]].
  clear F. revert ks A. induction its as [|it l IH]; intros ks A; simpl in A.
  - inversion A. constructor.
  - inversion A as [|r k rs ks' Hk Hrest]; subst. constructor; [exact Hk|].
    now apply IH.
Qed.

Lemma kept_items_of_order (oid : Id) (its : list Item) (kept : list OrderItem) :
  Forall2 (fun it k => OrderService.item_columns (OrderService.item_row oid it) = inr k)
    its kept ->
  Forall (fun k => order_id k = oid) kept.
Proof.
  induction 1 as [|it k l ks Hk _ IH]; constructor; [|exact IH].
  now destruct (item_columns_accepted _ Hk) as (-> & _).
Qed.

(** [create] when the store accepts the order row as [o], the items
    insert fails with [e]: the delete of the order is issued, its
    outcome [f3] is not looked at, and the error thrown is the one of
    the items insert. *)
Lemma create_items_failed (uid : Id) (its : list Item) (st : option string)
    (w : World) (e : StoreError) (f3 : option StoreError)
    (rest : list (option StoreError)) (o : Order) (d1 : Db) :
  Js.truthy_str uid = true -> its <> [] -> forallb accepted its = true ->
  order_insert uid st its (db w) = (single (Some o), d1) ->
  faults w = None :: Some e :: f3 :: rest ->
  OrderService.create
    {| OrderService.od_user_id := uid; OrderService.od_items := Some its;
       OrderService.od_status := st |} w =
    (Throw (Error (se_message e)),
     {| db := match f3 with
              | None => snd (OrderService.delete_order (o_id o) d1)
              | Some _ => d1
              end;
        faults := rest;
        trace := trace w ++ [insert_orders_stmt; insert_items_stmt;
                             delete_order_stmt (o_id o)];
        console := console w ++ ["Supabase error creating order items:";
                                 "Error in create service:"] |}).
Proof.
  intros Hu Hne Hacc Hins Hf.
  unfold order_insert, status_written, float_total in Hins.
  unfold OrderService.create, rethrow_logged, try_catch, bind.
  cbn [OrderService.od_user_id OrderService.od_items OrderService.od_status].
  rewrite Hu. cbn [negb].
  destruct its as [|it rest'] eqn:E; [congruence|]. rewrite <- E in *.
  cbv beta iota delta [ret].
  rewrite accumulate_accepted by assumption.
  unfold store. rewrite Hf, Hins. cbn.
  destruct f3; cbn; rewrite <- !app_assoc; reflexivity.
Qed.

(** [create] when the store accepts the order row as [o] and its item
    rows as [kept]. *)
Lemma create_ok (uid : Id) (its : list Item) (st : option string)
    (w : World) (rest : list (option StoreError))
    (o : Order) (d1 : Db) (kept : list OrderItem) (d2 : Db) :
  Js.truthy_str uid = true -> its <> [] -> forallb accepted its = true ->
  order_insert uid st its (db w) = (single (Some o), d1) ->
  items_insert (o_id o) its d1 = (rows kept, d2) ->
  faults w = None :: None :: rest ->
  OrderService.create
    {| OrderService.od_user_id := uid; OrderService.od_items := Some its;
       OrderService.od_status := st |} w =
    (Ok {| order := o; items := kept |},
     {| db := d2;
        faults := rest;
        trace := trace w ++ [insert_orders_stmt; insert_items_stmt];
        console := console w |}).
Proof.
  intros Hu Hne Hacc Hins Hitems Hf.
  unfold order_insert, status_written, float_total in Hins.
  unfold items_insert in Hitems.
  unfold OrderService.create, rethrow_logged, try_catch, bind.
  cbn [OrderService.od_user_id OrderService.od_items OrderService.od_status].
  rewrite Hu. cbn [negb].
  destruct its as [|it rest'] eqn:E; [congruence|]. rewrite <- E in *.
  cbv beta iota delta [ret].
  rewrite accumulate_accepted by assumption.
  unfold store. rewrite Hf, Hins. cbn. rewrite Hitems. cbn.
  rewrite <- !app_assoc. reflexivity.
Qed.


(** [createOrder] with accepted items, the store accepting the order
    row as [o] and the item rows as [kept]. *)
Lemma createOrder_ok (req : Request) (w : World) (p : Principal) (its : list Item)
    (rest : list (option StoreError))
    (o : Order) (d1 : Db) (kept : list OrderItem) (d2 : Db) :
  user req = Some p -> Js.truthy_str (id p) = true ->
  body_items req = Some its -> its <> [] ->
  forallb accepted its = true ->
  order_insert (id p) (Some (Js.str_or (body_status req) "pending")) its (db w) =
    (single (Some o), d1) ->
  items_insert (o_id o) its d1 = (rows kept, d2) ->
  faults w = None :: None :: rest ->
  OrderController.createOrder req w =
    (Ok (sendSuccessResponse 201 "Order created successfully"
           (OrderPayload {| order := o; items := kept |})),
     {| db := d2; faults := rest;
        trace := trace w ++ [insert_orders_stmt; insert_items_stmt];
        console := console w |}).
Proof.
  intros Hu Hid Hb Hne Hacc Hins Hitems Hf.
  unfold OrderController.createOrder, try_catch, bind, req_user, ret.
  rewrite Hu, Hb.
  destruct its as [|it more] eqn:E; [congruence|]. rewrite <- E in *.
  rewrite (validate_items_accepted its Hacc).
  rewrite (@create_ok (id p) its _ w rest o d1 kept d2 Hid Hne Hacc Hins Hitems Hf).
  reflexivity.
Qed.

(** C1, as the code has it: for a non-empty list of items with a
    product id, a quantity of at least 1 and a positive price, of which
    the store accepts the order row and the item rows, [createOrder]
    answers 201 with the order row as the store keeps it, and the
    [total_amount] of that row is the binary64 accumulation, left to
    right from 0, of [parseFloat(price) * parseInt(quantity)], as the
    DECIMAL(10,2) column rounds it: to hundredths, on the decimal text
    of the double, a half going away from zero. *)
Theorem C1_total_is_the_rounded_double_accumulation
    (req : Request) (w : World) (p : Principal) (its : list Item)
    (rest : list (option StoreError))
    (o : Order) (d1 : Db) (kept : list OrderItem) (d2 : Db) :
  user req = Some p -> Js.truthy_str (id p) = true ->
  body_items req = Some its -> its <> [] ->
  forallb accepted its = true -> forallb safe_integers its = true ->
  order_insert (id p) (Some (Js.str_or (body_status req) "pending")) its (db w) =
    (single (Some o), d1) ->
  items_insert (o_id o) its d1 = (rows kept, d2) ->
  faults w = None :: None :: rest ->
  exists w' hundredths,
    OrderController.createOrder req w =
      (Ok (sendSuccessResponse 201 "Order created successfully"
             (OrderPayload {| order := o; items := kept |})), w') /\
    Column.decimal_10_2 (float_total its) = inr hundredths /\
    0 <= hundredths < 10 ^ 10 /\
    total_amount o = Js.decimal hundredths 2 /\
    hd_error (orders (db w')) = Some o /\
    Uuid.parse (id p) = Some (user_id o).
Proof.
  intros Hu Hid Hb Hne Hacc _ Hins Hitems Hf.
  rewrite (@createOrder_ok req w p its rest o d1 kept d2
             Hu Hid Hb Hne Hacc Hins Hitems Hf).
  destruct (order_insert_accepted _ _ _ _ Hins)
    as (owner & h & Hown & D & B & Ho & _ & Hd1).
  destruct (items_insert_accepted _ _ _ Hitems) as (_ & _ & Hd2).
  eexists; exists h. split; [reflexivity|].
  split; [exact D|]. split; [exact B|].
  split; [now rewrite Ho|]. split; [|now rewrite Ho].
  cbn [db]. rewrite Hd2, Hd1. reflexivity.
Qed.

(** The example of the specification: 15.99 twice and 15.99 once are
    kept as 47.97. *)
Lemma C1_total_is_the_rounded_double_accumulation_witness :
  let its := List.map (decimal_item 2) [(1, 1599, 2); (2, 1599, 1)] in
  exists w' o kept,
    OrderController.createOrder (order_request alice its)
      (world_of shop [None; None]) =
      (Ok (sendSuccessResponse 201 "Order created successfully"
             (OrderPayload {| order := o; items := kept |})), w') /\
    Column.decimal_10_2 (float_total its) = inr 4797 /\
    total_amount o = Js.decimal 4797 2.
Proof.
  intros its.
  pose (o := OrderService.new_order (id alice) "pending" (Js.decimal 4797 2) shop).
  pose (d1 := snd (order_insert (id alice) (Some "pending") its shop)).
  pose (kept := data_or_empty (fst (items_insert (o_id o) its d1))).
  pose (d2 := snd (items_insert (o_id o) its d1)).
  destruct (@C1_total_is_the_rounded_double_accumulation
              (order_request alice its) (world_of shop [None; None]) alice its []
              o d1 kept d2)
    as (w' & h & E & D & _ & T & _).
  - reflexivity.
  - reflexivity.
  - reflexivity.
  - discriminate.
  - vm_compute. reflexivity.
  - vm_compute. reflexivity.
  - vm_compute. reflexivity.
  - vm_compute. reflexivity.
  - reflexivity.
  - assert (Hh : h = 4797).
    { assert (D' : Column.decimal_10_2 (float_total its) = inr 4797)
        by (vm_compute; reflexivity).
      rewrite D' in D. now injection D as <-. }
    subst h. exists w', o, kept. split; [exact E|]. split; [exact D|exact T].
Defined.

(** On the items 0.1 x 1 and 0.2 x 1 the accumulated double is
    0.30000000000000004, and the column keeps 0.30. *)
Lemma float_total_example :
  let its := List.map (decimal_item 1) [(1, 1, 1); (2, 2, 1)] in
  float_total its = Js.decimal 30000000000000004 17 /\
  Column.decimal_10_2 (float_total its) = inr 30 /\
  exact_decimal_hundredths 1 [(1, 1, 1); (2, 2, 1)] = 30.
Proof. cbv zeta. repeat split; vm_compute; reflexivity. Qed.

(** C1 as stated fails: for the single item 0.235 x 5 the accumulated
    double is 1.1749999999999998 and the total kept and answered is
    1.17, while the exact decimal product is 1.175, which is 1.18 in
    hundredths. *)
Lemma C1_counterexample :
  let lines := [(1, 235, 5)] in
  let its := List.map (decimal_item 3) lines in
  forallb accepted its = true /\
  exact_decimal_units lines = 1175 /\ exact_decimal_hundredths 3 lines = 118 /\
  exists o kept w',
    OrderController.createOrder (order_request alice its)
      (world_of shop [None; None]) =
      (Ok (sendSuccessResponse 201 "Order created successfully"
             (OrderPayload {| order := o; items := kept |})), w') /\
    hd_error (orders (db w')) = Some o /\
    float_total its = Js.decimal 11749999999999998 16 /\
    total_amount o = Js.decimal 117 2 /\
    total_amount o <> Js.decimal 118 2 /\
    total_amount o <> exact_decimal_total 3 lines.
Proof.
  cbv zeta. split; [vm_compute; reflexivity|].
  split; [reflexivity|]. split; [reflexivity|].
  eexists; eexists; eexists. split; [vm_compute; reflexivity|].
  split; [reflexivity|]. split; [vm_compute; reflexivity|].
  split; [vm_compute; reflexivity|].
  split; intros H.
  - apply (f_equal (fun x => PrimFloat.ltb x (Js.decimal 118 2))) in H.
    vm_compute in H. discriminate.
  - apply (f_equal (fun x => PrimFloat.ltb x (exact_decimal_total 3 [(1, 235, 5)]))) in H.
    vm_compute in H. discriminate.
Qed.

(** [createOrder] when the store accepts the order row as [o] and the
    items insert fails with [e]; [f3] is the outcome of the third store
    call. *)
Lemma createOrder_items_failed
    (req : Request) (w : World) (p : Principal) (its : list Item)
    (e : StoreError) (f3 : option StoreError) (rest : list (option StoreError))
    (o : Order) (d1 : Db) :
  user req = Some p -> Js.truthy_str (id p) = true ->
  body_items req = Some its -> its <> [] ->
  forallb accepted its = true ->
  order_insert (id p) (Some (Js.str_or (body_status req) "pending")) its (db w) =
    (single (Some o), d1) ->
  faults w = None :: Some e :: f3 :: rest ->
  OrderController.createOrder req w =
    (Ok (create_failure (se_message e)),
     {| db := match f3 with
              | None => snd (OrderService.delete_order (o_id o) d1)
              | Some _ => d1
              end;
        faults := rest;
        trace := trace w ++ [insert_orders_stmt; insert_items_stmt;
                             delete_order_stmt (o_id o)];
        console := console w ++ ["Supabase error creating order items:";
                                 "Error in create service:";
                                 "Error in createOrder controller:"] |}).
Proof.
  intros Hu Hid Hb Hne Hacc Hins Hf.
  unfold OrderController.createOrder, try_catch, bind, req_user, ret.
  rewrite Hu, Hb.
  destruct its as [|it more] eqn:E; [congruence|]. rewrite <- E in *.
  rewrite (validate_items_accepted its Hacc).
  rewrite (@create_items_failed (id p) its _ w e f3 rest o d1 Hid Hne Hacc Hins Hf).
  unfold console_error, create_failure; simpl.
  rewrite <- app_assoc; simpl.
  destruct (Js.includes (se_message e) "required"
            || Js.includes (se_message e) "must have"); reflexivity.
Qed.

Lemma filter_out_absent (oid : Id) (l : list Order) (x : Order) :
  In x (List.filter (fun o => negb (String.eqb (o_id o) oid)) l) -> o_id x <> oid.
Proof.
  intros H. apply filter_In in H. destruct H as [_ H].
  apply negb_true_iff in H. now apply String.eqb_neq.
Qed.

(** C2, as the code has it: when the order insert succeeds, the store
    keeping the row [o], and the items insert fails with [e], the
    delete of the new order row is issued right after the failed insert
    and before the answer; the answer carries the message of [e] and
    nothing else, whatever the outcome [f3] of that delete; if the
    delete succeeds no row with the new id is left, and if it fails the
    row stays. *)
Theorem C2_compensating_delete
    (req : Request) (w : World) (p : Principal) (its : list Item)
    (e : StoreError) (f3 : option StoreError) (rest : list (option StoreError))
    (o : Order) (d1 : Db) :
  user req = Some p -> Js.truthy_str (id p) = true ->
  body_items req = Some its -> its <> [] ->
  forallb accepted its = true ->
  order_insert (id p) (Some (Js.str_or (body_status req) "pending")) its (db w) =
    (single (Some o), d1) ->
  faults w = None :: Some e :: f3 :: rest ->
  exists w',
    OrderController.createOrder req w = (Ok (create_failure (se_message e)), w') /\
    trace w' = trace w ++ [insert_orders_stmt; insert_items_stmt;
                           delete_order_stmt (o_id o)] /\
    console w' = console w ++ ["Supabase error creating order items:";
                               "Error in create service:";
                               "Error in createOrder controller:"] /\
    (f3 = None -> forall x, In x (orders (db w')) -> o_id x <> o_id o) /\
    (f3 <> None -> hd_error (orders (db w')) = Some o).
Proof.
  intros Hu Hid Hb Hne Hacc Hins Hf.
  rewrite (@createOrder_items_failed req w p its e f3 rest o d1
             Hu Hid Hb Hne Hacc Hins Hf).
  destruct (order_insert_accepted _ _ _ _ Hins)
    as (owner & h & _ & _ & _ & _ & _ & Hd1).
  eexists. split; [reflexivity|].
  split; [reflexivity|]. split; [reflexivity|]. split.
  - intros -> x Hx. eapply filter_out_absent. exact Hx.
  - intros Hf3. destruct f3; [|congruence]. cbn [db]. rewrite Hd1. reflexivity.
Qed.

Lemma C2_compensating_delete_witness :
  exists w',
    OrderController.createOrder (order_request alice one_tea)
      (world_of shop [None; Some fk_violation; None; None]) =
      (Ok (create_failure (se_message fk_violation)), w') /\
    orders (db w') = [].
Proof.
  pose (o := OrderService.new_order (id alice) "pending" (Js.decimal 3198 2) shop).
  pose (d1 := snd (order_insert (id alice) (Some "pending") one_tea shop)).
  destruct (@C2_compensating_delete (order_request alice one_tea)
              (world_of shop [None; Some fk_violation; None; None])
              alice one_tea fk_violation None [None] o d1)
    as (w' & E & _ & _ & Hgone & _).
  - reflexivity.
  - reflexivity.
  - reflexivity.
  - discriminate.
  - vm_compute. reflexivity.
  - vm_compute. reflexivity.
  - reflexivity.
  - exists w'. split; [exact E|].
    vm_compute in E. injection E as <-. reflexivity.
Defined.

(** C2 as stated fails: when the compensating delete fails as well, the
    new order row stays in the store (without items), and the answer
    and the console output are the ones of the run in which that delete
    succeeded: nothing of the failed compensation reaches the caller. *)
Lemma C2_counterexample :
  let run f3 :=
    OrderController.createOrder (order_request alice one_tea)
      (world_of shop [None; Some fk_violation; f3]) in
  fst (run (Some connection_lost)) =
    Ok (sendErrorResponse 500 "Failed to create order"
          (Some (se_message fk_violation))) /\
  fst (run (Some connection_lost)) = fst (run None) /\
  console (snd (run (Some connection_lost))) = console (snd (run None)) /\
  List.map o_id (orders (db (snd (run (Some connection_lost))))) = ["1"] /\
  order_items (db (snd (run (Some connection_lost)))) = [] /\
  orders (db (snd (run None))) = [].
Proof.
  cbv zeta. repeat split; vm_compute; reflexivity.
Qed.

(** C3, the failing input: an order whose only item has product id 1,
    quantity 1 and price exactly 0 is answered 400 with the message of
    the presence test, and nothing reaches the store. *)
Theorem C3_price_zero_rejected :
  let its := [{| product_id := Some 1; quantity := Some 1;
                 price := Some PrimFloat.zero |}] in
  let w := world_of shop [] in
  OrderController.createOrder (order_request alice its) w =
    (Ok (sendErrorResponse 400
           "Each item must have product_id, quantity, and price" None), w).
Proof. vm_compute. reflexivity. Qed.

(** ** Reading one order (C6) *)

(** [findById] on an order the store holds, both reads succeeding. *)
Lemma order_findById_found (oid : Id) (w : World) (o : Order)
    (rest : list (option StoreError)) :
  List.find (fun x => String.eqb (o_id x) oid) (orders (db w)) = Some o ->
  faults w = None :: None :: rest ->
  OrderService.findById oid w =
    (Ok (Some {| order := o; items := items_of oid (db w) |}),
     {| db := db w; faults := rest;
        trace := trace w ++ [select_by_id "orders" oid;
                             {| verb := Select; table := "order_items";
                                filter := eq_filter "order_id" oid |}];
        console := console w |}).
Proof.
  intros Hfind Hf.
  unfold OrderService.findById, OrderService.getOrderItems,
    rethrow_logged, try_catch, bind, store.
  rewrite Hf, Hfind. simpl. rewrite <- app_assoc. reflexivity.
Qed.

(** C6: for an order the store holds and an authenticated principal,
    [getOrderById] answers 200 with the order exactly when the
    principal's role is admin or the order's [user_id] is the
    principal's id, and 403 otherwise; the answer is never the 401 of a
    missing or invalid credential nor the 404 of a missing order. *)
Theorem C6_owner_or_admin
    (req : Request) (w : World) (p : Principal) (o : Order)
    (rest : list (option StoreError)) :
  user req = Some p -> Js.truthy_str (param_id req) = true ->
  List.find (fun x => String.eqb (o_id x) (param_id req)) (orders (db w)) = Some o ->
  faults w = None :: None :: rest ->
  exists resp w',
    OrderController.getOrderById req w = (Ok resp, w') /\
    (status resp = 200 <-> role p = "admin" \/ user_id o = id p) /\
    (status resp = 403 <-> ~ (role p = "admin" \/ user_id o = id p)) /\
    (status resp = 200 ->
     resp = sendSuccessResponse 200 "Order retrieved successfully"
              (OrderPayload {| order := o;
                               items := items_of (param_id req) (db w) |})) /\
    (status resp = 403 -> resp = sendErrorResponse 403 "Access denied" None) /\
    (forall msg, resp <> sendUnauthorizedResponse msg) /\
    (forall msg, resp <> sendNotFoundResponse msg) /\
    db w' = db w.
Proof.
  intros Hu Hid Hfind Hf.
  unfold OrderController.getOrderById, try_catch, bind, req_user, ret.
  rewrite Hu, Hid; simpl.
  rewrite (order_findById_found (param_id req) w Hfind Hf); simpl.
  destruct (String.eqb_spec (role p) "admin") as [Ha|Ha];
    destruct (String.eqb_spec (user_id o) (id p)) as [Ho|Ho]; simpl;
    eexists; eexists; (split; [reflexivity|]); simpl;
    repeat split; intros; try discriminate; try tauto; try reflexivity.
Qed.

Lemma C6_owner_or_admin_witness :
  exists resp w',
    OrderController.getOrderById (order_lookup bob "7")
      (world_of shop_with_order [None; None]) = (Ok resp, w') /\
    status resp = 403.
Proof.
  destruct (@C6_owner_or_admin (order_lookup bob "7")
              (world_of shop_with_order [None; None]) bob alices_order [])
    as (resp & w' & E & _ & H403 & _); try reflexivity.
  exists resp, w'. split; [exact E|].
  apply H403. intros [H|H]; vm_compute in H; discriminate.
Defined.

(** ** Deleting a category (C4, C5) *)

Lemma category_findById_found (cid : Id) (w : World) (c : Category)
    (rest : list (option StoreError)) :
  List.find (fun x => String.eqb (c_id x) cid) (categories (db w)) = Some c ->
  faults w = None :: rest ->
  CategoryService.findById cid w =
    (Ok (Some c),
     {| db := db w; faults := rest;
        trace := trace w ++ [select_by_id "categories" cid];
        console := console w |}).
Proof.
  intros Hfind Hf.
  unfold CategoryService.findById, rethrow_logged, try_catch, bind, store.
  rewrite Hf, Hfind. reflexivity.
Qed.

(** The guard: a category with a referencing product is not deleted and
    the request is answered 400 with the reason. *)
Lemma deleteCategory_in_use (req : Request) (w : World) (c : Category)
    (rest : list (option StoreError)) :
  Js.truthy_str (param_id req) = true ->
  List.find (fun x => String.eqb (c_id x) (param_id req)) (categories (db w)) = Some c ->
  referencing (param_id req) (db w) <> [] ->
  faults w = None :: None :: rest ->
  CategoryController.deleteCategory req w =
    (Ok (sendErrorResponse 400 "Cannot delete category with existing products" None),
     {| db := db w; faults := rest;
        trace := trace w ++ [select_by_id "categories" (param_id req);
                             products_check_stmt (param_id req)];
        console := console w ++ ["Error in delete service:";
                                 "Error in deleteCategory controller:"] |}).
Proof.
  intros Hid Hfind Href Hf.
  unfold CategoryController.deleteCategory, try_catch, bind.
  rewrite Hid; simpl.
  unfold CategoryService.delete, rethrow_logged, try_catch, bind.
  rewrite (category_findById_found (param_id req) w Hfind Hf).
  unfold store; simpl. unfold referencing in Href.
  destruct (List.filter (CategoryService.references (param_id req)) (products (db w)))
    as [|x l]; [congruence|]. simpl.
  rewrite <- !app_assoc. reflexivity.
Qed.

(** Without a referencing product the delete statement is issued. *)
Lemma deleteCategory_unused (req : Request) (w : World) (c : Category)
    (rest : list (option StoreError)) :
  Js.truthy_str (param_id req) = true ->
  List.find (fun x => String.eqb (c_id x) (param_id req)) (categories (db w)) = Some c ->
  referencing (param_id req) (db w) = [] ->
  faults w = None :: None :: None :: rest ->
  CategoryController.deleteCategory req w =
    (Ok (sendSuccessResponse 200 "Category deleted successfully" NoData),
     {| db := snd (CategoryService.delete_category (param_id req) (db w));
        faults := rest;
        trace := trace w ++ [select_by_id "categories" (param_id req);
                             products_check_stmt (param_id req);
                             delete_category_stmt (param_id req)];
        console := console w |}).
Proof.
  intros Hid Hfind Href Hf.
  unfold CategoryController.deleteCategory, try_catch, bind.
  rewrite Hid; simpl.
  unfold CategoryService.delete, rethrow_logged, try_catch, bind.
  rewrite (category_findById_found (param_id req) w Hfind Hf).
  unfold store; simpl. unfold referencing in Href. rewrite Href. simpl.
  rewrite <- !app_assoc. reflexivity.
Qed.

(** C5, as the code has it: deleting a category that a product
    references is refused with status 400 and the message "Cannot delete
    category with existing products"; the products are looked up before
    any delete statement, none is issued and the tables stay as they
    were.  Deleting a category no product references answers 200 and
    the category row is gone. *)
Theorem C5_category_in_use_is_refused
    (req : Request) (w : World) (c : Category) (rest : list (option StoreError)) :
  Js.truthy_str (param_id req) = true ->
  List.find (fun x => String.eqb (c_id x) (param_id req)) (categories (db w)) = Some c ->
  (referencing (param_id req) (db w) <> [] ->
   faults w = None :: None :: rest ->
   exists resp w',
     CategoryController.deleteCategory req w = (Ok resp, w') /\
     status resp = 400 /\
     message resp = "Cannot delete category with existing products" /\
     db w' = db w /\
     trace w' = trace w ++ [select_by_id "categories" (param_id req);
                            products_check_stmt (param_id req)]) /\
  (referencing (param_id req) (db w) = [] ->
   faults w = None :: None :: None :: rest ->
   exists resp w',
     CategoryController.deleteCategory req w = (Ok resp, w') /\
     status resp = 200 /\ success resp = true /\
     (forall x, In x (categories (db w')) -> c_id x <> param_id req) /\
     trace w' = trace w ++ [select_by_id "categories" (param_id req);
                            products_check_stmt (param_id req);
                            delete_category_stmt (param_id req)]).
Proof.
  intros Hid Hfind. split; intros Href Hf.
  - rewrite (deleteCategory_in_use req w Hid Hfind Href Hf).
    eexists; eexists. repeat split.
  - rewrite (deleteCategory_unused req w Hid Hfind Href Hf).
    eexists; eexists. split; [reflexivity|]. repeat split.
    intros x Hx. apply filter_In in Hx. destruct Hx as [_ Hx].
    apply negb_true_iff in Hx. now apply String.eqb_neq.
Qed.

Lemma C5_category_in_use_is_refused_witness :
  (exists resp w',
      CategoryController.deleteCategory (category_request "1")
        (world_of shop [None; None]) = (Ok resp, w') /\
      status resp = 400 /\ db w' = shop) /\
  (exists resp w',
      CategoryController.deleteCategory (category_request "2")
        (world_of shop [None; None; None]) = (Ok resp, w') /\
      status resp = 200 /\ List.map c_id (categories (db w')) = ["1"]).
Proof.
  split.
  - destruct (@C5_category_in_use_is_refused (category_request "1")
                (world_of shop [None; None])
                {| c_id := "1"; c_name := "Herbal Teas" |} [])
      as [H _]; try reflexivity.
    destruct H as (resp & w' & E & S & _ & D & _);
      try reflexivity; try (vm_compute; discriminate).
    exists resp, w'. repeat split; assumption.
  - destruct (@C5_category_in_use_is_refused (category_request "2")
                (world_of shop [None; None; None])
                {| c_id := "2"; c_name := "Supplements" |} [])
      as [_ H]; try reflexivity.
    destruct H as (resp & w' & E & S & _ & _ & _); try reflexivity.
    exists resp, w'. repeat split; try assumption.
    vm_compute in E. injection E as _ <-. reflexivity.
Defined.

(** C5 as stated fails: the refusal is sent with status 400, not 409. *)
Lemma C5_counterexample :
  exists w',
    CategoryController.deleteCategory (category_request "1") (world_of shop []) =
      (Ok (sendErrorResponse 400 "Cannot delete category with existing products" None),
       w') /\
    referencing "1" shop <> [] /\
    status (sendErrorResponse 400 "Cannot delete category with existing products" None)
      <> 409.
Proof.
  eexists. split; [vm_compute; reflexivity|].
  split; [vm_compute|simpl]; discriminate.
Qed.

(** C4, the failing input: category "1" exists and two products
    reference it; the query that looks for referencing products fails.
    The failure is written to the console and goes no further: the
    delete statement is issued, the category row is removed, the
    products lose their category, and the answer is 200. *)
Theorem C4_failed_check_is_swallowed :
  let w := world_of shop [None; Some connection_lost; None] in
  referencing "1" shop <> [] /\
  CategoryController.deleteCategory (category_request "1") w =
    (Ok (sendSuccessResponse 200 "Category deleted successfully" NoData),
     {| db := snd (CategoryService.delete_category "1" shop);
        faults := [];
        trace := [select_by_id "categories" "1"; products_check_stmt "1";
                  delete_category_stmt "1"];
        console := ["Error checking category products:"] |}) /\
  List.map c_id (categories (snd (CategoryService.delete_category "1" shop))) = ["2"] /\
  List.map category_id (products (snd (CategoryService.delete_category "1" shop)))
    = [None; None].
Proof.
  simpl. split; [vm_compute; discriminate|].
  repeat split; vm_compute; reflexivity.
Qed.

(** The same for every world: whatever the failure of the products
    query and whether or not products reference the category, the
    delete statement follows. *)
Lemma deleteCategory_check_failed (req : Request) (w : World) (c : Category)
    (e : StoreError) (rest : list (option StoreError)) :
  Js.truthy_str (param_id req) = true ->
  List.find (fun x => String.eqb (c_id x) (param_id req)) (categories (db w)) = Some c ->
  faults w = None :: Some e :: None :: rest ->
  CategoryController.deleteCategory req w =
    (Ok (sendSuccessResponse 200 "Category deleted successfully" NoData),
     {| db := snd (CategoryService.delete_category (param_id req) (db w));
        faults := rest;
        trace := trace w ++ [select_by_id "categories" (param_id req);
                             products_check_stmt (param_id req);
                             delete_category_stmt (param_id req)];
        console := console w ++ ["Error checking category products:"] |}).
Proof.
  intros Hid Hfind Hf.
  unfold CategoryController.deleteCategory, try_catch, bind.
  rewrite Hid; simpl.
  unfold CategoryService.delete, rethrow_logged, try_catch, bind.
  rewrite (category_findById_found (param_id req) w Hfind Hf).
  unfold store, console_error; simpl.
  rewrite <- !app_assoc. reflexivity.
Qed.

(** ** Deactivating a user (C9) *)

Lemma has_id_parses (uid : Id) (u : User) :
  UserService.has_id uid u = true -> exists k, Uuid.parse uid = Some k.
Proof.
  unfold UserService.has_id, Uuid.eqb.
  destruct (Uuid.parse (u_id u)); [|discriminate].
  destruct (Uuid.parse uid) as [k|]; [|discriminate]. intros _. now exists k.
Qed.

Lemma select_user_found (uid : Id) (d : Db) (u : User) :
  List.find (UserService.has_id uid) (users d) = Some u ->
  UserService.select_user uid d = (single (Some u), d).
Proof.
  intros Hfind. unfold UserService.select_user.
  destruct (find_some _ _ Hfind) as [_ Hid].
  destruct (has_id_parses _ _ Hid) as [k ->]. now rewrite Hfind.
Qed.

Lemma select_user_absent (uid : Id) (d : Db) :
  Uuid.parse uid <> None ->
  List.find (UserService.has_id uid) (users d) = None ->
  UserService.select_user uid d = (single None, d).
Proof.
  intros Hp Hfind. unfold UserService.select_user.
  destruct (Uuid.parse uid); [|congruence]. now rewrite Hfind.
Qed.

(** Whatever the text, the select leaves the tables alone, and a row it
    answers with is the first of the table with that uuid. *)
Lemma select_user_cases (uid : Id) (d : Db) :
  exists r, UserService.select_user uid d = (r, d) /\
            (error r = None -> data r <> None) /\
            (forall u, data r = Some u ->
               List.find (UserService.has_id uid) (users d) = Some u).
Proof.
  unfold UserService.select_user.
  destruct (Uuid.parse uid).
  - destruct (List.find _ (users d)) as [u|]; eexists; (split; [reflexivity|]);
      simpl; split; intros; congruence.
  - eexists. split; [reflexivity|]. simpl. split; intros; congruence.
Qed.

(** Two texts that select the same row select the same rows. *)
Lemma has_id_same (a b : Id) (u : User) :
  UserService.has_id a u = true -> UserService.has_id b u = true ->
  forall x, UserService.has_id a x = UserService.has_id b x.
Proof.
  unfold UserService.has_id, Uuid.eqb. intros Ha Hb x.
  destruct (Uuid.parse (u_id u)) as [k|]; [|discriminate].
  destruct (Uuid.parse a) as [ka|]; [|discriminate].
  destruct (Uuid.parse b) as [kb|]; [|discriminate].
  apply String.eqb_eq in Ha, Hb. now subst ka kb.
Qed.

Lemma has_own_id (a : Id) (u : User) :
  UserService.has_id a u = true -> UserService.has_id (u_id u) u = true.
Proof.
  unfold UserService.has_id, Uuid.eqb.
  destruct (Uuid.parse (u_id u)) as [k|]; [|discriminate].
  intros _. apply String.eqb_refl.
Qed.

Lemma find_same {A : Type} (f g : A -> bool) (l : list A) :
  (forall x, f x = g x) -> List.find f l = List.find g l.
Proof.
  intros H. induction l as [|x l IH]; simpl; [reflexivity|].
  now rewrite H, IH.
Qed.

Lemma user_findById_found (uid : Id) (w : World) (u : User) :
  List.find (UserService.has_id uid) (users (db w)) = Some u ->
  next_call_ok w ->
  UserService.findById uid w =
    (Ok (Some u),
     {| db := db w; faults := tl (faults w);
        trace := trace w ++ [select_by_id "users" uid];
        console := console w |}).
Proof.
  intros Hfind Hok. unfold next_call_ok in Hok.
  unfold UserService.findById, rethrow_logged, try_catch, bind, store.
  rewrite (@select_user_found uid (db w) u Hfind).
  destruct w as [d f t c]; simpl in *.
  destruct f as [|[e|] f']; try contradiction; reflexivity.
Qed.

(** C9, the failing input: the administrator [root] asks for the
    deactivation of the account whose id is root's own, written in
    capital letters.  The store reads the text as the uuid of root's
    row, so the lookup finds the account; the guard compares the text
    with [req.user.id] as strings and finds them different; the update
    is issued and root's own account is deactivated. *)
Theorem C9_own_id_in_capitals_is_deactivated :
  let target := "C56A4180-65AA-42EC-A945-5FD21DEC0538" in
  let w := world_of shop [] in
  Uuid.parse target = Uuid.parse (id root) /\
  List.find (UserService.has_id target) (users shop) = Some (user_row root true) /\
  UserController.deactivateUser (deactivation_request root target) w =
    (Ok (sendSuccessResponse 200 "User deactivated successfully" NoData),
     {| db := snd (UserService.set_inactive target shop);
        faults := [];
        trace := [select_by_id "users" target; deactivate_stmt target];
        console := [] |}) /\
  users (snd (UserService.set_inactive target shop)) =
    [user_row alice true; user_row bob true; user_row root false].
Proof.
  simpl. repeat split; vm_compute; reflexivity.
Qed.

(** ** Token classes (C7) *)

(** A token issued as refresh token verifies as access token for as
    long as it verifies as refresh token. *)
Lemma refresh_token_verifies (env : Env) (issued now : Z) (payload : Claims)
    (w : World) :
  now < issued + JWT_REFRESH_EXPIRES_IN env ->
  JwtUtils.verifyAccessToken env now
    (Jwt (JwtUtils.generateRefreshToken env issued payload)) w = (Ok payload, w) /\
  JwtUtils.verifyRefreshToken env now
    (Jwt (JwtUtils.generateRefreshToken env issued payload)) w = (Ok payload, w).
Proof.
  intros Hfresh.
  unfold JwtUtils.verifyAccessToken, JwtUtils.verifyRefreshToken,
    JwtUtils.generateRefreshToken, jwt.verify, jwt.sign; simpl.
  rewrite String.eqb_refl; simpl.
  destruct (Z.leb_spec (issued + JWT_REFRESH_EXPIRES_IN env) now); [lia|].
  split; reflexivity.
Qed.

(** C7, as the code has it: the two verification functions are the same
    function, so a valid, unexpired refresh token presented as bearer
    credential passes the authentication step (the request goes on with
    the principal of the token's user), and the token-refresh operation
    accepts the same token. *)
Theorem C7_refresh_token_authenticates
    (env : Env) (issued now : Z) (payload : Claims) (req : Request)
    (w : World) (u : User) :
  now < issued + JWT_REFRESH_EXPIRES_IN env ->
  List.find (UserService.has_id (userId payload)) (users (db w)) = Some u ->
  is_active u = true -> next_call_ok w ->
  let token := Jwt (JwtUtils.generateRefreshToken env issued payload) in
  (forall c w0,
      JwtUtils.verifyAccessToken env now c w0 = JwtUtils.verifyRefreshToken env now c w0) /\
  (authorization req = Bearer (Some token) ->
   exists w',
     AuthMiddleware.authenticateToken env now req w =
       (Ok (Next (with_user req (principal_of u))), w')) /\
  (body_refreshToken req = Some token ->
   exists w',
     AuthController.refreshToken env now req w =
       (Ok (sendSuccessResponse 200 "Token refreshed successfully"
              (TokensData (JwtUtils.generateTokenPair env now (claims_of u)))), w')).
Proof.
  intros Hfresh Hfind Hact Hok token.
  destruct (@refresh_token_verifies env issued now payload w Hfresh) as [Ha Hr].
  split; [reflexivity|]. split; intros Hreq.
  - unfold AuthMiddleware.authenticateToken, try_catch, bind,
      JwtUtils.extractTokenFromHeader.
    rewrite Hreq. fold token. unfold token. rewrite Ha.
    rewrite (@user_findById_found (userId payload) w u Hfind Hok).
    rewrite Hact. simpl. eexists. reflexivity.
  - unfold AuthController.refreshToken, try_catch, bind.
    rewrite Hreq. unfold token. rewrite Hr.
    rewrite (@user_findById_found (userId payload) w u Hfind Hok).
    rewrite Hact. simpl. eexists. reflexivity.
Qed.

Lemma C7_refresh_token_authenticates_witness :
  let t := JwtUtils.generateRefreshToken default_env 1000 alice_claims in
  exists w',
    AuthMiddleware.authenticateToken default_env 4600 (bearer_request t)
      (world_of shop []) =
      (Ok (Next (with_user (bearer_request t) alice)), w').
Proof.
  intros t.
  destruct (@C7_refresh_token_authenticates default_env 1000 4600 alice_claims
              (bearer_request t) (world_of shop []) (user_row alice true))
    as (_ & H & _); try reflexivity; try exact I.
  destruct (H eq_refl) as (w' & E). exists w'. exact E.
Defined.

(** C7 as stated fails: one hour after login, with the access token
    expired, the refresh token of that login sent as bearer credential
    is not rejected by the authentication step; the request goes on as
    alice. *)
Lemma C7_counterexample :
  let pair := JwtUtils.generateTokenPair default_env 1000 alice_claims in
  let now := 4600 in
  fst (AuthMiddleware.authenticateToken default_env now
         (bearer_request (accessToken pair)) (world_of shop [])) =
    Ok (Respond (sendUnauthorizedResponse "Token has expired")) /\
  fst (AuthMiddleware.authenticateToken default_env now
         (bearer_request (refreshToken pair)) (world_of shop [])) =
    Ok (Next (with_user (bearer_request (refreshToken pair)) alice)).
Proof.
  simpl. split; vm_compute; reflexivity.
Qed.


(** ** Looking up and deleting what is not there *)

Lemma pgrst116_ignored (e : StoreError) :
  se_code e = "PGRST116" -> negb (String.eqb (se_code e) "PGRST116") = false.
Proof. intros ->. reflexivity. Qed.

Lemma order_findById_absent (oid : Id) (w : World) :
  List.find (fun x => String.eqb (o_id x) oid) (orders (db w)) = None ->
  next_call_answers w ->
  OrderService.findById oid w =
    (Ok None,
     {| db := db w; faults := tl (faults w);
        trace := trace w ++ [select_by_id "orders" oid];
        console := console w |}).
Proof.
  intros Hfind Hok. unfold next_call_answers in Hok.
  unfold OrderService.findById, rethrow_logged, try_catch, bind, store.
  destruct w as [d f t c]; simpl in *.
  destruct f as [|[e|] f']; simpl; rewrite ?Hfind; simpl;
    rewrite ?(pgrst116_ignored e Hok); reflexivity.
Qed.

Lemma category_findById_absent (cid : Id) (w : World) :
  List.find (fun x => String.eqb (c_id x) cid) (categories (db w)) = None ->
  next_call_answers w ->
  CategoryService.findById cid w =
    (Ok None,
     {| db := db w; faults := tl (faults w);
        trace := trace w ++ [select_by_id "categories" cid];
        console := console w |}).
Proof.
  intros Hfind Hok. unfold next_call_answers in Hok.
  unfold CategoryService.findById, rethrow_logged, try_catch, bind, store.
  destruct w as [d f t c]; simpl in *.
  destruct f as [|[e|] f']; simpl; rewrite ?Hfind; simpl;
    rewrite ?(pgrst116_ignored e Hok); reflexivity.
Qed.

Lemma product_findById_absent (pid : Id) (w : World) :
  List.find (fun x => String.eqb (p_id x) pid) (products (db w)) = None ->
  next_call_answers w ->
  ProductServiceWrites.findById pid w =
    (Ok None,
     {| db := db w; faults := tl (faults w);
        trace := trace w ++ [select_by_id "products" pid];
        console := console w |}).
Proof.
  intros Hfind Hok. unfold next_call_answers in Hok.
  unfold ProductServiceWrites.findById, rethrow_logged, try_catch, bind, store.
  destruct w as [d f t c]; simpl in *.
  destruct f as [|[e|] f']; simpl; rewrite ?Hfind; simpl;
    rewrite ?(pgrst116_ignored e Hok); reflexivity.
Qed.

Lemma user_findById_absent (uid : Id) (w : World) :
  Uuid.parse uid <> None ->
  List.find (UserService.has_id uid) (users (db w)) = None ->
  next_call_answers w ->
  UserService.findById uid w =
    (Ok None,
     {| db := db w; faults := tl (faults w);
        trace := trace w ++ [select_by_id "users" uid];
        console := console w |}).
Proof.
  intros Hp Hfind Hok. unfold next_call_answers in Hok.
  unfold UserService.findById, rethrow_logged, try_catch, bind, store.
  rewrite (@select_user_absent uid (db w) Hp Hfind).
  destruct w as [d f t c]; simpl in *.
  destruct f as [|[e|] f']; simpl;
    rewrite ?(pgrst116_ignored e Hok); reflexivity.
Qed.

(** X1: [findById] of the four services answers null for an id no row
    has (for the users, a uuid no row has), as long as the store call
    does not fail with anything but "no rows": nothing is thrown, the
    tables and the console are untouched and one select has been
    issued. *)
Theorem X1_findById_of_absent_id (i : Id) (w : World) :
  next_call_answers w ->
  (List.find (fun x => String.eqb (o_id x) i) (orders (db w)) = None ->
   exists w', OrderService.findById i w = (Ok None, w') /\
              db w' = db w /\ console w' = console w /\
              trace w' = trace w ++ [select_by_id "orders" i]) /\
  (List.find (fun x => String.eqb (c_id x) i) (categories (db w)) = None ->
   exists w', CategoryService.findById i w = (Ok None, w') /\
              db w' = db w /\ console w' = console w /\
              trace w' = trace w ++ [select_by_id "categories" i]) /\
  (List.find (fun x => String.eqb (p_id x) i) (products (db w)) = None ->
   exists w', ProductServiceWrites.findById i w = (Ok None, w') /\
              db w' = db w /\ console w' = console w /\
              trace w' = trace w ++ [select_by_id "products" i]) /\
  (Uuid.parse i <> None ->
   List.find (UserService.has_id i) (users (db w)) = None ->
   exists w', UserService.findById i w = (Ok None, w') /\
              db w' = db w /\ console w' = console w /\
              trace w' = trace w ++ [select_by_id "users" i]).
Proof.
  intros Hok. split; [|split; [|split]].
  - intros Hfind. eexists.
    split; [apply (order_findById_absent i w Hfind Hok)|repeat split].
  - intros Hfind. eexists.
    split; [apply (category_findById_absent i w Hfind Hok)|repeat split].
  - intros Hfind. eexists.
    split; [apply (product_findById_absent i w Hfind Hok)|repeat split].
  - intros Hp Hfind. eexists.
    split; [apply (user_findById_absent i w Hp Hfind Hok)|repeat split].
Qed.

Lemma X1_findById_of_absent_id_witness :
  exists w',
    OrderService.findById "41"
      (world_of shop_with_order
         [Some {| se_message := "no rows"; se_code := "PGRST116" |}]) = (Ok None, w') /\
    db w' = shop_with_order.
Proof.
  destruct (@X1_findById_of_absent_id "41"
              (world_of shop_with_order
                 [Some {| se_message := "no rows"; se_code := "PGRST116" |}]))
    as [H _]; [reflexivity|].
  destruct (H eq_refl) as (w' & E & D & _). exists w'. split; assumption.
Defined.

(** X2: reading, updating or deleting an order, deleting a category and
    deleting a product answer 404 when no row has the id, for an id
    spelled as the store prints its ids; the lookup is the only
    statement issued and the tables are as before. *)
Theorem X2_absent_target_is_404 (req : Request) (w : World) :
  Js.truthy_str (param_id req) = true -> bigint_text (param_id req) ->
  next_call_answers w ->
  (List.find (fun x => String.eqb (o_id x) (param_id req)) (orders (db w)) = None ->
   (exists w', OrderControllerWrites.deleteOrder req w =
                 (Ok (sendNotFoundResponse "Order not found"), w') /\
               db w' = db w /\
               trace w' = trace w ++ [select_by_id "orders" (param_id req)]) /\
   (forall st, body_status req = Some st -> In st validStatuses ->
      exists w', OrderControllerWrites.updateOrder req w =
                   (Ok (sendNotFoundResponse "Order not found"), w') /\
                 db w' = db w /\
                 trace w' = trace w ++ [select_by_id "orders" (param_id req)]) /\
   (user req <> None ->
      exists w', OrderController.getOrderById req w =
                   (Ok (sendNotFoundResponse "Order not found"), w') /\
                 db w' = db w /\
                 trace w' = trace w ++ [select_by_id "orders" (param_id req)])) /\
  (List.find (fun x => String.eqb (c_id x) (param_id req)) (categories (db w)) = None ->
   exists w', CategoryController.deleteCategory req w =
                (Ok (sendNotFoundResponse "Category not found"), w') /\
              db w' = db w /\
              trace w' = trace w ++ [select_by_id "categories" (param_id req)]) /\
  (List.find (fun x => String.eqb (p_id x) (param_id req)) (products (db w)) = None ->
   exists w', ProductControllerWrites.deleteProduct req w =
                (Ok (sendNotFoundResponse "Product not found"), w') /\
              db w' = db w /\
              trace w' = trace w ++ [select_by_id "products" (param_id req)]).
Proof.
  intros Hid _ Hok. split; [|split]; intros Hfind.
  - split; [|split].
    + unfold OrderControllerWrites.deleteOrder, try_catch, bind.
      rewrite Hid; simpl.
      unfold OrderServiceWrites.delete, rethrow_logged, try_catch, bind.
      rewrite (order_findById_absent _ w Hfind Hok). simpl.
      eexists. split; [reflexivity|repeat split].
    + intros st Hst Hin.
      unfold OrderControllerWrites.updateOrder, try_catch, bind.
      rewrite Hid, Hst.
      destruct Hin as [<-|[<-|[<-|[<-|[<-|[]]]]]]; simpl;
        unfold OrderServiceWrites.update, rethrow_logged, try_catch, bind;
        rewrite (order_findById_absent _ w Hfind Hok); simpl;
        eexists; (split; [reflexivity|repeat split]).
    + intros Hu.
      unfold OrderController.getOrderById, try_catch, bind, req_user, ret.
      destruct (user req) as [p|]; [|congruence].
      rewrite Hid. simpl.
      rewrite (order_findById_absent _ w Hfind Hok). simpl.
      eexists. split; [reflexivity|repeat split].
  - unfold CategoryController.deleteCategory, try_catch, bind.
    rewrite Hid; simpl.
    unfold CategoryService.delete, rethrow_logged, try_catch, bind.
    rewrite (category_findById_absent _ w Hfind Hok). simpl.
    eexists. split; [reflexivity|repeat split].
  - unfold ProductControllerWrites.deleteProduct, try_catch, bind.
    rewrite Hid; simpl.
    unfold ProductServiceWrites.delete, rethrow_logged, try_catch, bind.
    rewrite (product_findById_absent _ w Hfind Hok). simpl.
    eexists. split; [reflexivity|repeat split].
Qed.

Lemma X2_absent_target_is_404_witness :
  exists w' w'',
    OrderControllerWrites.deleteOrder (order_lookup root "41") (world_of shop_with_order []) =
      (Ok (sendNotFoundResponse "Order not found"), w') /\
    db w' = shop_with_order /\
    OrderController.getOrderById (order_lookup root "41") (world_of shop_with_order []) =
      (Ok (sendNotFoundResponse "Order not found"), w'') /\
    trace w'' = [select_by_id "orders" "41"].
Proof.
  destruct (@X2_absent_target_is_404 (order_lookup root "41")
              (world_of shop_with_order [])) as [H _].
  - reflexivity.
  - exists 41. split; [lia|reflexivity].
  - exact I.
  - destruct (H eq_refl) as ((w' & E & D & _) & _ & G).
    destruct G as (w'' & E' & _ & T); [discriminate|].
    exists w', w''. repeat split; assumption.
Defined.

(** ** Updating an order *)

Lemma existsb_eqb_false (st : string) (l : list string) :
  ~ In st l -> existsb (String.eqb st) l = false.
Proof.
  intros H. destruct (existsb (String.eqb st) l) eqn:E; [|reflexivity].
  apply existsb_exists in E. destruct E as (x & Hx & Heq).
  apply String.eqb_eq in Heq. subst x. contradiction.
Qed.

(** X3: [updateOrder] answers 400 without a store call when the status
    is missing or empty ("Status is required") and when it is not one
    of the five order statuses, compared as exact strings. *)
Theorem X3_updateOrder_checks_status (req : Request) (w : World) :
  Js.truthy_str (param_id req) = true ->
  (body_status req = None \/ body_status req = Some "" ->
   OrderControllerWrites.updateOrder req w =
     (Ok (sendErrorResponse 400 "Status is required" None), w)) /\
  (forall st, body_status req = Some st -> st <> "" -> ~ In st validStatuses ->
   OrderControllerWrites.updateOrder req w =
     (Ok (sendErrorResponse 400
            "Invalid status. Must be one of: pending, processing, shipped, delivered, cancelled"
            None), w)).
Proof.
  intros Hid. split.
  - intros [H|H]; unfold OrderControllerWrites.updateOrder, try_catch, bind, ret;
      rewrite Hid, H; reflexivity.
  - intros st Hst Hne Hin.
    unfold OrderControllerWrites.updateOrder, try_catch, bind, ret.
    rewrite Hid, Hst.
    destruct st as [|c st']; [congruence|].
    cbn [negb Js.truthy Js.truthy_str Js.str_or].
    rewrite (existsb_eqb_false _ _ Hin). reflexivity.
Qed.

Lemma X3_updateOrder_checks_status_witness :
  OrderControllerWrites.updateOrder (status_request root "7" (Some "Shipped"))
    (world_of shop_with_order []) =
    (Ok (sendErrorResponse 400
           "Invalid status. Must be one of: pending, processing, shipped, delivered, cancelled"
           None), world_of shop_with_order []).
Proof.
  destruct (@X3_updateOrder_checks_status (status_request root "7" (Some "Shipped"))
              (world_of shop_with_order []) eq_refl) as [_ H].
  apply (H "Shipped" eq_refl).
  - discriminate.
  - intros Hin. repeat (destruct Hin as [Hin|Hin]; [discriminate|]). exact Hin.
Defined.

Lemma find_patch_orders (oid : Id) (data : UpdateData) (l : list Order) :
  List.find (fun o => String.eqb (o_id o) oid)
    (OrderServiceWrites.patch_orders oid data l) =
  option_map (OrderServiceWrites.patch_order data)
    (List.find (fun o => String.eqb (o_id o) oid) l).
Proof.
  induction l as [|o l IH]; simpl; [reflexivity|].
  destruct (String.eqb (o_id o) oid) eqn:E; simpl; rewrite E; [reflexivity|exact IH].
Qed.

Lemma valid_status_checks_pass (st : string) :
  In st validStatuses ->
  OrderServiceWrites.checks_pass {| ud_status := Some st; ud_total_amount := None |} = true.
Proof.
  intros Hin. destruct Hin as [<-|[<-|[<-|[<-|[<-|[]]]]]]; reflexivity.
Qed.

(** [updateOrder] on an order the store holds, with a valid status and
    the four store calls succeeding. *)
Lemma updateOrder_ok (req : Request) (w : World) (o : Order) (st : string)
    (rest : list (option StoreError)) :
  Js.truthy_str (param_id req) = true ->
  List.find (fun x => String.eqb (o_id x) (param_id req)) (orders (db w)) = Some o ->
  body_status req = Some st -> In st validStatuses ->
  faults w = None :: None :: None :: None :: rest ->
  let data := {| ud_status := Some st; ud_total_amount := None |} in
  OrderControllerWrites.updateOrder req w =
    (Ok (sendSuccessResponse 200 "Order updated successfully"
           (OrderPayload {| order := OrderServiceWrites.patch_order data o;
                            items := items_of (param_id req) (db w) |})),
     {| db := {| users := users (db w); categories := categories (db w);
                 products := products (db w);
                 orders := OrderServiceWrites.patch_orders (param_id req) data
                             (orders (db w));
                 order_items := order_items (db w);
                 orders_seq := orders_seq (db w) |};
        faults := rest;
        trace := trace w ++ [select_by_id "orders" (param_id req);
                             select_items_stmt (param_id req);
                             update_order_stmt (param_id req);
                             select_items_stmt (param_id req)];
        console := console w |}).
Proof.
  intros Hid Hfind Hst Hin Hf data. subst data.
  unfold OrderControllerWrites.updateOrder, try_catch, bind.
  rewrite Hid, Hst.
  destruct Hin as [<-|[<-|[<-|[<-|[<-|[]]]]]]; simpl;
    unfold OrderServiceWrites.update, rethrow_logged, try_catch, bind;
    rewrite (@order_findById_found (param_id req) w o (None :: None :: rest) Hfind Hf);
    unfold store, OrderService.getOrderItems, rethrow_logged, try_catch, bind,
      OrderModelWrites.updateOrderQuery, OrderServiceWrites.update_order;
    simpl; rewrite find_patch_orders, Hfind; simpl;
    rewrite <- !app_assoc; reflexivity.
Qed.

Lemma patch_orders_ids (oid : Id) (data : UpdateData) (l : list Order) :
  List.map o_id (OrderServiceWrites.patch_orders oid data l) = List.map o_id l.
Proof.
  unfold OrderServiceWrites.patch_orders. rewrite map_map. apply map_ext.
  intros x. destruct (String.eqb (o_id x) oid); reflexivity.
Qed.

Lemma patch_orders_others (oid : Id) (data : UpdateData) (l : list Order) (x : Order) :
  In x l -> o_id x <> oid -> In x (OrderServiceWrites.patch_orders oid data l).
Proof.
  intros Hx Hne. apply in_map_iff. exists x. split; [|exact Hx].
  apply String.eqb_neq in Hne. now rewrite Hne.
Qed.

(** X4: [updateOrder] with one of the five statuses, on an order the
    store holds and with the store calls succeeding, answers 200 with
    the order carrying the new status, whatever its status was before;
    owner, total and id of the order and every other order and all
    order items are left as they were. *)
Theorem X4_updateOrder_writes_the_status_only
    (req : Request) (w : World) (o : Order) (st : string)
    (rest : list (option StoreError)) :
  Js.truthy_str (param_id req) = true ->
  List.find (fun x => String.eqb (o_id x) (param_id req)) (orders (db w)) = Some o ->
  body_status req = Some st -> In st validStatuses ->
  faults w = None :: None :: None :: None :: rest ->
  exists updated w',
    OrderControllerWrites.updateOrder req w =
      (Ok (sendSuccessResponse 200 "Order updated successfully"
             (OrderPayload {| order := updated;
                              items := items_of (param_id req) (db w) |})), w') /\
    o_status updated = st /\ o_id updated = o_id o /\
    user_id updated = user_id o /\ total_amount updated = total_amount o /\
    List.find (fun x => String.eqb (o_id x) (param_id req)) (orders (db w')) =
      Some updated /\
    List.map o_id (orders (db w')) = List.map o_id (orders (db w)) /\
    (forall x, In x (orders (db w)) -> o_id x <> param_id req ->
               In x (orders (db w'))) /\
    order_items (db w') = order_items (db w) /\
    users (db w') = users (db w) /\ products (db w') = products (db w) /\
    categories (db w') = categories (db w).
Proof.
  intros Hid Hfind Hst Hin Hf.
  rewrite (@updateOrder_ok req w o st rest Hid Hfind Hst Hin Hf).
  eexists; eexists. split; [reflexivity|].
  cbn [db orders order_items users products categories].
  repeat split.
  - rewrite find_patch_orders, Hfind. reflexivity.
  - apply patch_orders_ids.
  - intros x Hx Hne. now apply patch_orders_others.
Qed.

Lemma X4_updateOrder_writes_the_status_only_witness :
  exists updated w',
    OrderControllerWrites.updateOrder (status_request root "7" (Some "delivered"))
      (world_of shop_with_order [None; None; None; None]) =
      (Ok (sendSuccessResponse 200 "Order updated successfully"
             (OrderPayload {| order := updated;
                              items := items_of "7" shop_with_order |})), w') /\
    o_status updated = "delivered" /\ user_id updated = id alice.
Proof.
  destruct (@X4_updateOrder_writes_the_status_only
              (status_request root "7" (Some "delivered"))
              (world_of shop_with_order [None; None; None; None])
              alices_order "delivered" [])
    as (updated & w' & E & S & _ & U & _); try reflexivity.
  - simpl. tauto.
  - exists updated, w'. repeat split; assumption.
Defined.

(** ** Deleting an order *)

(** [deleteOrder] on an order the store holds: [f3] and [f4] are the
    outcomes of the two delete statements. *)
Lemma deleteOrder_run (req : Request) (w : World) (o : Order)
    (f3 f4 : option StoreError) (rest : list (option StoreError)) :
  Js.truthy_str (param_id req) = true ->
  List.find (fun x => String.eqb (o_id x) (param_id req)) (orders (db w)) = Some o ->
  faults w = None :: None :: f3 :: f4 :: rest ->
  let oid := param_id req in
  let failed (e : StoreError) :=
    if Js.includes (se_message e) "not found"
    then sendNotFoundResponse "Order not found"
    else sendErrorResponse 500 "Failed to delete order" (Some (se_message e)) in
  let looked_up := [select_by_id "orders" oid; select_items_stmt oid] in
  OrderControllerWrites.deleteOrder req w =
    match f3, f4 with
    | Some e, _ =>
        (Ok (failed e),
         {| db := db w; faults := f4 :: rest;
            trace := trace w ++ looked_up ++ [delete_items_stmt oid];
            console := console w ++ ["Supabase error deleting order items:";
                                     "Error in delete service:";
                                     "Error in deleteOrder controller:"] |})
    | None, Some e =>
        (Ok (failed e),
         {| db := snd (OrderServiceWrites.delete_items oid (db w)); faults := rest;
            trace := trace w ++ looked_up ++ [delete_items_stmt oid;
                                              delete_order_stmt oid];
            console := console w ++ ["Supabase error deleting order:";
                                     "Error in delete service:";
                                     "Error in deleteOrder controller:"] |})
    | None, None =>
        (Ok (sendSuccessResponse 200 "Order deleted successfully" NoData),
         {| db := snd (OrderService.delete_order oid
                         (snd (OrderServiceWrites.delete_items oid (db w))));
            faults := rest;
            trace := trace w ++ looked_up ++ [delete_items_stmt oid;
                                              delete_order_stmt oid];
            console := console w |})
    end.
Proof.
  intros Hid Hfind Hf oid failed looked_up. subst oid failed looked_up.
  unfold OrderControllerWrites.deleteOrder, try_catch, bind.
  rewrite Hid; simpl.
  unfold OrderServiceWrites.delete, rethrow_logged, try_catch, bind.
  rewrite (@order_findById_found (param_id req) w o (f3 :: f4 :: rest) Hfind Hf).
  unfold store, console_error, bind, throw; simpl.
  destruct f3 as [e3|]; simpl.
  - rewrite <- !app_assoc; simpl.
    destruct (Js.includes (se_message e3) "not found"); reflexivity.
  - destruct f4 as [e4|]; simpl; rewrite <- !app_assoc; simpl.
    + destruct (Js.includes (se_message e4) "not found"); reflexivity.
    + reflexivity.
Qed.

Lemma find_filtered_out (oid : Id) (l : list Order) :
  List.find (fun x => String.eqb (o_id x) oid)
    (List.filter (fun x => negb (String.eqb (o_id x) oid)) l) = None.
Proof.
  induction l as [|x l IH]; simpl; [reflexivity|].
  destruct (String.eqb (o_id x) oid) eqn:E; simpl; [exact IH|].
  rewrite E. exact IH.
Qed.

(** X5: [deleteOrder] on an order the store holds, with the four store
    calls succeeding, answers 200; afterwards the store has exactly the
    orders and the order items that do not carry the id, the other
    tables are as before, and looking the id up gives null. *)
Theorem X5_deleteOrder_removes_order_and_items
    (req : Request) (w : World) (o : Order) (rest : list (option StoreError)) :
  Js.truthy_str (param_id req) = true ->
  List.find (fun x => String.eqb (o_id x) (param_id req)) (orders (db w)) = Some o ->
  faults w = None :: None :: None :: None :: rest ->
  exists w',
    OrderControllerWrites.deleteOrder req w =
      (Ok (sendSuccessResponse 200 "Order deleted successfully" NoData), w') /\
    (forall x, In x (orders (db w')) <->
               In x (orders (db w)) /\ o_id x <> param_id req) /\
    (forall i, In i (order_items (db w')) <->
               In i (order_items (db w)) /\ order_id i <> param_id req) /\
    users (db w') = users (db w) /\ products (db w') = products (db w) /\
    categories (db w') = categories (db w) /\
    (next_call_answers w' ->
     exists w'', OrderService.findById (param_id req) w' = (Ok None, w'')).
Proof.
  intros Hid Hfind Hf.
  rewrite (@deleteOrder_run req w o None None rest Hid Hfind Hf).
  eexists. split; [reflexivity|].
  assert (Ho : forall x,
             In x (List.filter (fun o => negb (String.eqb (o_id o) (param_id req)))
                     (orders (db w))) <->
             In x (orders (db w)) /\ o_id x <> param_id req).
  { intros x. rewrite filter_In, negb_true_iff, String.eqb_neq. tauto. }
  split; [exact Ho|]. split; [|split; [reflexivity|split; [reflexivity|split; [reflexivity|]]]].
  - intros i. cbn [db snd OrderService.delete_order OrderServiceWrites.delete_items order_items].
    rewrite !filter_In, negb_true_iff, String.eqb_neq. tauto.
  - intros Hok. eexists. apply order_findById_absent; [|exact Hok].
    cbn [db snd OrderService.delete_order OrderServiceWrites.delete_items orders].
    apply find_filtered_out.
Qed.

Lemma X5_deleteOrder_removes_order_and_items_witness :
  exists w',
    OrderControllerWrites.deleteOrder (order_lookup root "7")
      (world_of shop_with_order [None; None; None; None]) =
      (Ok (sendSuccessResponse 200 "Order deleted successfully" NoData), w') /\
    orders (db w') = [] /\ order_items (db w') = [].
Proof.
  destruct (@X5_deleteOrder_removes_order_and_items (order_lookup root "7")
              (world_of shop_with_order [None; None; None; None]) alices_order []
              eq_refl eq_refl eq_refl) as (w' & E & _).
  exists w'. split; [exact E|].
  vm_compute in E. injection E as <-. split; reflexivity.
Defined.

(** X6: [deleteOrder] is two statements and no transaction.  If the
    delete of the items fails, the answer is a failure and nothing is
    removed; if it succeeds and the delete of the order fails, the
    answer is a failure, the orders are as before and the order is left
    without items. *)
Theorem X6_deleteOrder_is_not_atomic
    (req : Request) (w : World) (o : Order) (e : StoreError)
    (rest : list (option StoreError)) :
  Js.truthy_str (param_id req) = true ->
  List.find (fun x => String.eqb (o_id x) (param_id req)) (orders (db w)) = Some o ->
  (forall f4, faults w = None :: None :: Some e :: f4 :: rest ->
     exists resp w',
       OrderControllerWrites.deleteOrder req w = (Ok resp, w') /\
       success resp = false /\ db w' = db w /\
       trace w' = trace w ++ [select_by_id "orders" (param_id req);
                              select_items_stmt (param_id req);
                              delete_items_stmt (param_id req)]) /\
  (faults w = None :: None :: None :: Some e :: rest ->
     exists resp w',
       OrderControllerWrites.deleteOrder req w = (Ok resp, w') /\
       success resp = false /\
       orders (db w') = orders (db w) /\
       items_of (param_id req) (db w') = [] /\
       (forall i, In i (order_items (db w)) -> order_id i <> param_id req ->
                  In i (order_items (db w')))).
Proof.
  intros Hid Hfind. split.
  - intros f4 Hf.
    rewrite (@deleteOrder_run req w o (Some e) f4 rest Hid Hfind Hf).
    eexists; eexists. split; [reflexivity|].
    split; [|split; reflexivity].
    destruct (Js.includes (se_message e) "not found"); reflexivity.
  - intros Hf.
    rewrite (@deleteOrder_run req w o None (Some e) rest Hid Hfind Hf).
    eexists; eexists. split; [reflexivity|].
    split; [|split; [reflexivity|split]].
    + destruct (Js.includes (se_message e) "not found"); reflexivity.
    + unfold items_of. cbn [db snd OrderServiceWrites.delete_items order_items].
      destruct (List.filter _ (List.filter _ _)) as [|i l] eqn:F; [reflexivity|].
      assert (Hi : In i (i :: l)) by (left; reflexivity).
      rewrite <- F in Hi. rewrite !filter_In in Hi.
      destruct Hi as [[_ Hn] Hy]. rewrite Hy in Hn. discriminate.
    + intros i Hi Hne. cbn [db snd OrderServiceWrites.delete_items order_items].
      apply filter_In. split; [exact Hi|].
      apply negb_true_iff. now apply String.eqb_neq.
Qed.

Lemma X6_deleteOrder_is_not_atomic_witness :
  exists resp w',
    OrderControllerWrites.deleteOrder (order_lookup root "7")
      (world_of shop_with_order [None; None; None; Some connection_lost]) =
      (Ok resp, w') /\
    success resp = false /\ orders (db w') = [alices_order] /\
    order_items (db w') = [].
Proof.
  destruct (@X6_deleteOrder_is_not_atomic (order_lookup root "7")
              (world_of shop_with_order [None; None; None; Some connection_lost])
              alices_order connection_lost [] eq_refl eq_refl) as [_ H].
  destruct (H eq_refl) as (resp & w' & E & S & O & _).
  exists resp, w'. repeat split; try assumption.
  vm_compute in E. injection E as _ <-. reflexivity.
Defined.

(** ** Creating an order, then reading or deleting it *)

Lemma serial_id_not_empty (n : Z) :
  Js.truthy_str (NilZero.string_of_int (Z.to_int n)) = true.
Proof.
  destruct (Z.to_int n) as [u|u]; simpl; [|reflexivity].
  destruct u; reflexivity.
Qed.

Lemma items_of_kept (oid : Id) (old kept : list OrderItem) :
  (forall i, In i old -> order_id i <> oid) ->
  Forall (fun k => order_id k = oid) kept ->
  List.filter (fun i => String.eqb (order_id i) oid) (old ++ kept) = kept.
Proof.
  intros Hfresh Hkept. rewrite filter_app.
  assert (E1 : List.filter (fun i => String.eqb (order_id i) oid) old = []).
  { induction old as [|i l IH]; simpl; [reflexivity|].
    destruct (String.eqb_spec (order_id i) oid) as [E|E].
    - exfalso. apply (Hfresh i); [left; reflexivity|exact E].
    - apply IH. intros j Hj. apply Hfresh. now right. }
  rewrite E1. simpl.
  induction Hkept as [|k l Hk _ IH]; simpl; [reflexivity|].
  rewrite Hk, String.eqb_refl. now rewrite IH.
Qed.

Lemma filter_out_fresh {A : Type} (key : A -> Id) (oid : Id) (l : list A) :
  (forall x, In x l -> key x <> oid) ->
  List.filter (fun x => negb (String.eqb (key x) oid)) l = l.
Proof.
  induction l as [|x l IH]; intros H; simpl; [reflexivity|].
  destruct (String.eqb_spec (key x) oid) as [E|E]; simpl.
  - exfalso. apply (H x); [left; reflexivity|exact E].
  - rewrite IH; [reflexivity|]. intros y Hy. apply H. now right.
Qed.

Lemma filter_out_kept (oid : Id) (kept : list OrderItem) :
  Forall (fun k => order_id k = oid) kept ->
  List.filter (fun i => negb (String.eqb (order_id i) oid)) kept = [].
Proof.
  induction 1 as [|k l Hk _ IH]; simpl; [reflexivity|].
  rewrite Hk, String.eqb_refl. exact IH.
Qed.

Lemma parseInt_num_safe (q : Z) :
  Z.abs q <= 2 ^ 53 -> Js.parseInt_num q = Some q.
Proof.
  intros H. unfold Js.parseInt_num.
  destruct (Z.leb_spec (Z.abs q) (2 ^ 53)); [reflexivity|lia].
Qed.

(** The rows kept of accepted items with safe integers. *)
Lemma kept_rows (oid : Id) (its : list Item) (kept : list OrderItem) :
  forallb accepted its = true -> forallb safe_integers its = true ->
  Forall2 (fun it k => OrderService.item_columns (OrderService.item_row oid it) = inr k)
    its kept ->
  Forall2 (kept_of oid) its kept.
Proof.
  intros Hacc Hsafe Hrows. revert Hacc Hsafe.
  induction Hrows as [|it k l ks Hk _ IH]; intros Hacc Hsafe; constructor.
  - simpl in Hacc, Hsafe.
    apply andb_true_iff in Hacc. destruct Hacc as [Ha _].
    apply andb_true_iff in Hsafe. destruct Hsafe as [Hs _].
    destruct (accepted_inv it Ha)
      as (pid & q & pr & n & Epid & Eq & Ep & _ & _ & _ & _).
    unfold safe_integers in Hs. rewrite Epid, Eq in Hs.
    apply andb_true_iff in Hs. destruct Hs as [_ Hq]. apply Z.leb_le in Hq.
    destruct (item_columns_accepted _ Hk)
      as (Ko & Kp & Kq & Rq & h & D & B & Kpr).
    unfold OrderService.item_row in Ko, Kp, Kq, Rq, D.
    cbn [order_id oi_product_id oi_quantity oi_price] in Ko, Kp, Kq, Rq, D.
    rewrite Epid in Kp. rewrite Eq, (parseInt_num_safe q Hq) in Kq, Rq.
    rewrite Ep in D. unfold Js.parseFloat in D.
    exists pid, q, pr, h. repeat split; trivial; try lia.
    destruct k as [ko kp kq kpr]. simpl in *. now subst.
  - simpl in Hacc, Hsafe.
    apply andb_true_iff in Hacc. apply andb_true_iff in Hsafe.
    apply IH; tauto.
Qed.

(** X7: an order just created is what [findById] of its id returns: the
    row with the requesting user as owner, the status of the request or
    "pending", and one item row per request item with its product id,
    its quantity, which lies between 1 and 2^31 - 1, and its price as
    the DECIMAL(10,2) column keeps it; for items with a product id, a
    quantity of at least 1 that a double holds and a positive price, of
    which the store accepts the order row and the item rows, and
    provided no older order item carries the new id. *)
Theorem X7_created_order_is_found
    (req : Request) (w : World) (p : Principal) (its : list Item)
    (rest : list (option StoreError))
    (o : Order) (d1 : Db) (kept : list OrderItem) (d2 : Db) :
  user req = Some p -> Js.truthy_str (id p) = true ->
  body_items req = Some its -> its <> [] ->
  forallb accepted its = true -> forallb safe_integers its = true ->
  order_insert (id p) (Some (Js.str_or (body_status req) "pending")) its (db w) =
    (single (Some o), d1) ->
  items_insert (o_id o) its d1 = (rows kept, d2) ->
  faults w = None :: None :: None :: None :: rest ->
  (forall i, In i (order_items (db w)) ->
             order_id i <> NilZero.string_of_int (Z.to_int (orders_seq (db w)))) ->
  exists w1 w2,
    OrderController.createOrder req w =
      (Ok (sendSuccessResponse 201 "Order created successfully"
             (OrderPayload {| order := o; items := kept |})), w1) /\
    OrderService.findById (o_id o) w1 =
      (Ok (Some {| order := o; items := kept |}), w2) /\
    db w2 = db w1 /\
    Uuid.parse (id p) = Some (user_id o) /\
    o_status o = Js.str_or (body_status req) "pending" /\
    Forall2 (kept_of (o_id o)) its kept.
Proof.
  intros Hu Hid Hb Hne Hacc Hsafe Hins Hitems Hf Hfresh.
  rewrite (@createOrder_ok req w p its (None :: None :: rest) o d1 kept d2
             Hu Hid Hb Hne Hacc Hins Hitems Hf).
  destruct (order_insert_accepted _ _ _ _ Hins)
    as (owner & h & Hown & _ & _ & Ho & _ & Hd1).
  destruct (items_insert_accepted _ _ _ Hitems) as (Hrows & _ & Hd2).
  assert (Hoid : o_id o = NilZero.string_of_int (Z.to_int (orders_seq (db w))))
    by (rewrite Ho; reflexivity).
  assert (Hof : items_of (o_id o) d2 = kept).
  { unfold items_of. rewrite Hd2, Hd1. cbn [order_items].
    apply items_of_kept.
    - rewrite Hoid. exact Hfresh.
    - exact (@kept_items_of_order _ _ _ Hrows). }
  eexists; eexists. split; [reflexivity|].
  split; [|split; [|split; [|split]]].
  - rewrite (@order_findById_found (o_id o) _ o rest).
    + cbn [db]. rewrite Hof. reflexivity.
    + cbn [db]. rewrite Hd2, Hd1. cbn [orders List.find].
      rewrite String.eqb_refl. reflexivity.
    + reflexivity.
  - reflexivity.
  - rewrite Ho. exact Hown.
  - rewrite Ho. unfold status_written, OrderService.new_order. cbn [o_status].
    unfold Js.str_or at 1.
    destruct (body_status req) as [s|]; simpl; [|reflexivity].
    destruct s; reflexivity.
  - exact (@kept_rows _ _ _ Hacc Hsafe Hrows).
Qed.

Lemma X7_created_order_is_found_witness :
  let o := OrderService.new_order (id alice) "pending" (Js.decimal 3198 2) shop in
  let kept := [{| order_id := "1"; oi_product_id := 1; oi_quantity := 2;
                  oi_price := Js.decimal 1599 2 |}] in
  exists w1 w2,
    OrderController.createOrder (order_request alice one_tea)
      (world_of shop [None; None; None; None]) =
      (Ok (sendSuccessResponse 201 "Order created successfully"
             (OrderPayload {| order := o; items := kept |})), w1) /\
    OrderService.findById "1" w1 = (Ok (Some {| order := o; items := kept |}), w2).
Proof.
  intros o kept.
  pose (d1 := snd (order_insert (id alice) (Some "pending") one_tea shop)).
  pose (d2 := snd (items_insert (o_id o) one_tea d1)).
  destruct (@X7_created_order_is_found (order_request alice one_tea)
              (world_of shop [None; None; None; None]) alice one_tea []
              o d1 kept d2)
    as (w1 & w2 & E & F & _).
  - reflexivity.
  - reflexivity.
  - reflexivity.
  - discriminate.
  - vm_compute. reflexivity.
  - vm_compute. reflexivity.
  - vm_compute. reflexivity.
  - vm_compute. reflexivity.
  - reflexivity.
  - intros i [].
  - exists w1, w2. split; [exact E|exact F].
Defined.

(** X8: creating an order and then deleting it leaves the orders and
    the order items as they were before the creation (the id sequence
    has moved on); for accepted items of which the store accepts the
    order row and the item rows, and provided no older row carries the
    new id. *)
Theorem X8_create_then_delete_restores
    (req : Request) (w : World) (p : Principal) (its : list Item)
    (rest : list (option StoreError))
    (o : Order) (d1 : Db) (kept : list OrderItem) (d2 : Db) :
  user req = Some p -> Js.truthy_str (id p) = true ->
  body_items req = Some its -> its <> [] ->
  forallb accepted its = true ->
  order_insert (id p) (Some (Js.str_or (body_status req) "pending")) its (db w) =
    (single (Some o), d1) ->
  items_insert (o_id o) its d1 = (rows kept, d2) ->
  faults w = None :: None :: None :: None :: None :: None :: rest ->
  let fresh := NilZero.string_of_int (Z.to_int (orders_seq (db w))) in
  (forall x, In x (orders (db w)) -> o_id x <> fresh) ->
  (forall i, In i (order_items (db w)) -> order_id i <> fresh) ->
  exists w1 w2,
    OrderController.createOrder req w =
      (Ok (sendSuccessResponse 201 "Order created successfully"
             (OrderPayload {| order := o; items := kept |})), w1) /\
    o_id o = fresh /\
    OrderControllerWrites.deleteOrder (order_lookup p fresh) w1 =
      (Ok (sendSuccessResponse 200 "Order deleted successfully" NoData), w2) /\
    orders (db w2) = orders (db w) /\
    order_items (db w2) = order_items (db w) /\
    orders_seq (db w2) = orders_seq (db w) + 1 /\
    users (db w2) = users (db w) /\ products (db w2) = products (db w) /\
    categories (db w2) = categories (db w).
Proof.
  intros Hu Hid Hb Hne Hacc Hins Hitems Hf fresh Ho Hi.
  rewrite (@createOrder_ok req w p its (None :: None :: None :: None :: rest)
             o d1 kept d2 Hu Hid Hb Hne Hacc Hins Hitems Hf).
  destruct (order_insert_accepted _ _ _ _ Hins)
    as (owner & h & _ & _ & _ & Eo & _ & Hd1).
  destruct (items_insert_accepted _ _ _ Hitems) as (Hrows & _ & Hd2).
  assert (Hoid : o_id o = fresh) by (rewrite Eo; reflexivity).
  pose proof (@kept_items_of_order _ _ _ Hrows) as Hkept. rewrite Hoid in Hkept.
  eexists; eexists. split; [reflexivity|]. split; [exact Hoid|].
  split.
  - rewrite (@deleteOrder_run (order_lookup p fresh) _ o None None rest).
    + reflexivity.
    + apply serial_id_not_empty.
    + cbn [db param_id order_lookup]. rewrite Hd2, Hd1. cbn [orders List.find].
      rewrite Hoid, String.eqb_refl. reflexivity.
    + reflexivity.
  - cbn [db snd OrderService.delete_order OrderServiceWrites.delete_items
         orders order_items orders_seq users products categories
         param_id order_lookup].
    rewrite Hd2, Hd1.
    cbn [orders order_items orders_seq users products categories List.filter].
    rewrite Hoid, String.eqb_refl. cbn [negb].
    repeat split.
    + apply (@filter_out_fresh _ o_id fresh _ Ho).
    + rewrite filter_app, (@filter_out_kept _ _ Hkept), app_nil_r.
      rewrite (@filter_out_fresh _ order_id fresh _ Hi).
      apply (@filter_out_fresh _ order_id fresh _ Hi).
Qed.

Lemma X8_create_then_delete_restores_witness :
  let o := OrderService.new_order (id alice) "pending" (Js.decimal 3198 2) shop in
  let kept := [{| order_id := "1"; oi_product_id := 1; oi_quantity := 2;
                  oi_price := Js.decimal 1599 2 |}] in
  exists w1 w2,
    OrderController.createOrder (order_request alice one_tea)
      (world_of shop [None; None; None; None; None; None]) =
      (Ok (sendSuccessResponse 201 "Order created successfully"
             (OrderPayload {| order := o; items := kept |})), w1) /\
    OrderControllerWrites.deleteOrder (order_lookup alice "1") w1 =
      (Ok (sendSuccessResponse 200 "Order deleted successfully" NoData), w2) /\
    orders (db w2) = [] /\ order_items (db w2) = [].
Proof.
  intros o kept.
  pose (d1 := snd (order_insert (id alice) (Some "pending") one_tea shop)).
  pose (d2 := snd (items_insert (o_id o) one_tea d1)).
  destruct (@X8_create_then_delete_restores (order_request alice one_tea)
              (world_of shop [None; None; None; None; None; None]) alice one_tea []
              o d1 kept d2)
    as (w1 & w2 & E & _ & D & O & I' & _).
  - reflexivity.
  - reflexivity.
  - reflexivity.
  - discriminate.
  - vm_compute. reflexivity.
  - vm_compute. reflexivity.
  - vm_compute. reflexivity.
  - reflexivity.
  - intros x [].
  - intros i [].
  - exists w1, w2. repeat split; assumption.
Defined.

(** X9: when the insert of the order row fails, [createOrder] answers
    with the failure, no row has been written and neither the items
    insert nor a delete has been issued. *)
Theorem X9_failed_order_insert_writes_nothing
    (req : Request) (w : World) (p : Principal) (its : list Item)
    (e : StoreError) (rest : list (option StoreError)) :
  user req = Some p -> Js.truthy_str (id p) = true ->
  body_items req = Some its -> its <> [] ->
  forallb accepted its = true ->
  faults w = Some e :: rest ->
  exists w',
    OrderController.createOrder req w = (Ok (create_failure (se_message e)), w') /\
    success (create_failure (se_message e)) = false /\
    db w' = db w /\ faults w' = rest /\
    trace w' = trace w ++ [insert_orders_stmt].
Proof.
  intros Hu Hid Hb Hne Hacc Hf.
  unfold OrderController.createOrder, try_catch, bind, req_user, ret.
  rewrite Hu, Hb.
  destruct its as [|it more] eqn:E; [congruence|]. rewrite <- E in *.
  rewrite (validate_items_accepted its Hacc).
  unfold OrderService.create, rethrow_logged, try_catch, bind. simpl.
  rewrite Hid. simpl. rewrite E. rewrite <- E.
  rewrite accumulate_accepted by assumption.
  unfold store. rewrite Hf. simpl.
  unfold create_failure.
  destruct (Js.includes (se_message e) "required"
            || Js.includes (se_message e) "must have");
    eexists; (split; [reflexivity|]); repeat split.
Qed.

Lemma X9_failed_order_insert_writes_nothing_witness :
  exists w',
    OrderController.createOrder (order_request alice one_tea)
      (world_of shop [Some connection_lost]) =
      (Ok (create_failure (se_message connection_lost)), w') /\
    db w' = shop.
Proof.
  destruct (@X9_failed_order_insert_writes_nothing (order_request alice one_tea)
              (world_of shop [Some connection_lost]) alice one_tea connection_lost [])
    as (w' & E & _ & D & _); try reflexivity.
  - discriminate.
  - exists w'. split; assumption.
Defined.



(** ** The orders of one user *)

Lemma in_slice {A : Type} (l : list A) (from to : Z) (x : A) :
  In x (slice l from to) -> In x l.
Proof.
  unfold slice. intros H.
  rewrite <- (firstn_skipn (Z.to_nat from) l). apply in_or_app. right.
  rewrite <- (firstn_skipn (Z.to_nat (to - from + 1)) (skipn (Z.to_nat from) l)).
  apply in_or_app. now left.
Qed.

Lemma in_range_rows {A : Type} (l : list A) (from to : Z) (x : A) :
  In x (data_or_empty (range l from to)) -> In x l.
Proof.
  unfold data_or_empty, range.
  destruct (Z.of_nat (List.length l) <? from); simpl; [contradiction|].
  apply in_slice.
Qed.

(** Whatever the store does, the rows of a listing of one's own orders
    are orders of the store that belong to the principal. *)
Lemma getUserOrders_rows (req : Request) (w : World) (p : Principal) :
  user req = Some p ->
  exists resp w',
    OrderController.getUserOrders req w = (Ok resp, w') /\
    forall rs meta, payload resp = Page (OrderRows rs) meta ->
      forall o, In o rs -> In o (orders (db w)) /\ user_id o = id p.
Proof.
  intros Hu.
  unfold OrderController.getUserOrders, OrderService.findByUser,
    rethrow_logged, try_catch, bind, store, req_user, ret, throw, console_error.
  rewrite Hu. cbn iota beta.
  destruct (invalid_pagination (page_of req) (limit_of req)).
  { eexists; eexists. split; [reflexivity|]. intros rs meta Hp. discriminate. }
  assert (Hown : forall from to o,
             In o (data_or_empty
                     (range (List.filter (fun o => String.eqb (user_id o) (id p))
                               (orders (db w))) from to)) ->
             In o (orders (db w)) /\ user_id o = id p).
  { intros from to o Ho. apply in_range_rows in Ho. apply filter_In in Ho.
    destruct Ho as [Hin Heq]. apply String.eqb_eq in Heq. tauto. }
  destruct w as [d f t c]; simpl in *.
  destruct f as [|[e|] f']; simpl;
    try (eexists; eexists; split; [reflexivity|];
         intros rs meta Hp; discriminate);
    destruct (range _ _ _) as [dt [er|] ct] eqn:R; simpl;
    eexists; eexists; (split; [reflexivity|]);
    intros rs meta Hp; try discriminate;
    injection Hp as <- _; intros o Ho;
    rewrite <- R in Ho; exact (Hown _ _ o Ho).
Qed.

(** X11: the listing of a user's own orders, on a page that does not
    start beyond the last of them, shows only orders of the store whose
    [user_id] is the requesting principal's id, at most [limit] of them,
    and reports as total the number of that user's orders; the tables
    are not changed.  And whatever the page and whatever the store
    does, a listing carries no order of another user. *)
Theorem X11_getUserOrders_shows_own_orders
    (req : Request) (w : World) (p : Principal) :
  user req = Some p ->
  (1 <= page_of req -> 1 <= limit_of req <= 100 -> next_call_ok w ->
   (page_of req - 1) * limit_of req <=
     Z.of_nat (List.length
                 (List.filter (fun o => String.eqb (user_id o) (id p)) (orders (db w)))) ->
   exists rs meta w',
     OrderController.getUserOrders req w =
       (Ok {| success := true; status := 200;
              message := "Orders retrieved successfully";
              payload := Page (OrderRows rs) meta; errors := None |}, w') /\
     (forall o, In o rs -> In o (orders (db w)) /\ user_id o = id p) /\
     Z.of_nat (List.length rs) <= limit_of req /\
     totalItems meta =
       Z.of_nat (List.length
                   (List.filter (fun o => String.eqb (user_id o) (id p)) (orders (db w)))) /\
     db w' = db w) /\
  (exists resp w',
     OrderController.getUserOrders req w = (Ok resp, w') /\
     forall rs meta, payload resp = Page (OrderRows rs) meta ->
       forall o, In o rs -> In o (orders (db w)) /\ user_id o = id p).
Proof.
  intros Hu. split; [|exact (getUserOrders_rows req w Hu)].
  intros Hp Hl Hok Hin.
  pose proof (invalid_pagination_false Hp Hl) as Hv.
  rewrite (getUserOrders_ok req w Hu Hv Hok Hin).
  eexists; eexists; eexists. split; [reflexivity|].
  split; [|split; [|split; reflexivity]].
  - intros o Ho. apply in_slice in Ho. apply filter_In in Ho.
    destruct Ho as [Ho Heq]. apply String.eqb_eq in Heq. tauto.
  - unfold slice, OrderModel.getOrdersByUserQuery; simpl.
    rewrite length_firstn. lia.
Qed.

Lemma X11_getUserOrders_shows_own_orders_witness :
  exists rs meta w',
    OrderController.getUserOrders (with_user (page_request "1" "10") alice)
      (world_of shop_with_order []) =
      (Ok {| success := true; status := 200;
             message := "Orders retrieved successfully";
             payload := Page (OrderRows rs) meta; errors := None |}, w') /\
    totalItems meta = 1.
Proof.
  destruct (@X11_getUserOrders_shows_own_orders
              (with_user (page_request "1" "10") alice)
              (world_of shop_with_order []) alice eq_refl)
    as [H _].
  destruct H as (rs & meta & w' & E & _ & _ & T & _).
  - vm_compute; discriminate.
  - vm_compute; split; discriminate.
  - exact I.
  - vm_compute; discriminate.
  - exists rs, meta, w'. split; [exact E|]. rewrite T. reflexivity.
Defined.

(** ** Authentication *)

Lemma verify_valid (env : Env) (now : Z) (t : Token) (w : World) :
  valid_at env now t ->
  JwtUtils.verifyAccessToken env now (Jwt t) w = (Ok (claims t), w) /\
  JwtUtils.verifyRefreshToken env now (Jwt t) w = (Ok (claims t), w).
Proof.
  intros (Hs & He & Ha & Hi).
  unfold JwtUtils.verifyAccessToken, JwtUtils.verifyRefreshToken, jwt.verify; simpl.
  rewrite Hs, Ha, Hi, String.eqb_refl; simpl.
  destruct (Z.leb_spec (exp t) now); [lia|]. split; reflexivity.
Qed.

Lemma verify_accepts_only_valid (env : Env) (now : Z) (c : Credential)
    (payload : Claims) (w w' : World) :
  JwtUtils.verifyAccessToken env now c w = (Ok payload, w') ->
  exists t, c = Jwt t /\ valid_at env now t /\ payload = claims t /\ w' = w.
Proof.
  unfold JwtUtils.verifyAccessToken, jwt.verify, valid_at, throw, ret.
  destruct c as [s|t]; [discriminate|]. simpl.
  destruct (String.eqb_spec (signed_with t) (JWT_SECRET env)); simpl; [|discriminate].
  destruct (Z.leb_spec (exp t) now); [discriminate|].
  destruct (String.eqb_spec (aud t) "hr-frontend"); simpl; [|discriminate].
  destruct (String.eqb_spec (iss t) "hr-backend"); simpl; [|discriminate].
  intros Hres. injection Hres as <- <-. exists t. repeat split; assumption.
Qed.

Lemma verify_rejection (env : Env) (now : Z) (c : Credential)
    (err : Err) (w w' : World) :
  JwtUtils.verifyAccessToken env now c w = (Throw err, w') ->
  w' = w /\
  (err_name err = "JsonWebTokenError" \/ err_name err = "TokenExpiredError").
Proof.
  unfold JwtUtils.verifyAccessToken, jwt.verify, throw, ret.
  destruct c as [s|t]; simpl.
  - intros Hres. injection Hres as <- <-. split; [reflexivity|now left].
  - destruct (String.eqb (signed_with t) (JWT_SECRET env)); simpl;
      [|intros Hres; injection Hres as <- <-; split; [reflexivity|now left]].
    destruct (exp t <=? now);
      [intros Hres; injection Hres as <- <-; split; [reflexivity|now right]|].
    destruct (String.eqb (aud t) "hr-frontend"); simpl;
      [|intros Hres; injection Hres as <- <-; split; [reflexivity|now left]].
    destruct (String.eqb (iss t) "hr-backend"); simpl;
      [discriminate|intros Hres; injection Hres as <- <-; split; [reflexivity|now left]].
Qed.

(** The outcomes of the user lookup, whatever the store does. *)
Lemma user_findById_cases (uid : Id) (w : World) :
  exists res w1,
    UserService.findById uid w = (res, w1) /\ db w1 = db w /\
    (forall u, res = Ok (Some u) ->
       List.find (UserService.has_id uid) (users (db w)) = Some u /\
       w1 = after_user_lookup uid w) /\
    (forall e, res = Throw e -> err_name e = "Error").
Proof.
  unfold UserService.findById, rethrow_logged, try_catch, bind, store,
    after_user_lookup.
  destruct w as [d f tr c]; simpl.
  destruct (select_user_cases uid d) as (r & Er & _ & Hfound). rewrite Er.
  assert (Hrow : forall u, data r = Some u ->
            List.find (UserService.has_id uid) (users d) = Some u) by exact Hfound.
  clear Er Hfound.
  destruct f as [|[e|] f']; simpl.
  - destruct r as [dt [er|] ct]; simpl in *;
      [destruct (String.eqb (se_code er) "PGRST116"); simpl|];
      eexists; eexists; (split; [reflexivity|]); (split; [reflexivity|]);
      (split; [intros u Hu;
               first [discriminate
                     |injection Hu as ->; split; [now apply Hrow|reflexivity]]
              |intros e He; try discriminate; injection He as <-; reflexivity]).
  - destruct (String.eqb (se_code e) "PGRST116"); simpl;
      eexists; eexists; (split; [reflexivity|]); (split; [reflexivity|]);
      (split; [intros u Hu; discriminate|intros e' He]);
      [discriminate|injection He as <-; reflexivity].
  - destruct r as [dt [er|] ct]; simpl in *;
      [destruct (String.eqb (se_code er) "PGRST116"); simpl|];
      eexists; eexists; (split; [reflexivity|]); (split; [reflexivity|]);
      (split; [intros u Hu;
               first [discriminate
                     |injection Hu as ->; split; [now apply Hrow|reflexivity]]
              |intros e He; try discriminate; injection He as <-; reflexivity]).
Qed.

(** X12: [authenticateToken] always answers or hands on, never throws
    and never changes a table.  Every answer of its own is a 401.  When
    it hands the request on, the header carried a token signed with the
    secret, unexpired and with the expected issuer and audience, the
    user named in the token exists and is active, and [req.user] is
    that user's row of the store: the role comes from the store, not
    from the token. *)
Theorem X12_authenticateToken_guarantee (env : Env) (now : Z) (req : Request) (w : World) :
  exists out w',
    AuthMiddleware.authenticateToken env now req w = (Ok out, w') /\
    db w' = db w /\
    (forall r, out = Respond r -> status r = 401 /\ success r = false) /\
    (forall req', out = Next req' ->
       exists t u,
         authorization req = Bearer (Some (Jwt t)) /\ valid_at env now t /\
         In u (users (db w)) /\ UserService.has_id (userId (claims t)) u = true /\
         is_active u = true /\
         req' = with_user req (principal_of u)).
Proof.
  unfold AuthMiddleware.authenticateToken, try_catch, bind.
  destruct (JwtUtils.extractTokenFromHeader (authorization req)) as [c|] eqn:Ex.
  2:{ eexists; eexists. split; [reflexivity|]. split; [reflexivity|].
      split; intros ? H; [injection H as <-; split; reflexivity|discriminate]. }
  destruct (JwtUtils.verifyAccessToken env now c w) as [[payload|err] w1] eqn:V.
  2:{ destruct (verify_rejection env now c w V) as [-> [Hn|Hn]]; rewrite Hn; simpl;
        eexists; eexists; (split; [reflexivity|]); (split; [reflexivity|]);
        (split; intros ? H; [injection H as <-; split; reflexivity|discriminate]). }
  destruct (verify_accepts_only_valid env now c w V) as (t & -> & Hvalid & -> & ->).
  assert (Hh : authorization req = Bearer (Some (Jwt t))).
  { revert Ex. unfold JwtUtils.extractTokenFromHeader.
    destruct (authorization req); try discriminate. now intros ->. }
  destruct (user_findById_cases (userId (claims t)) w)
    as (res & w2 & F & Hdb & Hfound & Hthrown).
  rewrite F. destruct res as [[u|]|e].
  - destruct (Hfound u eq_refl) as [Hfind _].
    apply find_some in Hfind. destruct Hfind as [Hin Heq].
    destruct (is_active u) eqn:Act; simpl;
      eexists; eexists; (split; [reflexivity|]); (split; [exact Hdb|]);
      (split; intros ? H; [try discriminate; injection H as <-; split; reflexivity|]).
    + injection H as <-. exists t, u. repeat split; try assumption; apply Hvalid.
    + discriminate.
  - simpl. eexists; eexists. split; [reflexivity|]. split; [exact Hdb|].
    split; intros ? H; [injection H as <-; split; reflexivity|discriminate].
  - rewrite (Hthrown e eq_refl). simpl.
    eexists; eexists. split; [reflexivity|]. split; [exact Hdb|].
    split; intros ? H; [injection H as <-; split; reflexivity|discriminate].
Qed.

Lemma authenticateToken_rejects (env : Env) (now : Z) (req : Request) (w : World) :
  (forall t, authorization req = Bearer (Some (Jwt t)) -> ~ valid_at env now t) ->
  exists r, AuthMiddleware.authenticateToken env now req w = (Ok (Respond r), w) /\
            status r = 401.
Proof.
  intros Hbad.
  unfold AuthMiddleware.authenticateToken, try_catch, bind.
  destruct (JwtUtils.extractTokenFromHeader (authorization req)) as [c|] eqn:Ex.
  2:{ eexists. split; reflexivity. }
  destruct (JwtUtils.verifyAccessToken env now c w) as [[payload|err] w1] eqn:V.
  - destruct (verify_accepts_only_valid env now c w V) as (t & -> & Hvalid & _).
    exfalso. apply (Hbad t); [|exact Hvalid].
    revert Ex. unfold JwtUtils.extractTokenFromHeader.
    destruct (authorization req); try discriminate. now intros ->.
  - destruct (verify_rejection env now c w V) as [-> [Hn|Hn]]; rewrite Hn; simpl;
      eexists; split; reflexivity.
Qed.

(** X13: without a token that verifies, neither the authentication
    step nor the token-refresh operation reaches the store: the answer
    is a 401 and the world is as it was. *)
Theorem X13_no_valid_token_no_store_call (env : Env) (now : Z) (req : Request) (w : World) :
  ((forall t, authorization req = Bearer (Some (Jwt t)) -> ~ valid_at env now t) ->
   exists r, AuthMiddleware.authenticateToken env now req w = (Ok (Respond r), w) /\
             status r = 401) /\
  ((forall t, body_refreshToken req = Some (Jwt t) -> ~ valid_at env now t) ->
   exists r, AuthController.refreshToken env now req w = (Ok r, w) /\
             status r = 401).
Proof.
  split; intros Hbad.
  - apply authenticateToken_rejects. exact Hbad.
  - unfold AuthController.refreshToken, try_catch, bind.
    destruct (body_refreshToken req) as [c|] eqn:Ex.
    2:{ eexists. split; reflexivity. }
    change (JwtUtils.verifyRefreshToken env now c w)
      with (JwtUtils.verifyAccessToken env now c w).
    destruct (JwtUtils.verifyAccessToken env now c w) as [[payload|err] w1] eqn:V.
    + destruct (verify_accepts_only_valid env now c w V) as (t & -> & Hvalid & _).
      exfalso. apply (Hbad t); [reflexivity|exact Hvalid].
    + destruct (verify_rejection env now c w V) as [-> [Hn|Hn]]; rewrite Hn; simpl;
        eexists; split; reflexivity.
Qed.

Lemma X13_no_valid_token_no_store_call_witness :
  let t := JwtUtils.generateAccessToken default_env 1000 alice_claims in
  exists r,
    AuthMiddleware.authenticateToken default_env 1900 (bearer_request t)
      (world_of shop []) = (Ok (Respond r), world_of shop []) /\
    status r = 401.
Proof.
  intros t.
  destruct (@X13_no_valid_token_no_store_call default_env 1900 (bearer_request t)
              (world_of shop [])) as [H _].
  apply H. intros t' Ht' (_ & He & _).
  injection Ht' as <-. vm_compute in He. discriminate.
Defined.

(** X14: [optionalAuth] hands every request on, never answers itself,
    never throws and never changes a table.  The request goes on either
    as it came, or with [req.user] set to the store's row of an active
    user named by a token that verifies. *)
Theorem X14_optionalAuth_never_rejects (env : Env) (now : Z) (req : Request) (w : World) :
  exists req' w',
    AuthMiddlewareRoles.optionalAuth env now req w = (Ok (Next req'), w') /\
    db w' = db w /\
    (req' = req \/
     exists t u,
       authorization req = Bearer (Some (Jwt t)) /\ valid_at env now t /\
       In u (users (db w)) /\ UserService.has_id (userId (claims t)) u = true /\
       is_active u = true /\ req' = with_user req (principal_of u)).
Proof.
  unfold AuthMiddlewareRoles.optionalAuth, try_catch, bind.
  destruct (JwtUtils.extractTokenFromHeader (authorization req)) as [c|] eqn:Ex.
  2:{ eexists; eexists. split; [reflexivity|]. split; [reflexivity|now left]. }
  destruct (JwtUtils.verifyAccessToken env now c w) as [[payload|err] w1] eqn:V.
  2:{ destruct (verify_rejection env now c w V) as [-> _].
      eexists; eexists. split; [reflexivity|]. split; [reflexivity|now left]. }
  destruct (verify_accepts_only_valid env now c w V) as (t & -> & Hvalid & -> & ->).
  assert (Hh : authorization req = Bearer (Some (Jwt t))).
  { revert Ex. unfold JwtUtils.extractTokenFromHeader.
    destruct (authorization req); try discriminate. now intros ->. }
  destruct (user_findById_cases (userId (claims t)) w)
    as (res & w2 & F & Hdb & Hfound & _).
  rewrite F. destruct res as [[u|]|e].
  - destruct (Hfound u eq_refl) as [Hfind _].
    apply find_some in Hfind. destruct Hfind as [Hin Heq].
    destruct (is_active u) eqn:Act; simpl;
      eexists; eexists; (split; [reflexivity|]); (split; [exact Hdb|]).
    + right. exists t, u. repeat split; try assumption; apply Hvalid.
    + now left.
  - simpl. eexists; eexists. split; [reflexivity|]. split; [exact Hdb|now left].
  - simpl. eexists; eexists. split; [reflexivity|]. split; [exact Hdb|now left].
Qed.

(** ** The order routes *)

(** [authenticateToken] on a token that verifies, for an active user of
    the store, the lookup succeeding. *)
Lemma authenticateToken_passes (env : Env) (now : Z) (req : Request) (w : World)
    (t : Token) (u : User) :
  authorization req = Bearer (Some (Jwt t)) -> valid_at env now t ->
  List.find (UserService.has_id (userId (claims t))) (users (db w)) = Some u ->
  is_active u = true -> next_call_ok w ->
  AuthMiddleware.authenticateToken env now req w =
    (Ok (Next (with_user req (principal_of u))),
     after_user_lookup (userId (claims t)) w).
Proof.
  intros Hh Hvalid Hfind Hact Hok.
  destruct (@verify_valid env now t w Hvalid) as [Ha _].
  unfold AuthMiddleware.authenticateToken, try_catch, bind,
    JwtUtils.extractTokenFromHeader.
  rewrite Hh, Ha.
  rewrite (@user_findById_found (userId (claims t)) w u Hfind Hok).
  rewrite Hact. reflexivity.
Qed.

(** X15: the order routes behind the limiter and [authenticateToken].
    With a token that verifies for an active user, reading one order,
    creating an order and listing one's own orders run the handler with
    that user as principal; listing all orders, updating and deleting
    run the handler only when the user's role in the store is admin,
    and otherwise answer 403 after the user lookup, with no further
    store call. *)
Theorem X15_order_routes_need_admin_to_write
    (orderLimiter : Request -> M Outcome) (env : Env) (now : Z)
    (req : Request) (w : World) (t : Token) (u : User) :
  admits orderLimiter req ->
  authorization req = Bearer (Some (Jwt t)) -> valid_at env now t ->
  List.find (UserService.has_id (userId (claims t))) (users (db w)) = Some u ->
  is_active u = true -> next_call_ok w ->
  let req1 := with_user req (principal_of u) in
  let w1 := after_user_lookup (userId (claims t)) w in
  let forbidden := (Ok (sendForbiddenResponse "Insufficient permissions"), w1) in
  OrderRouter.get_by_id orderLimiter env now req w = OrderController.getOrderById req1 w1 /\
  OrderRouter.post orderLimiter env now req w = OrderController.createOrder req1 w1 /\
  OrderRouter.get_own orderLimiter env now req w = OrderController.getUserOrders req1 w1 /\
  (u_role u = "admin" ->
   OrderRouter.get_all orderLimiter env now req w = OrderController.getAllOrders req1 w1 /\
   OrderRouter.put_by_id orderLimiter env now req w =
     OrderControllerWrites.updateOrder req1 w1 /\
   OrderRouter.delete_by_id orderLimiter env now req w =
     OrderControllerWrites.deleteOrder req1 w1) /\
  (u_role u <> "admin" ->
   OrderRouter.get_all orderLimiter env now req w = forbidden /\
   OrderRouter.put_by_id orderLimiter env now req w = forbidden /\
   OrderRouter.delete_by_id orderLimiter env now req w = forbidden).
Proof.
  intros Hadm Hh Hvalid Hfind Hact Hok req1 w1 forbidden.
  pose proof (@authenticateToken_passes env now req w t u Hh Hvalid Hfind Hact Hok) as Hauth.
  unfold OrderRouter.get_by_id, OrderRouter.post, OrderRouter.get_own,
    OrderRouter.get_all, OrderRouter.put_by_id, OrderRouter.delete_by_id,
    OrderRouter.authenticated.
  cbn [route app]. unfold bind at 1 3 5. rewrite !(Hadm w).
  unfold bind at 1 2 3. rewrite !Hauth. fold req1 w1.
  split; [reflexivity|]. split; [reflexivity|]. split; [reflexivity|].
  assert (Hgate : forall h : Request -> M Response,
             bind (orderLimiter req)
               (fun o => match o with
                         | Respond r => ret r
                         | Next req' =>
                             bind (AuthMiddleware.authenticateToken env now req')
                               (fun o0 => match o0 with
                                          | Respond r => ret r
                                          | Next req'0 =>
                                              bind (sync AuthMiddleware.requireAdmin req'0)
                                                (fun o1 => match o1 with
                                                           | Respond r => ret r
                                                           | Next req'1 => h req'1
                                                           end)
                                          end)
                         end) w =
             if String.eqb (u_role u) "admin" then h req1 w1
             else forbidden).
  { intros h. unfold bind at 1. rewrite (Hadm w). unfold bind at 1. rewrite Hauth.
    fold req1 w1. unfold bind, sync, ret, AuthMiddleware.requireAdmin,
      AuthMiddleware.authorizeRoles.
    subst req1. cbn [user with_user principal_of role existsb].
    rewrite orb_false_r.
    destruct (String.eqb (u_role u) "admin"); reflexivity. }
  split.
  - intros Hrole. rewrite !Hgate, Hrole. cbn. repeat split.
  - intros Hrole. apply String.eqb_neq in Hrole. rewrite !Hgate, Hrole. repeat split.
Qed.

Lemma X15_order_routes_need_admin_to_write_witness :
  let t := JwtUtils.generateAccessToken default_env 1000 alice_claims in
  let req := with_authorization (status_request alice "7" (Some "delivered"))
               (Bearer (Some (Jwt t))) in
  OrderRouter.put_by_id no_limit default_env 1060 req (world_of shop_with_order []) =
    (Ok (sendForbiddenResponse "Insufficient permissions"),
     after_user_lookup (id alice) (world_of shop_with_order [])).
Proof.
  intros t req.
  destruct (@X15_order_routes_need_admin_to_write no_limit default_env 1060 req
              (world_of shop_with_order []) t (user_row alice true))
    as (_ & _ & _ & _ & H).
  - intros w. reflexivity.
  - reflexivity.
  - vm_compute. repeat split; discriminate.
  - reflexivity.
  - reflexivity.
  - exact I.
  - destruct H as (_ & P & _); [discriminate|exact P].
Defined.

(** X16: without a token that verifies, each of the six order routes
    answers 401 and nothing reaches the store, once the limiter has let
    the request through. *)
Theorem X16_order_routes_need_a_token
    (orderLimiter : Request -> M Outcome) (env : Env) (now : Z)
    (req : Request) (w : World) :
  admits orderLimiter req ->
  (forall t, authorization req = Bearer (Some (Jwt t)) -> ~ valid_at env now t) ->
  exists r,
    status r = 401 /\
    OrderRouter.get_all orderLimiter env now req w = (Ok r, w) /\
    OrderRouter.get_own orderLimiter env now req w = (Ok r, w) /\
    OrderRouter.get_by_id orderLimiter env now req w = (Ok r, w) /\
    OrderRouter.post orderLimiter env now req w = (Ok r, w) /\
    OrderRouter.put_by_id orderLimiter env now req w = (Ok r, w) /\
    OrderRouter.delete_by_id orderLimiter env now req w = (Ok r, w).
Proof.
  intros Hadm Hbad.
  destruct (@authenticateToken_rejects env now req w Hbad) as (r & E & S).
  exists r. split; [exact S|].
  unfold OrderRouter.get_by_id, OrderRouter.post, OrderRouter.get_own,
    OrderRouter.get_all, OrderRouter.put_by_id, OrderRouter.delete_by_id,
    OrderRouter.authenticated.
  cbn [route app]. unfold bind. rewrite !(Hadm w), !E. repeat split.
Qed.

Lemma X16_order_routes_need_a_token_witness :
  exists r,
    status r = 401 /\
    OrderRouter.delete_by_id no_limit default_env 1060 (order_lookup root "7")
      (world_of shop_with_order []) = (Ok r, world_of shop_with_order []).
Proof.
  destruct (@X16_order_routes_need_a_token no_limit default_env 1060
              (order_lookup root "7") (world_of shop_with_order []))
    as (r & S & _ & _ & _ & _ & _ & D).
  - intros w. reflexivity.
  - intros t Ht. discriminate.
  - exists r. split; assumption.
Defined.

(** ** Invalid pagination at the endpoints (C10) *)




(** ** Issued tokens *)

(** X17: the tokens of a pair issued at [issued] carry the payload and
    verify with the issuing secret exactly until their validity window
    has passed (the access token for [JWT_ACCESS_EXPIRES_IN] seconds,
    the refresh token for [JWT_REFRESH_EXPIRES_IN]); from then on
    verification throws TokenExpiredError, and under any other secret
    it throws JsonWebTokenError. *)
Theorem X17_issued_tokens_verify_until_expiry
    (env : Env) (issued now : Z) (payload : Claims) (w : World) :
  let pair := JwtUtils.generateTokenPair env issued payload in
  expiresIn pair = JWT_ACCESS_EXPIRES_IN env /\
  JwtUtils.verifyAccessToken env now (Jwt (accessToken pair)) w =
    (if issued + JWT_ACCESS_EXPIRES_IN env <=? now
     then (Throw {| err_name := "TokenExpiredError"; err_message := "jwt expired" |}, w)
     else (Ok payload, w)) /\
  JwtUtils.verifyRefreshToken env now (Jwt (refreshToken pair)) w =
    (if issued + JWT_REFRESH_EXPIRES_IN env <=? now
     then (Throw {| err_name := "TokenExpiredError"; err_message := "jwt expired" |}, w)
     else (Ok payload, w)) /\
  (forall env', JWT_SECRET env' <> JWT_SECRET env ->
     JwtUtils.verifyAccessToken env' now (Jwt (accessToken pair)) w =
       (Throw {| err_name := "JsonWebTokenError";
                 err_message := "invalid signature" |}, w) /\
     JwtUtils.verifyRefreshToken env' now (Jwt (refreshToken pair)) w =
       (Throw {| err_name := "JsonWebTokenError";
                 err_message := "invalid signature" |}, w)).
Proof.
  intros pair. subst pair.
  unfold JwtUtils.generateTokenPair, JwtUtils.generateAccessToken,
    JwtUtils.generateRefreshToken, JwtUtils.verifyAccessToken,
    JwtUtils.verifyRefreshToken, jwt.verify, jwt.sign; simpl.
  rewrite String.eqb_refl; simpl.
  split; [reflexivity|]. split; [|split].
  - destruct (issued + JWT_ACCESS_EXPIRES_IN env <=? now); reflexivity.
  - destruct (issued + JWT_REFRESH_EXPIRES_IN env <=? now); reflexivity.
  - intros env' Hs. apply not_eq_sym in Hs. apply String.eqb_neq in Hs.
    rewrite Hs. split; reflexivity.
Qed.

(** X18: a successful token refresh answers with a pair issued now for
    the user's row of the store, and the access token of that pair
    passes the authentication step as that user for the next
    [JWT_ACCESS_EXPIRES_IN] seconds, as long as the users table is the
    same and the lookup succeeds. *)
Theorem X18_refreshed_access_token_authenticates
    (env : Env) (now : Z) (req : Request) (w : World) (t : Token) (u : User) :
  body_refreshToken req = Some (Jwt t) -> valid_at env now t ->
  List.find (UserService.has_id (userId (claims t))) (users (db w)) = Some u ->
  is_active u = true -> next_call_ok w ->
  let pair := JwtUtils.generateTokenPair env now (claims_of u) in
  exists w1,
    AuthController.refreshToken env now req w =
      (Ok (sendSuccessResponse 200 "Token refreshed successfully" (TokensData pair)),
       w1) /\
    db w1 = db w /\
    claim_role (claims (accessToken pair)) = u_role u /\
    (forall later req2 w2,
       now <= later < now + JWT_ACCESS_EXPIRES_IN env ->
       authorization req2 = Bearer (Some (Jwt (accessToken pair))) ->
       users (db w2) = users (db w) -> next_call_ok w2 ->
       AuthMiddleware.authenticateToken env later req2 w2 =
         (Ok (Next (with_user req2 (principal_of u))),
          after_user_lookup (u_id u) w2)).
Proof.
  intros Hb Hvalid Hfind Hact Hok pair.
  destruct (@verify_valid env now t w Hvalid) as [_ Hr].
  exists (after_user_lookup (userId (claims t)) w).
  split; [|split; [reflexivity|split; [reflexivity|]]].
  - unfold AuthController.refreshToken, try_catch, bind.
    rewrite Hb, Hr.
    rewrite (@user_findById_found (userId (claims t)) w u Hfind Hok).
    rewrite Hact. reflexivity.
  - intros later req2 w2 Hlater Hh Husers Hok2.
    assert (Hu : UserService.has_id (userId (claims t)) u = true).
    { apply find_some in Hfind. now destruct Hfind as [_ Heq]. }
    apply (@authenticateToken_passes env later req2 w2 (accessToken pair) u Hh).
    + subst pair. unfold valid_at, JwtUtils.generateTokenPair,
        JwtUtils.generateAccessToken, jwt.sign; simpl.
      repeat split; lia.
    + subst pair. cbn. rewrite Husers, <- Hfind.
      apply find_same. apply (@has_id_same _ _ u); [|exact Hu].
      exact (has_own_id _ _ Hu).
    + exact Hact.
    + exact Hok2.
Qed.

Lemma X18_refreshed_access_token_authenticates_witness :
  let t := JwtUtils.generateRefreshToken default_env 1000 alice_claims in
  let pair := JwtUtils.generateTokenPair default_env 4600 (claims_of (user_row alice true)) in
  exists w1,
    AuthController.refreshToken default_env 4600 (refresh_request t) (world_of shop []) =
      (Ok (sendSuccessResponse 200 "Token refreshed successfully" (TokensData pair)), w1) /\
    AuthMiddleware.authenticateToken default_env 5000 (bearer_request (accessToken pair))
      (world_of shop []) =
      (Ok (Next (with_user (bearer_request (accessToken pair)) alice)),
       after_user_lookup (id alice) (world_of shop [])).
Proof.
  intros t pair.
  assert (Hvalid : valid_at default_env 4600 t).
  { vm_compute. repeat split; discriminate. }
  destruct (@X18_refreshed_access_token_authenticates default_env 4600
              (refresh_request t) (world_of shop []) t (user_row alice true)
              eq_refl Hvalid eq_refl eq_refl I)
    as (w1 & E & _ & _ & A).
  exists w1. split; [exact E|].
  apply (A 5000 (bearer_request (accessToken pair)) (world_of shop [])).
  - simpl. lia.
  - reflexivity.
  - reflexivity.
  - exact I.
Defined.

(** ** Defaults of the page parameters *)

(** X19: a page parameter that is missing, does not start with a
    number, or is 0 is read as page 1, and a limit parameter of that
    kind as 10: the listings answer such a request exactly as they
    answer page 1 (limit 10), and do not refuse it. *)
Theorem X19_page_zero_is_page_one (req : Request) (w : World) :
  Js.parseInt (query_page req) = None \/ Js.parseInt (query_page req) = Some 0 ->
  page_of req = 1 /\
  ProductController.getAllProducts req w =
    ProductController.getAllProducts (with_page req (Some "1")) w /\
  OrderController.getAllOrders req w =
    OrderController.getAllOrders (with_page req (Some "1")) w /\
  OrderController.getUserOrders req w =
    OrderController.getUserOrders (with_page req (Some "1")) w /\
  (Js.parseInt (query_limit req) = None \/ Js.parseInt (query_limit req) = Some 0 ->
   limit_of req = 10 /\ invalid_pagination (page_of req) (limit_of req) = false).
Proof.
  intros Hp.
  assert (H1 : page_of req = 1).
  { unfold page_of. destruct Hp as [-> | ->]; reflexivity. }
  assert (H2 : page_of (with_page req (Some "1")) = 1) by reflexivity.
  assert (H3 : limit_of (with_page req (Some "1")) = limit_of req) by reflexivity.
  split; [exact H1|].
  unfold ProductController.getAllProducts, OrderController.getAllOrders,
    OrderController.getUserOrders.
  rewrite H1, H2, H3.
  repeat split.
  - unfold limit_of. destruct H as [-> | ->]; reflexivity.
  - unfold limit_of. destruct H as [-> | ->]; reflexivity.
Qed.

Lemma X19_page_zero_is_page_one_witness :
  ProductController.getAllProducts (page_request "0" "2") (world_of five_products []) =
  ProductController.getAllProducts (page_request "1" "2") (world_of five_products []).
Proof.
  destruct (@X19_page_zero_is_page_one (page_request "0" "2")
              (world_of five_products [])) as (_ & H & _).
  - right. reflexivity.
  - exact H.
Defined.

(** ** Deleting a product *)

Lemma product_findById_found (pid : Id) (w : World) (pr : Product)
    (rest : list (option StoreError)) :
  List.find (fun x => String.eqb (p_id x) pid) (products (db w)) = Some pr ->
  faults w = None :: rest ->
  ProductServiceWrites.findById pid w =
    (Ok (Some pr),
     {| db := db w; faults := rest;
        trace := trace w ++ [select_by_id "products" pid];
        console := console w |}).
Proof.
  intros Hfind Hf.
  unfold ProductServiceWrites.findById, rethrow_logged, try_catch, bind, store.
  rewrite Hf, Hfind. reflexivity.
Qed.

Lemma found_exists (pid : Id) (l : list Product) (pr : Product) :
  List.find (fun x => String.eqb (p_id x) pid) l = Some pr ->
  existsb (fun p => String.eqb (p_id p) pid) l = true.
Proof.
  intros H. apply find_some in H. apply existsb_exists. exists pr. exact H.
Qed.

(** X20: deleting a product that exists.  While an order item refers
    to the product the store refuses the delete statement (the column
    is declared ON DELETE RESTRICT) and [deleteProduct] answers 500 with
    the tables as they were; when no order item refers to it the answer
    is 200, no product with the id is left, and the other products and
    all other tables are as before. *)
Theorem X20_deleteProduct_blocked_by_order_items
    (req : Request) (w : World) (pr : Product) (rest : list (option StoreError)) :
  Js.truthy_str (param_id req) = true ->
  List.find (fun x => String.eqb (p_id x) (param_id req)) (products (db w)) = Some pr ->
  faults w = None :: None :: rest ->
  (existsb (ProductServiceWrites.sold_as (param_id req)) (order_items (db w)) = true ->
   exists resp w',
     ProductControllerWrites.deleteProduct req w = (Ok resp, w') /\
     status resp = 500 /\ message resp = "Failed to delete product" /\
     db w' = db w /\
     trace w' = trace w ++ [select_by_id "products" (param_id req);
                            delete_product_stmt (param_id req)]) /\
  (existsb (ProductServiceWrites.sold_as (param_id req)) (order_items (db w)) = false ->
   exists w',
     ProductControllerWrites.deleteProduct req w =
       (Ok (sendSuccessResponse 200 "Product deleted successfully" NoData), w') /\
     (forall x, In x (products (db w')) <->
                In x (products (db w)) /\ p_id x <> param_id req) /\
     order_items (db w') = order_items (db w) /\ orders (db w') = orders (db w) /\
     categories (db w') = categories (db w) /\ users (db w') = users (db w)).
Proof.
  intros Hid Hfind Hf.
  pose proof (found_exists _ _ Hfind) as Hex.
  split; intros Hsold;
    unfold ProductControllerWrites.deleteProduct, try_catch, bind;
    rewrite Hid; simpl;
    unfold ProductServiceWrites.delete, rethrow_logged, try_catch, bind;
    rewrite (@product_findById_found (param_id req) w pr (None :: rest) Hfind Hf);
    unfold store, ProductServiceWrites.delete_product; simpl;
    rewrite Hsold, Hex; simpl.
  - eexists; eexists. split; [reflexivity|]. simpl.
    rewrite <- !app_assoc. repeat split.
  - eexists. split; [reflexivity|]. simpl.
    split; [|repeat split].
    intros x. rewrite filter_In, negb_true_iff, String.eqb_neq. tauto.
Qed.

Lemma X20_deleteProduct_blocked_by_order_items_witness :
  (exists resp w',
      ProductControllerWrites.deleteProduct (product_request "1")
        (world_of shop_with_sale [None; None]) = (Ok resp, w') /\
      status resp = 500 /\ db w' = shop_with_sale) /\
  (exists w',
      ProductControllerWrites.deleteProduct (product_request "2")
        (world_of shop_with_sale [None; None]) =
        (Ok (sendSuccessResponse 200 "Product deleted successfully" NoData), w') /\
      List.map p_id (products (db w')) = ["1"]).
Proof.
  split.
  - destruct (@X20_deleteProduct_blocked_by_order_items (product_request "1")
                (world_of shop_with_sale [None; None]) (tea "1") []
                eq_refl eq_refl eq_refl) as [H _].
    destruct (H eq_refl) as (resp & w' & E & S & _ & D & _).
    exists resp, w'. repeat split; assumption.
  - destruct (@X20_deleteProduct_blocked_by_order_items (product_request "2")
                (world_of shop_with_sale [None; None]) (tea "2") []
                eq_refl eq_refl eq_refl) as [_ H].
    destruct (H eq_refl) as (w' & E & _).
    exists w'. split; [exact E|].
    vm_compute in E. injection E as <-. reflexivity.
Defined.

(** ** What reading never does *)

(** The outcomes of the order lookup, whatever the store does. *)
Lemma order_findById_cases (oid : Id) (w : World) :
  exists res w1 l,
    OrderService.findById oid w = (res, w1) /\ db w1 = db w /\
    trace w1 = trace w ++ l /\ reads_only l /\
    (forall x, res = Ok (Some x) ->
       In (order x) (orders (db w)) /\ o_id (order x) = oid).
Proof.
  unfold OrderService.findById, OrderService.getOrderItems,
    rethrow_logged, try_catch, bind, store, reads_only.
  destruct w as [d f tr c]; simpl.
  assert (Hfound : forall o,
             List.find (fun x => String.eqb (o_id x) oid) (orders d) = Some o ->
             In o (orders d) /\ o_id o = oid).
  { intros o Ho. apply find_some in Ho. destruct Ho as [Hin Heq].
    apply String.eqb_eq in Heq. tauto. }
  destruct f as [|[e|] f']; simpl.
  - destruct (List.find _ (orders d)) as [o|] eqn:F; simpl.
    + eexists; eexists; eexists. split; [reflexivity|]. split; [reflexivity|].
      split; [now rewrite <- app_assoc|]. split; [reflexivity|].
      intros x Hx. injection Hx as <-. simpl. now apply Hfound.
    + eexists; eexists; eexists. split; [reflexivity|]. split; [reflexivity|].
      split; [reflexivity|]. split; [reflexivity|]. intros x Hx. discriminate.
  - destruct (String.eqb (se_code e) "PGRST116"); simpl;
      eexists; eexists; eexists; (split; [reflexivity|]); (split; [reflexivity|]);
      (split; [reflexivity|]); (split; [reflexivity|]); intros x Hx; discriminate.
  - destruct (List.find _ (orders d)) as [o|] eqn:F; simpl.
    + destruct f' as [|[e|] f'']; simpl;
        eexists; eexists; eexists; (split; [reflexivity|]); (split; [reflexivity|]);
        (split; [now rewrite <- app_assoc|]); (split; [reflexivity|]);
        intros x Hx; try discriminate;
        injection Hx as <-; simpl; now apply Hfound.
    + eexists; eexists; eexists. split; [reflexivity|]. split; [reflexivity|].
      split; [reflexivity|]. split; [reflexivity|]. intros x Hx. discriminate.
Qed.

(** X21: whatever the store holds and however its calls turn out,
    [getOrderById] answers, issues reads only and leaves the tables as
    they were; an answer that carries an order carries one of the store
    with the requested id, and the principal is an admin or the owner
    of that order. *)
Theorem X21_getOrderById_shows_no_foreign_order
    (req : Request) (w : World) (p : Principal) :
  user req = Some p ->
  exists resp w' l,
    OrderController.getOrderById req w = (Ok resp, w') /\
    db w' = db w /\ trace w' = trace w ++ l /\ reads_only l /\
    (forall x, payload resp = OrderPayload x ->
       In (order x) (orders (db w)) /\ o_id (order x) = param_id req /\
       (role p = "admin" \/ user_id (order x) = id p)).
Proof.
  intros Hu.
  unfold OrderController.getOrderById, try_catch, bind, req_user, ret.
  rewrite Hu.
  destruct (Js.truthy_str (param_id req)); simpl.
  2:{ eexists; eexists; exists []. split; [reflexivity|]. split; [reflexivity|].
      split; [now rewrite app_nil_r|]. split; [reflexivity|]. intros x Hx. discriminate. }
  destruct (order_findById_cases (param_id req) w)
    as (res & w1 & l & F & Hdb & Htr & Hro & Hfound).
  rewrite F. destruct res as [[x|]|e]; simpl.
  - destruct (Hfound x eq_refl) as [Hin Hoid].
    destruct (String.eqb (role p) "admin") eqn:Ea; simpl;
      [|destruct (String.eqb (user_id (order x)) (id p)) eqn:Eo; simpl];
      eexists; eexists; exists l; (split; [reflexivity|]); (split; [exact Hdb|]);
      (split; [exact Htr|]); (split; [exact Hro|]);
      intros y Hy; try discriminate; injection Hy as <-;
      rewrite ?String.eqb_eq in *; tauto.
  - eexists; eexists; exists l. split; [reflexivity|]. split; [exact Hdb|].
    split; [exact Htr|]. split; [exact Hro|]. intros y Hy. discriminate.
  - eexists; eexists; exists l. split; [reflexivity|]. split; [exact Hdb|].
    split; [exact Htr|]. split; [exact Hro|]. intros y Hy. discriminate.
Qed.

Lemma X21_getOrderById_shows_no_foreign_order_witness :
  exists resp w' l,
    OrderController.getOrderById (order_lookup bob "7")
      (world_of shop_with_order []) = (Ok resp, w') /\
    db w' = shop_with_order /\ reads_only l /\
    (forall x, payload resp <> OrderPayload x).
Proof.
  destruct (@X21_getOrderById_shows_no_foreign_order (order_lookup bob "7")
              (world_of shop_with_order []) bob eq_refl)
    as (resp & w' & l & E & D & _ & R & P).
  exists resp, w', l. repeat split; try assumption.
  intros x Hx. destruct (P x Hx) as (Hin & _ & [Ha|Ho]).
  - discriminate.
  - destruct Hin as [Hin|[]]. rewrite <- Hin in Ho. discriminate.
Defined.

(** X22: the three listing handlers answer whatever the store does,
    never change a table and issue at most one statement, a select. *)
Theorem X22_listings_only_read (req : Request) (w : World) :
  (exists resp w' l,
      ProductController.getAllProducts req w = (Ok resp, w') /\
      db w' = db w /\ trace w' = trace w ++ l /\ reads_only l /\
      (List.length l <= 1)%nat) /\
  (exists resp w' l,
      OrderController.getAllOrders req w = (Ok resp, w') /\
      db w' = db w /\ trace w' = trace w ++ l /\ reads_only l /\
      (List.length l <= 1)%nat) /\
  (exists resp w' l,
      OrderController.getUserOrders req w = (Ok resp, w') /\
      db w' = db w /\ trace w' = trace w ++ l /\ reads_only l /\
      (List.length l <= 1)%nat).
Proof.
  unfold ProductController.getAllProducts, OrderController.getAllOrders,
    OrderController.getUserOrders, ProductService.findAll, OrderService.findAll,
    OrderService.findByUser, rethrow_logged, try_catch, bind, store, req_user,
    ret, throw, console_error, reads_only.
  destruct w as [d f tr c]; simpl.
  split; [|split].
  - destruct (invalid_pagination (page_of req) (limit_of req)); simpl.
    + eexists; eexists; exists []. rewrite app_nil_r. repeat split. simpl; lia.
    + destruct f as [|[e|] f']; simpl;
        try destruct (range _ _ _) as [dt [er|] ct]; simpl;
        eexists; eexists; eexists; (split; [reflexivity|]); simpl;
        repeat split; simpl; lia.
  - destruct (invalid_pagination (page_of req) (limit_of req)); simpl.
    + eexists; eexists; exists []. rewrite app_nil_r. repeat split. simpl; lia.
    + destruct f as [|[e|] f']; simpl;
        try destruct (range _ _ _) as [dt [er|] ct]; simpl;
        eexists; eexists; eexists; (split; [reflexivity|]); simpl;
        repeat split; simpl; lia.
  - destruct (user req) as [p|]; simpl.
    + destruct (invalid_pagination (page_of req) (limit_of req)); simpl.
      * eexists; eexists; exists []. rewrite app_nil_r. repeat split. simpl; lia.
      * destruct f as [|[e|] f']; simpl;
          try destruct (range _ _ _) as [dt [er|] ct]; simpl;
          eexists; eexists; eexists; (split; [reflexivity|]); simpl;
          repeat split; simpl; lia.
    + eexists; eexists; exists []. rewrite app_nil_r. repeat split. simpl; lia.
Qed.

(** ** Deactivation takes effect at the next request *)

Lemma set_inactive_accepted (uid : Id) (d : Db) (k : string) :
  Uuid.parse uid = Some k ->
  UserService.set_inactive uid d =
    ({| data := None; error := None; count := None |},
     {| users :=
          List.map (fun u =>
                      if UserService.has_id uid u
                      then {| u_id := u_id u; u_email := u_email u;
                              u_name := u_name u; u_role := u_role u;
                              is_active := false |}
                      else u) (users d);
        categories := categories d; products := products d;
        orders := orders d; order_items := order_items d;
        orders_seq := orders_seq d |}).
Proof. intros H. unfold UserService.set_inactive. now rewrite H. Qed.

Lemma find_after_set_inactive (uid : Id) (d : Db) (u : User) :
  List.find (UserService.has_id uid) (users d) = Some u ->
  List.find (UserService.has_id uid)
    (users (snd (UserService.set_inactive uid d))) =
    Some {| u_id := u_id u; u_email := u_email u; u_name := u_name u;
            u_role := u_role u; is_active := false |}.
Proof.
  intros Hfind.
  destruct (find_some _ _ Hfind) as [_ Hid].
  destruct (has_id_parses _ _ Hid) as [k Hk].
  rewrite (@set_inactive_accepted uid d k Hk). cbn [snd users].
  clear Hid. revert Hfind.
  induction (users d) as [|x l IH]; simpl; [discriminate|].
  destruct (UserService.has_id uid x) eqn:E; simpl.
  - change (UserService.has_id uid
              {| u_id := u_id x; u_email := u_email x; u_name := u_name x;
                 u_role := u_role x; is_active := false |})
      with (UserService.has_id uid x).
    rewrite E. intros H. injection H as <-. reflexivity.
  - rewrite E. exact IH.
Qed.

(** [deactivateUser] by a principal whose id is another text, on a
    user the store holds, both store calls succeeding. *)
Lemma deactivateUser_ok (req : Request) (w : World) (p : Principal) (u : User)
    (rest : list (option StoreError)) :
  user req = Some p -> param_id req <> id p ->
  List.find (UserService.has_id (param_id req)) (users (db w)) = Some u ->
  faults w = None :: None :: rest ->
  UserController.deactivateUser req w =
    (Ok (sendSuccessResponse 200 "User deactivated successfully" NoData),
     {| db := snd (UserService.set_inactive (param_id req) (db w));
        faults := rest;
        trace := trace w ++ [select_by_id "users" (param_id req);
                             deactivate_stmt (param_id req)];
        console := console w |}).
Proof.
  intros Hu Hother Hfind Hf.
  destruct (find_some _ _ Hfind) as [_ Hid].
  destruct (has_id_parses _ _ Hid) as [k Hk].
  unfold UserController.deactivateUser, UserService.findById,
    UserService.deactivate, rethrow_logged, try_catch, bind, store, req_user.
  rewrite Hf, (@select_user_found (param_id req) (db w) u Hfind); simpl.
  rewrite Hu; simpl.
  apply String.eqb_neq in Hother. rewrite Hother; simpl.
  rewrite !(@set_inactive_accepted (param_id req) (db w) k Hk); simpl.
  rewrite <- app_assoc. reflexivity.
Qed.

(** X23: once an administrator has deactivated a user, a token of that
    user that still verifies no longer authenticates: the
    authentication step and the token-refresh operation both answer 401
    "Account is deactivated". *)
Theorem X23_deactivated_user_is_locked_out
    (env : Env) (now : Z) (req : Request) (w : World) (p : Principal) (u : User)
    (t : Token) (rest : list (option StoreError)) :
  user req = Some p -> param_id req <> id p ->
  List.find (UserService.has_id (param_id req)) (users (db w)) = Some u ->
  faults w = None :: None :: rest ->
  valid_at env now t -> userId (claims t) = param_id req ->
  exists w1,
    UserController.deactivateUser req w =
      (Ok (sendSuccessResponse 200 "User deactivated successfully" NoData), w1) /\
    (forall req2 w2, users (db w2) = users (db w1) -> next_call_ok w2 ->
       (authorization req2 = Bearer (Some (Jwt t)) ->
        exists w3, AuthMiddleware.authenticateToken env now req2 w2 =
                     (Ok (Respond (sendUnauthorizedResponse "Account is deactivated")), w3)) /\
       (body_refreshToken req2 = Some (Jwt t) ->
        exists w3, AuthController.refreshToken env now req2 w2 =
                     (Ok (sendUnauthorizedResponse "Account is deactivated"), w3))).
Proof.
  intros Hu Hother Hfind Hf Hvalid Hsub.
  rewrite (@deactivateUser_ok req w p u rest Hu Hother Hfind Hf).
  eexists. split; [reflexivity|].
  intros req2 w2 Husers Hok.
  assert (Hfind2 :
            List.find (UserService.has_id (userId (claims t))) (users (db w2)) =
            Some {| u_id := u_id u; u_email := u_email u; u_name := u_name u;
                    u_role := u_role u; is_active := false |}).
  { rewrite Husers, Hsub. cbn [db].
    exact (@find_after_set_inactive (param_id req) (db w) u Hfind). }
  destruct (@verify_valid env now t w2 Hvalid) as [Ha Hr].
  split; intros Hh.
  - unfold AuthMiddleware.authenticateToken, try_catch, bind,
      JwtUtils.extractTokenFromHeader.
    rewrite Hh, Ha.
    rewrite (@user_findById_found (userId (claims t)) w2 _ Hfind2 Hok).
    simpl. eexists. reflexivity.
  - unfold AuthController.refreshToken, try_catch, bind.
    rewrite Hh, Hr.
    rewrite (@user_findById_found (userId (claims t)) w2 _ Hfind2 Hok).
    simpl. eexists. reflexivity.
Qed.

Lemma X23_deactivated_user_is_locked_out_witness :
  let t := JwtUtils.generateAccessToken default_env 1000 alice_claims in
  exists w1 w3,
    UserController.deactivateUser (deactivation_request root (id alice))
      (world_of shop [None; None]) =
      (Ok (sendSuccessResponse 200 "User deactivated successfully" NoData), w1) /\
    AuthMiddleware.authenticateToken default_env 1060 (bearer_request t) w1 =
      (Ok (Respond (sendUnauthorizedResponse "Account is deactivated")), w3).
Proof.
  intros t.
  assert (Hvalid : valid_at default_env 1060 t).
  { vm_compute. repeat split; discriminate. }
  destruct (@X23_deactivated_user_is_locked_out default_env 1060
              (deactivation_request root (id alice)) (world_of shop [None; None])
              root (user_row alice true) t [] eq_refl
              ltac:(vm_compute; discriminate) eq_refl eq_refl Hvalid eq_refl)
    as (w1 & E & L).
  assert (Hok : next_call_ok w1).
  { vm_compute in E. injection E as <-. exact I. }
  destruct (L (bearer_request t) w1 eq_refl Hok) as [A _].
  destruct (A eq_refl) as (w3 & A3).
  exists w1, w3. split; assumption.
Defined.

(** ** A page beyond the last row *)

(** X24: on a valid page whose offset [(page - 1) * limit] lies beyond
    the number of rows, the store refuses the range (416, "Requested
    range not satisfiable"), and each of the three listings answers 500
    with that message as the error; the tables are as before and the
    select is the one statement issued. *)
Theorem X24_page_beyond_the_rows_is_500 (req : Request) (w : World) :
  1 <= page_of req -> 1 <= limit_of req <= 100 -> next_call_ok w ->
  let refusal (what : string) :=
    sendErrorResponse 500 what (Some "Requested range not satisfiable") in
  (Z.of_nat (List.length (products (db w))) < (page_of req - 1) * limit_of req ->
   exists w',
     ProductController.getAllProducts req w =
       (Ok (refusal "Failed to fetch products"), w') /\
     db w' = db w /\
     trace w' = trace w ++ [select_range (ProductModel.getAllProductsQuery
                                            (page_of req) (limit_of req))]) /\
  (Z.of_nat (List.length (orders (db w))) < (page_of req - 1) * limit_of req ->
   exists w',
     OrderController.getAllOrders req w =
       (Ok (refusal "Failed to fetch orders"), w') /\
     db w' = db w /\
     trace w' = trace w ++ [select_range (OrderModel.getAllOrdersQuery
                                            (page_of req) (limit_of req))]) /\
  (forall p, user req = Some p ->
   Z.of_nat (List.length (List.filter (fun o => String.eqb (user_id o) (id p))
                            (orders (db w))))
     < (page_of req - 1) * limit_of req ->
   exists w',
     OrderController.getUserOrders req w =
       (Ok (refusal "Failed to fetch orders"), w') /\
     db w' = db w /\
     trace w' = trace w ++ [select_range (OrderModel.getOrdersByUserQuery (id p)
                                            (page_of req) (limit_of req))]).
Proof.
  intros Hp Hl Hok refusal.
  pose proof (invalid_pagination_false Hp Hl) as Hv.
  split; [|split].
  - intros Hout. eexists.
    split; [apply (getAllProducts_beyond req w Hv Hok); exact Hout|].
    split; reflexivity.
  - intros Hout. eexists.
    split; [apply (getAllOrders_beyond req w Hv Hok); exact Hout|].
    split; reflexivity.
  - intros p Hu Hout. eexists.
    split; [apply (@getUserOrders_beyond req w p Hu Hv Hok); exact Hout|].
    split; reflexivity.
Qed.

Lemma X24_page_beyond_the_rows_is_500_witness :
  exists w',
    ProductController.getAllProducts (page_request "3" "5") (world_of five_products []) =
      (Ok (sendErrorResponse 500 "Failed to fetch products"
             (Some "Requested range not satisfiable")), w') /\
    db w' = five_products.
Proof.
  destruct (@X24_page_beyond_the_rows_is_500 (page_request "3" "5")
              (world_of five_products []))
    as [H _].
  - vm_compute; discriminate.
  - vm_compute; split; discriminate.
  - exact I.
  - destruct H as (w' & E & D & _).
    + vm_compute. reflexivity.
    + exists w'. split; [exact E|exact D].
Defined.

(** ** The guard of the deactivation *)

(** X25: a deactivation request whose target is, letter for letter, the
    id of the acting principal is refused (400 when the lookup finds the
    account, 404 or 500 when it does not) and reaches the store with
    nothing but the lookup, so the tables are as before; a request with
    any other text that selects an account sets [is_active] to false on
    the rows with that uuid and leaves the number and the other columns
    of the rows as they were. *)
Theorem X25_deactivateUser_guard_and_effect
    (req : Request) (w : World) (p : Principal) :
  user req = Some p ->
  (param_id req = id p ->
   exists resp w',
     UserController.deactivateUser req w = (Ok resp, w') /\
     success resp = false /\
     (status resp = 400 \/ status resp = 404 \/ status resp = 500) /\
     db w' = db w /\
     trace w' = trace w ++ [select_by_id "users" (param_id req)] /\
     (next_call_ok w ->
      List.find (UserService.has_id (param_id req)) (users (db w)) <> None ->
      resp = sendErrorResponse 400 "You cannot deactivate your own account" None)) /\
  (param_id req <> id p ->
   forall u rest,
     List.find (UserService.has_id (param_id req)) (users (db w)) = Some u ->
     faults w = None :: None :: rest ->
     exists w',
       UserController.deactivateUser req w =
         (Ok (sendSuccessResponse 200 "User deactivated successfully" NoData), w') /\
       trace w' = trace w ++ [select_by_id "users" (param_id req);
                              deactivate_stmt (param_id req)] /\
       List.map u_id (users (db w')) = List.map u_id (users (db w)) /\
       (forall x, In x (users (db w')) ->
                  UserService.has_id (param_id req) x = true -> is_active x = false) /\
       (forall x, In x (users (db w)) ->
                  UserService.has_id (param_id req) x = false -> In x (users (db w')))).
Proof.
  intros Hu. split.
  - intros Hself.
    unfold UserController.deactivateUser, UserService.findById,
      rethrow_logged, try_catch, bind, store, req_user.
    rewrite Hu, Hself.
    destruct w as [d f t c]; cbn [db faults trace console].
    destruct (select_user_cases (id p) d) as (r & Er & _ & Hrow).
    assert (Hr : forall u, List.find (UserService.has_id (id p)) (users d) = Some u ->
                           r = single (Some u)).
    { intros u Hfind. rewrite (@select_user_found (id p) d u Hfind) in Er.
      now injection Er as <-. }
    rewrite Er.
    destruct f as [|[e|] f']; simpl.
    + destruct r as [[u|] [er|] ct]; simpl;
        try (destruct (String.eqb (se_code er) "PGRST116"); simpl);
        rewrite ?String.eqb_refl;
        eexists; eexists; (split; [reflexivity|]); simpl;
        (split; [reflexivity|]); (split; [tauto|]); (split; [reflexivity|]);
        (split; [reflexivity|]); intros _ Hfound;
        destruct (List.find _ (users d)) as [u'|] eqn:F; try congruence;
        specialize (Hr u' eq_refl); try discriminate Hr; reflexivity.
    + destruct (String.eqb (se_code e) "PGRST116"); simpl;
        eexists; eexists; (split; [reflexivity|]); simpl;
        (split; [reflexivity|]); (split; [tauto|]); (split; [reflexivity|]);
        (split; [reflexivity|]); intros [].
    + destruct r as [[u|] [er|] ct]; simpl;
        try (destruct (String.eqb (se_code er) "PGRST116"); simpl);
        rewrite ?String.eqb_refl;
        eexists; eexists; (split; [reflexivity|]); simpl;
        (split; [reflexivity|]); (split; [tauto|]); (split; [reflexivity|]);
        (split; [reflexivity|]); intros _ Hfound;
        destruct (List.find _ (users d)) as [u'|] eqn:F; try congruence;
        specialize (Hr u' eq_refl); try discriminate Hr; reflexivity.
  - intros Hother u rest Hfind Hf.
    rewrite (@deactivateUser_ok req w p u rest Hu Hother Hfind Hf).
    destruct (find_some _ _ Hfind) as [_ Hid].
    destruct (has_id_parses _ _ Hid) as [k Hk].
    eexists. split; [reflexivity|]. split; [reflexivity|].
    cbn [db]. rewrite (@set_inactive_accepted (param_id req) (db w) k Hk).
    cbn [snd users]. split; [|split].
    + rewrite map_map. apply map_ext. intros x.
      destruct (UserService.has_id (param_id req) x); reflexivity.
    + intros x Hx Hxid. apply in_map_iff in Hx. destruct Hx as (y & Hy & _).
      destruct (UserService.has_id (param_id req) y) eqn:Ey; subst x.
      * reflexivity.
      * congruence.
    + intros x Hx Hxid. apply in_map_iff. exists x. split; [|exact Hx].
      now rewrite Hxid.
Qed.

Lemma X25_deactivateUser_guard_and_effect_witness :
  (exists w',
      UserController.deactivateUser (deactivation_request root (id root))
        (world_of shop []) =
        (Ok (sendErrorResponse 400 "You cannot deactivate your own account" None), w') /\
      db w' = shop) /\
  (exists w',
      UserController.deactivateUser (deactivation_request root (id bob))
        (world_of shop [None; None]) =
        (Ok (sendSuccessResponse 200 "User deactivated successfully" NoData), w') /\
      List.map is_active (users (db w')) = [true; false; true]).
Proof.
  destruct (@X25_deactivateUser_guard_and_effect (deactivation_request root (id root))
              (world_of shop []) root eq_refl) as [Hself _].
  destruct (@X25_deactivateUser_guard_and_effect (deactivation_request root (id bob))
              (world_of shop [None; None]) root eq_refl) as [_ Hother].
  split.
  - destruct (Hself eq_refl) as (resp & w' & E & _ & _ & D & _ & R).
    exists w'. split; [|exact D].
    rewrite E. rewrite (R I); [reflexivity|].
    vm_compute. discriminate.
  - destruct (Hother ltac:(vm_compute; discriminate) (user_row bob true) []
                eq_refl eq_refl) as (w' & E & _).
    exists w'. split; [exact E|].
    vm_compute in E. injection E as <-. reflexivity.
Defined.

(** ** Item rows that the store refuses *)

(** [create] and [createOrder] when the store accepts the order row as
    [o] and refuses the item rows with [e]; [f3] is the outcome of the
    delete that follows. *)
Lemma create_items_refused (uid : Id) (its : list Item) (st : option string)
    (w : World) (e : StoreError) (f3 : option StoreError)
    (rest : list (option StoreError)) (o : Order) (d1 : Db) :
  Js.truthy_str uid = true -> its <> [] -> forallb accepted its = true ->
  order_insert uid st its (db w) = (single (Some o), d1) ->
  items_insert (o_id o) its d1 = (refused e, d1) ->
  faults w = None :: None :: f3 :: rest ->
  OrderService.create
    {| OrderService.od_user_id := uid; OrderService.od_items := Some its;
       OrderService.od_status := st |} w =
    (Throw (Error (se_message e)),
     {| db := match f3 with
              | None => snd (OrderService.delete_order (o_id o) d1)
              | Some _ => d1
              end;
        faults := rest;
        trace := trace w ++ [insert_orders_stmt; insert_items_stmt;
                             delete_order_stmt (o_id o)];
        console := console w ++ ["Supabase error creating order items:";
                                 "Error in create service:"] |}).
Proof.
  intros Hu Hne Hacc Hins Hitems Hf.
  unfold order_insert, status_written, float_total in Hins.
  unfold items_insert in Hitems.
  unfold OrderService.create, rethrow_logged, try_catch, bind.
  cbn [OrderService.od_user_id OrderService.od_items OrderService.od_status].
  rewrite Hu. cbn [negb].
  destruct its as [|it rest'] eqn:E; [congruence|]. rewrite <- E in *.
  cbv beta iota delta [ret].
  rewrite accumulate_accepted by assumption.
  unfold store. rewrite Hf, Hins. cbn. rewrite Hitems. cbn.
  destruct f3; cbn; rewrite <- !app_assoc; reflexivity.
Qed.

Lemma createOrder_items_refused
    (req : Request) (w : World) (p : Principal) (its : list Item)
    (e : StoreError) (f3 : option StoreError) (rest : list (option StoreError))
    (o : Order) (d1 : Db) :
  user req = Some p -> Js.truthy_str (id p) = true ->
  body_items req = Some its -> its <> [] ->
  forallb accepted its = true ->
  order_insert (id p) (Some (Js.str_or (body_status req) "pending")) its (db w) =
    (single (Some o), d1) ->
  items_insert (o_id o) its d1 = (refused e, d1) ->
  faults w = None :: None :: f3 :: rest ->
  OrderController.createOrder req w =
    (Ok (create_failure (se_message e)),
     {| db := match f3 with
              | None => snd (OrderService.delete_order (o_id o) d1)
              | Some _ => d1
              end;
        faults := rest;
        trace := trace w ++ [insert_orders_stmt; insert_items_stmt;
                             delete_order_stmt (o_id o)];
        console := console w ++ ["Supabase error creating order items:";
                                 "Error in create service:";
                                 "Error in createOrder controller:"] |}).
Proof.
  intros Hu Hid Hb Hne Hacc Hins Hitems Hf.
  unfold OrderController.createOrder, try_catch, bind, req_user, ret.
  rewrite Hu, Hb.
  destruct its as [|it more] eqn:E; [congruence|]. rewrite <- E in *.
  rewrite (validate_items_accepted its Hacc).
  rewrite (@create_items_refused (id p) its _ w e f3 rest o d1
             Hid Hne Hacc Hins Hitems Hf).
  unfold console_error, create_failure; simpl.
  rewrite <- app_assoc; simpl.
  destruct (Js.includes (se_message e) "required"
            || Js.includes (se_message e) "must have"); reflexivity.
Qed.

(** X26: when the store accepts the order row and refuses the item
    rows (a quantity or price outside its column, a product id that no
    product has), [createOrder] answers with the failure after the
    delete of the new order, and with that delete succeeding the orders
    and the order items are as they were before the request; provided
    no older row carries the new id. *)
Theorem X26_refused_items_leave_no_order
    (req : Request) (w : World) (p : Principal) (its : list Item)
    (e : StoreError) (rest : list (option StoreError)) (o : Order) (d1 : Db) :
  user req = Some p -> Js.truthy_str (id p) = true ->
  body_items req = Some its -> its <> [] ->
  forallb accepted its = true ->
  order_insert (id p) (Some (Js.str_or (body_status req) "pending")) its (db w) =
    (single (Some o), d1) ->
  items_insert (o_id o) its d1 = (refused e, d1) ->
  faults w = None :: None :: None :: rest ->
  (forall x, In x (orders (db w)) -> o_id x <> o_id o) ->
  (forall i, In i (order_items (db w)) -> order_id i <> o_id o) ->
  exists w',
    OrderController.createOrder req w = (Ok (create_failure (se_message e)), w') /\
    success (create_failure (se_message e)) = false /\
    trace w' = trace w ++ [insert_orders_stmt; insert_items_stmt;
                           delete_order_stmt (o_id o)] /\
    orders (db w') = orders (db w) /\
    order_items (db w') = order_items (db w).
Proof.
  intros Hu Hid Hb Hne Hacc Hins Hitems Hf Ho Hi.
  rewrite (@createOrder_items_refused req w p its e None rest o d1
             Hu Hid Hb Hne Hacc Hins Hitems Hf).
  destruct (order_insert_accepted _ _ _ _ Hins)
    as (owner & h & _ & _ & _ & _ & _ & Hd1).
  eexists. split; [reflexivity|]. split.
  { unfold create_failure.
    destruct (Js.includes (se_message e) "required"
              || Js.includes (se_message e) "must have"); reflexivity. }
  split; [reflexivity|].
  cbn [db snd OrderService.delete_order orders order_items].
  rewrite Hd1. cbn [orders order_items List.filter].
  rewrite String.eqb_refl. cbn [negb]. split.
  - apply (@filter_out_fresh _ o_id (o_id o) _ Ho).
  - apply (@filter_out_fresh _ order_id (o_id o) _ Hi).
Qed.

(** An order for a product that the shop does not have. *)
Lemma X26_refused_items_leave_no_order_witness :
  let its := [{| product_id := Some 9; quantity := Some 1;
                 price := Some (Js.decimal 1599 2) |}] in
  exists w',
    OrderController.createOrder (order_request alice its)
      (world_of shop [None; None; None]) =
      (Ok (sendErrorResponse 500 "Failed to create order"
             (Some (se_message fk_violation))), w') /\
    orders (db w') = [] /\ order_items (db w') = [].
Proof.
  intros its.
  pose (o := OrderService.new_order (id alice) "pending" (Js.decimal 1599 2) shop).
  pose (d1 := snd (order_insert (id alice) (Some "pending") its shop)).
  destruct (@X26_refused_items_leave_no_order (order_request alice its)
              (world_of shop [None; None; None]) alice its fk_violation [] o d1)
    as (w' & E & _ & _ & O & I').
  - reflexivity.
  - reflexivity.
  - reflexivity.
  - discriminate.
  - vm_compute. reflexivity.
  - vm_compute. reflexivity.
  - vm_compute. reflexivity.
  - reflexivity.
  - intros x [].
  - intros i [].
  - exists w'. split; [exact E|]. split; [exact O|exact I'].
Defined.
